(** * IncDev trail and score engine (incdev.py): shallow embedding and properties

    The engine consumes the chronological list of submissions of one
    (student, lab) pair and derives a score and five textual trails.

    Modelling conventions.
    - Python [int] is [Z]; list indices and [range] bounds are [nat].
    - Python [float] arithmetic is idealised as exact rational arithmetic
      ([Q]): the constants .04, .1, .5 and .7 are the rationals 4/100, 1/10,
      1/2 and 7/10, and [round] is round-half-to-even on the exact value.
      The score trail is the exception: it prints its scores, and the
      printed text depends on the kind of number ([int] or [float]) and on
      the float itself, so it is modelled over Python numbers whose float
      arithmetic is an interface ([FloatOps]).
    - A Python exception is an explicit [Raise] in the [result] monad.
    - Strings are [string]; a character is its code point below 256.
    - Timestamps are whole seconds ([Z]), as produced by the log parser.
    - The nested dictionaries of [run] are finite maps ([gmap]) keyed by
      the student and lab identifiers. *)

From Stdlib Require Import ZArith QArith Qround String Ascii List Bool Lia Lqa.
From Stdlib Require Import DecimalString.
From stdpp Require Import base list strings gmap.

Local Open Scope string_scope.
Local Open Scope list_scope.
Local Open Scope Z_scope.

(** ** Exceptions *)

Inductive exn : Set := IndexError | ZeroDivisionError.

Inductive result (A : Type) : Type :=
| Ok (a : A)
| Raise (e : exn).
Arguments Ok {A} a.
Arguments Raise {A} e.

Global Instance result_ret : MRet result := fun A a => Ok a.
Global Instance result_bind : MBind result := fun A B k m =>
  match m with
  | Ok a => k a
  | Raise e => Raise e
  end.

Definition is_ok {A} (m : result A) : bool :=
  match m with Ok _ => true | Raise _ => false end.

(** [for x in xs: s = body(x, s)] with early exit on an exception. *)
Fixpoint for_each {X S : Type} (xs : list X) (body : X -> S -> result S) (s : S)
  : result S :=
  match xs with
  | [] => Ok s
  | x :: xs' => s' ← body x s; for_each xs' body s'
  end.

(** [range(a, b)] *)
Definition range (a b : nat) : list nat := seq a (b - a).

(** [l[i]] for a non-negative index. *)
Definition get {A} (l : list A) (i : nat) : result A :=
  match l !! i with
  | Some x => Ok x
  | None => Raise IndexError
  end.

(** [l[i] = v] for a non-negative index. *)
Definition set {A} (l : list A) (i : nat) (v : A) : result (list A) :=
  if (i <? length l)%nat then Ok (<[i:=v]> l) else Raise IndexError.

(** [l[-1] = v] *)
Definition set_last {A} (l : list A) (v : A) : result (list A) :=
  match l with
  | [] => Raise IndexError
  | _ => Ok (<[pred (length l):=v]> l)
  end.

(** ** Session segmentation *)

(** The second argument of [get_submission_time_diff] is either a timestamp
    or the integer sentinel [-1]; a timestamp never compares equal to [-1]. *)
Inductive time_or_sentinel : Set :=
| Time (t : Z)
| Sentinel.

Definition get_submission_time_diff (prev : Z) (curr : time_or_sentinel) : Z :=
  match curr with
  | Sentinel => -1
  | Time c => c - prev
  end.

Definition get_sub_sessions (run_times : list Z) : result (list Z) :=
  for_each (range 1 (length run_times))
    (fun i session_breaks =>
       p ← get run_times (i - 1);
       c ← get run_times i;
       let diff := get_submission_time_diff p (Time c) in
       if diff <=? 1800 then Ok (session_breaks ++ [0])
       else Ok (session_breaks ++ [1]))
    [0].

(** ** Python string primitives *)

Definition LF : ascii := ascii_of_nat 10.
Definition CR : ascii := ascii_of_nat 13.

(** [os.linesep] (POSIX). *)
Definition linesep : string := String LF "".

(** Characters at which [str.splitlines] breaks a line. *)
Definition is_linebreak (c : ascii) : bool :=
  let n := nat_of_ascii c in
  ((10 <=? n) && (n <=? 13) || (28 <=? n) && (n <=? 30) || (n =? 133))%nat.

(** Characters removed by [str.strip] and accepted by [str.isspace]. *)
Definition is_space (c : ascii) : bool :=
  let n := nat_of_ascii c in
  ((9 <=? n) && (n <=? 13) || (28 <=? n) && (n <=? 32) || (n =? 133) || (n =? 160))%nat.

Definition is_empty (s : string) : bool :=
  match s with "" => true | _ => false end.

(** [str.splitlines(keepends)]: [cur] is the line read so far. *)
Fixpoint splitlines_from (keepends : bool) (cur s : string) : list string :=
  match s with
  | "" => if is_empty cur then [] else [cur]
  | String c rest =>
      if is_linebreak c then
        match rest with
        | String c' rest' =>
            if Ascii.eqb c CR && Ascii.eqb c' LF then
              (cur +:+ (if keepends then String c (String c' "") else ""))
                :: splitlines_from keepends "" rest'
            else
              (cur +:+ (if keepends then String c "" else ""))
                :: splitlines_from keepends "" rest
        | "" => [cur +:+ (if keepends then String c "" else "")]
        end
      else splitlines_from keepends (cur +:+ String c "") rest
  end.

Definition splitlines (keepends : bool) (s : string) : list string :=
  splitlines_from keepends "" s.

Fixpoint lstrip (s : string) : string :=
  match s with
  | String c r => if is_space c then lstrip r else s
  | "" => ""
  end.

Fixpoint rstrip (s : string) : string :=
  match s with
  | String c r =>
      let r' := rstrip r in
      if is_space c && is_empty r' then "" else String c r'
  | "" => ""
  end.

Definition strip (s : string) : string := lstrip (rstrip s).

(** [str.isspace]: non-empty and whitespace only. *)
Fixpoint all_space (s : string) : bool :=
  match s with
  | String c r => is_space c && all_space r
  | "" => true
  end.

Definition isspace (s : string) : bool := negb (is_empty s) && all_space s.

(** [sep.join(parts)] *)
Fixpoint join (sep : string) (parts : list string) : string :=
  match parts with
  | [] => ""
  | [p] => p
  | p :: ps => p +:+ sep +:+ join sep ps
  end.

Definition startswith (p s : string) : bool := String.prefix p s.

(** [s[n:]] *)
Fixpoint drop_chars (n : nat) (s : string) : string :=
  match n, s with
  | O, _ => s
  | S n', String _ r => drop_chars n' r
  | S _, "" => ""
  end.

(** [s[:-n]] *)
Definition drop_last_chars (n : nat) (s : string) : string :=
  String.substring 0 (String.length s - n) s.

(** [s[-1]], absent for the empty string. *)
Fixpoint last_char (s : string) : option ascii :=
  match s with
  | "" => None
  | String c "" => Some c
  | String _ r => last_char r
  end.

(** [str(n)] for an integer. *)
Definition str (n : Z) : string := NilZero.string_of_int (Z.to_int n).

(** ** Python numeric primitives on exact rationals *)

Definition Qgtb (a b : Q) : bool := negb (Qle_bool a b).
Definition Qltb (a b : Q) : bool := negb (Qle_bool b a).

(** [round(q)]: nearest integer, ties to the even one. *)
Definition round_half_even (q : Q) : Z :=
  let f := Qfloor q in
  let r := (q - inject_Z f)%Q in
  if Qltb r (1 # 2) then f
  else if Qgtb r (1 # 2) then f + 1
  else if Z.even f then f else f + 1.

(** [round(q, 2)] *)
Definition round2 (q : Q) : Q := inject_Z (round_half_even (q * 100)) / 100.

(** ** Submissions *)

(** The fields of [Submission] read by the engine. [type] is 1 for a
    submitted run and 0 for a develop run. *)
Record Submission : Type := {
  type : Z;
  code : string;
  sub_time : Z;
  score : Z
}.

(** [os.linesep.join([s for s in code.splitlines() if s.strip()])] *)
Definition nonblank_code (code : string) : string :=
  join linesep (List.filter (fun s => negb (is_empty (strip s))) (splitlines false code)).

(** [len(code.splitlines())] *)
Definition count_lines (code : string) : Z :=
  Z.of_nat (length (splitlines false code)).

(** ** Relevance refinement passes *)

(** Python truthiness of a location that is [None] or an index. *)
Definition truthy (loc : option nat) : bool :=
  match loc with
  | Some (S _) => true
  | _ => false
  end.

Definition loc_index (loc : option nat) : nat := default O loc.

Definition check_subsequence_length (relevance_list : list Z) : result (list Z) :=
  '(relevance_list, _, _) ←
    for_each (range 1 (length relevance_list))
      (fun i '(relevance_list, start_loc, end_loc) =>
         ri ← get relevance_list i;
         rp ← get relevance_list (i - 1);
         '(relevance_list, start_loc, end_loc) ←
           (if (ri =? 0) && (rp >? 0) then
              Ok (relevance_list, Some i, end_loc)
            else if (ri >? 0) && (rp =? 0) then
              Ok (relevance_list, start_loc, Some (i - 1)%nat)
            else if truthy start_loc
                    && (Z.of_nat i - Z.of_nat (loc_index start_loc) =? 10) then
              relevance_list ← set relevance_list i 1;
              Ok (relevance_list, None, end_loc)
            else Ok (relevance_list, start_loc, end_loc));
         if truthy start_loc && truthy end_loc then
           let s := loc_index start_loc in
           let e := loc_index end_loc in
           relevance_list ←
             (if Z.of_nat e - Z.of_nat s <? 2 then
                for_each (range s (e + 1))
                  (fun j relevance_list => set relevance_list j 1)
                  relevance_list
              else Ok relevance_list);
           Ok (relevance_list, None, None)
         else Ok (relevance_list, start_loc, end_loc))
      (relevance_list, None, None);
  Ok relevance_list.

Definition check_subsequence_values (relevance_list lines : list Z)
  : result (list Z) :=
  '(relevance_list, _, _) ←
    for_each (range 1 (length relevance_list))
      (fun i '(relevance_list, start_loc, end_loc) =>
         ri ← get relevance_list i;
         rp ← get relevance_list (i - 1);
         let '(start_loc, end_loc) :=
           if (ri =? 0) && (rp >? 0) then (Some i, end_loc)
           else if (ri >? 0) && (rp =? 0) then (start_loc, Some (i - 1)%nat)
           else (start_loc, end_loc) in
         if truthy start_loc && truthy end_loc then
           let e := loc_index end_loc in
           '(relevance_list, _) ←
             for_each (range (loc_index start_loc) (e + 1))
               (fun j '(relevance_list, start_loc) =>
                  ls ← get lines start_loc;
                  le ← get lines e;
                  lj ← get lines j;
                  if ls <? le then
                    if (lj <? ls) || (lj >? le) then
                      relevance_list ← set relevance_list j 1;
                      Ok (relevance_list, (j + 1)%nat)
                    else Ok (relevance_list, start_loc)
                  else
                    if (lj >? ls) || (lj <? le) then
                      relevance_list ← set relevance_list j 1;
                      Ok (relevance_list, (j + 1)%nat)
                    else Ok (relevance_list, start_loc))
               (relevance_list, loc_index start_loc);
           Ok (relevance_list, None, None)
         else Ok (relevance_list, start_loc, end_loc))
      (relevance_list, None, None);
  Ok relevance_list.

(** The relevance classification of [assign_loc_trail] (the seeding loop
    followed by the two refinement passes). *)
Definition classify (lines drastic_change : list Z) : result (list Z) :=
  relevance_list ←
    for_each (range 1 (length lines - 1))
      (fun i relevance_list =>
         li ← get lines i;
         lp ← get lines (i - 1);
         if li - lp >? 20 then
           relevance_list ← set_last relevance_list 1;
           Ok (relevance_list ++ [2])
         else
           notable ←
             (if Z.abs (li - lp) >? 10 then Ok true
              else d ← get drastic_change i; Ok (d =? 1));
           if notable : bool then
             relevance_list ← set_last relevance_list 1;
             Ok (relevance_list ++ [1])
           else Ok (relevance_list ++ [0]))
      [1];
  let relevance_list := relevance_list ++ [1] in
  relevance_list ← check_subsequence_values relevance_list lines;
  check_subsequence_length relevance_list.

(** ** Calendar primitives of [datetime] on whole seconds since the epoch *)

Definition day_number (t : Z) : Z := t / 86400.

(** [datetime.weekday()]: Monday is 0; day 0 was a Thursday. *)
Definition weekday (t : Z) : Z := (day_number t + 3) mod 7.

(** Month and day of the proleptic Gregorian date of a day number. *)
Definition month_day (days : Z) : Z * Z :=
  let z := days + 719468 in
  let era := z / 146097 in
  let doe := z - era * 146097 in
  let yoe := (doe - doe / 1460 + doe / 36524 - doe / 146096) / 365 in
  let doy := doe - (365 * yoe + yoe / 4 - yoe / 100) in
  let mp := (5 * doy + 2) / 153 in
  let d := doy - (153 * mp + 2) / 5 + 1 in
  let m := if mp <? 10 then mp + 3 else mp - 9 in
  (m, d).

Definition two_digits (n : Z) : string :=
  if n <? 10 then "0" +:+ str n else str n.

(** [t.strftime('%m/%d')] *)
Definition strftime_md (t : Z) : string :=
  let '(m, d) := month_day (day_number t) in
  two_digits m +:+ "/" +:+ two_digits d.

Definition get_day_of_week (datetime : Z) : result string :=
  get [" M "; " T "; " W "; " R "; " F "; " S "; " U "] (Z.to_nat (weekday datetime)).

(** [l[i]] for an index that may be negative. *)
Definition get_signed {A} (l : list A) (i : Z) : result A :=
  if i <? 0 then
    if - i <=? Z.of_nat (length l) then get l (Z.to_nat (Z.of_nat (length l) + i))
    else Raise IndexError
  else get l (Z.to_nat i).

(** ** The trail and score engine *)

Definition adjust_score (score : Q) : Q :=
  if Qgtb score 1 then 1%Q else score.

(** The loop of [assign_inc_dev_score]: the accumulator and the previous
    line count after all of [runs]. *)
Definition inc_dev_score_loop (runs : list Submission) : Q * Z :=
  fold_left
    (fun '(score, prev_lines) run =>
       let code := nonblank_code run.(code) in
       let line_count := count_lines code in
       let score :=
         if line_count - prev_lines >? 20 then
           let lines_over := line_count - prev_lines - 20 in
           (score - (4 # 100) * inject_Z lines_over)%Q
         else (score + (1 # 10))%Q in
       let score := adjust_score score in
       (score, line_count))
    runs (1%Q, 0).

Definition assign_inc_dev_score (runs : list Submission) : Q :=
  let '(score, _) := inc_dev_score_loop runs in
  let score := if Qltb score 0 then 0%Q else score in
  round2 score.

(** ** Python numbers in the score trail *)

(** The float arithmetic used by [assign_inc_dev_score_trail]. The trail
    prints [str(round(score, 2))], and what Python prints depends on the
    float itself (0.0 and -0.0 print differently, and a sum may differ from
    the exact one in its last bit), so the floats are kept abstract. *)
Class FloatOps (float : Type) : Type := {
  (** the float that an arithmetic operator makes of an [int] operand *)
  float_of_int : Z -> float;
  (** [x + y], [x - y], [x * y] and [x > y] on floats *)
  float_add : float -> float -> float;
  float_sub : float -> float -> float;
  float_mul : float -> float -> float;
  float_gt : float -> float -> bool;
  (** the literals [.04] and [.1] *)
  lit_04 : float;
  lit_1 : float;
  (** [str(round(x, 2))] for a float [x] *)
  str_round2 : float -> string
}.

(** A Python number: the score is the [int] 1 at the start and after a
    clamp ([score = 1]), and a [float] after [+=] and [-=]. *)
Inductive number (float : Type) : Type :=
| PyInt (n : Z)
| PyFloat (x : float).
Arguments PyInt {float} n.
Arguments PyFloat {float} x.

Section Numbers.

Context {float : Type} {ops : FloatOps float}.

(** The float operand that [+], [-] and [*] make of a number. *)
Definition to_float (score : number float) : float :=
  match score with
  | PyInt n => float_of_int n
  | PyFloat x => x
  end.

(** [score > 1] *)
Definition greater_than_1 (score : number float) : bool :=
  match score with
  | PyInt n => n >? 1
  | PyFloat x => float_gt x (float_of_int 1)
  end.

(** [str(round(score, 2))]: [round] leaves an [int] an [int], which prints
    without a decimal point. *)
Definition str_round (score : number float) : string :=
  match score with
  | PyInt n => str n
  | PyFloat x => str_round2 x
  end.

(** [adjust_score] on Python numbers: the score "becomes int if 'if'
    statement executes". *)
Definition adjust_score_py (score : number float) : number float :=
  if greater_than_1 score then PyInt 1 else score.

(** The loop of [assign_inc_dev_score] on Python numbers: the accumulator
    and the previous line count after all of [runs]. *)
Definition inc_dev_score_loop_py (runs : list Submission) : number float * Z :=
  fold_left
    (fun '(score, prev_lines) run =>
       let code := nonblank_code run.(code) in
       let line_count := count_lines code in
       let score :=
         if line_count - prev_lines >? 20 then
           let lines_over := line_count - prev_lines - 20 in
           PyFloat (float_sub (to_float score)
                      (float_mul lit_04 (float_of_int lines_over)))
         else PyFloat (float_add (to_float score) lit_1) in
       let score := adjust_score_py score in
       (score, line_count))
    runs (PyInt 1, 0).

End Numbers.

(** Exact rational arithmetic as float arithmetic: the idealisation under
    which [assign_inc_dev_score] is modelled; [print] is the text of a
    score rounded to two decimals. *)
Definition exact_float (print : Q -> string) : FloatOps Q :=
  {| float_of_int := inject_Z;
     float_add := Qplus;
     float_sub := Qminus;
     float_mul := Qmult;
     float_gt := Qgtb;
     lit_04 := 4 # 100;
     lit_1 := 1 # 10;
     str_round2 := fun x => print (round2 x) |}.

Section Engine.

Context {float : Type} {ops : FloatOps float}.

(** [difflib.Differ().compare], as the list of lines it yields. *)
Variable compare : list string -> list string -> list string.

Definition get_diff (sub1 sub2 : string) : result Q :=
  let lineChanges :=
    length
      (List.filter
         (fun line =>
            (startswith "+ " line || startswith "- " line)
            && negb (isspace (drop_chars 2 line)))
         (compare (splitlines true sub1) (splitlines true sub2))) in
  let lineCount :=
    length
      (List.filter (fun line => negb (is_empty line))
         (map rstrip (splitlines true sub1))) in
  if (lineCount =? 0)%nat then Raise ZeroDivisionError
  else Ok (inject_Z (Z.of_nat lineChanges) / inject_Z (Z.of_nat lineCount))%Q.

Definition assign_inc_dev_score_trail (runs : list Submission) : result string :=
  '(inc_dev_trail, _, _, _) ←
    for_each runs
      (fun run '(inc_dev_trail, score, prev_lines, prev_code) =>
         let code := nonblank_code run.(code) in
         let line_count := count_lines code in
         inc_dev_trail ←
           (if negb (is_empty prev_code) then
              change ← get_diff prev_code code;
              if Qgtb change (1 # 2) then Ok (inc_dev_trail +:+ "^")
              else Ok inc_dev_trail
            else Ok inc_dev_trail);
         let inc_dev_trail := inc_dev_trail +:+ str line_count +:+ " " in
         let '(inc_dev_trail, score) :=
           if line_count - prev_lines >? 20 then
             let lines_over := line_count - prev_lines - 20 in
             let score :=
               PyFloat (float_sub (to_float score)
                          (float_mul lit_04 (float_of_int lines_over))) in
             (inc_dev_trail +:+ "(" +:+ str_round score +:+ "), ", score)
           else
             let score := PyFloat (float_add (to_float score) lit_1) in
             let score := if greater_than_1 score then PyInt 1 else score in
             (inc_dev_trail +:+ "(" +:+ str_round score +:+ "), ", score) in
         Ok (inc_dev_trail, score, line_count, code))
      ("", PyInt 1, 0, "");
  Ok (drop_last_chars 2 inc_dev_trail).

Definition assign_loc_trail (runs : list Submission) : result string :=
  '(lines, drastic_change, _) ←
    for_each runs
      (fun run '(lines, drastic_change, prev_code) =>
         let code := nonblank_code run.(code) in
         let lines := lines ++ [count_lines code] in
         drastic_change ←
           (if negb (is_empty prev_code) then
              diff ← get_diff prev_code code;
              if Qgtb diff (7 # 10) then Ok (drastic_change ++ [1])
              else Ok (drastic_change ++ [0])
            else Ok drastic_change);
         Ok (lines, drastic_change, code))
      ([], [0], "");
  relevance_list ← classify lines drastic_change;
  l0 ← get lines 0;
  for_each (range 1 (length lines))
    (fun i loc_trail =>
       r ← get relevance_list i;
       if r =? 0 then Ok (loc_trail +:+ ".")
       else
         c ← from_option Ok (Raise IndexError) (last_char loc_trail);
         let loc_trail :=
           if negb (Ascii.eqb c ".") then loc_trail +:+ "," else loc_trail in
         d ← get drastic_change i;
         let loc_trail := if d =? 1 then loc_trail +:+ "^" else loc_trail in
         li ← get lines i;
         if r =? 1 then Ok (loc_trail +:+ str li)
         else Ok (loc_trail +:+ str li +:+ "*"))
    (str l0).

Definition assign_drastic_change_trail (runs : list Submission) : result string :=
  '(dc_trail, _, _) ←
    for_each runs
      (fun run '(dc_trail, run_num, prev_code) =>
         let code := nonblank_code run.(code) in
         dc_trail ←
           (if negb (is_empty prev_code) then
              diff ← get_diff prev_code code;
              if Qgtb diff (7 # 10) then Ok (dc_trail +:+ str run_num +:+ ", ")
              else Ok dc_trail
            else Ok dc_trail);
         Ok (dc_trail, run_num + 1, code))
      ("", 1, "");
  Ok (drop_last_chars 2 dc_trail).

End Engine.

Definition special_chars : list ascii := ["-"; ","; "/"; " "]%char.

Definition assign_time_trail (runs : list Submission) : result string :=
  let '(sub_times, all_times) :=
    fold_left
      (fun '(sub_times, all_times) run =>
         let all_times := all_times ++ [run.(sub_time)] in
         if run.(type) =? 1 then (sub_times ++ [Time run.(sub_time)], all_times)
         else (sub_times ++ [Sentinel], all_times))
      runs ([], []) in
  session_breaks ← get_sub_sessions all_times;
  '(sub_time_trail, _) ←
    for_each (range 0 (length sub_times))
      (fun i '(sub_time_trail, prev) =>
         b ← get session_breaks i;
         let '(sub_time_trail, prev) :=
           if b =? 1 then (sub_time_trail +:+ " / ", None)
           else (sub_time_trail, prev) in
         t ← get sub_times i;
         match t with
         | Sentinel => Ok (sub_time_trail +:+ "-", prev)
         | Time ti =>
             let sub_time_trail :=
               match last_char sub_time_trail with
               | Some c =>
                   if negb (bool_decide (c ∈ special_chars))
                   then sub_time_trail +:+ ","
                   else sub_time_trail
               | None => sub_time_trail
               end in
             match prev with
             | None => Ok (sub_time_trail +:+ "0", Some ti)
             | Some p =>
                 let diff := get_submission_time_diff p (Time ti) in
                 let diff := (inject_Z diff / 60)%Q in
                 Ok (sub_time_trail +:+ str (round_half_even diff), Some ti)
             end
         end)
      ("", None);
  Ok sub_time_trail.

Definition assign_coding_trail (runs : list Submission) : result string :=
  let run_type := map type runs in
  let datetime := map sub_time runs in
  let scores := map (fun run => if run.(type) =? 0 then -1 else run.(score)) runs in
  week_marker ← get datetime 0;
  '(coding_trail, _) ←
    for_each (range 0 (length runs))
      (fun i '(coding_trail, week_marker) =>
         di ← get datetime i;
         day ← get_day_of_week di;
         '(coding_trail, week_marker) ←
           (if (i =? 0)%nat then Ok (strftime_md di +:+ day, week_marker)
            else
              dp ← get_signed datetime (Z.of_nat i - 1);
              prev_day ← get_day_of_week dp;
              if negb (String.eqb prev_day day) then
                let '(coding_trail, week_marker) :=
                  if day_number di - day_number week_marker >=? 7
                  then (coding_trail +:+ " " +:+ strftime_md di, di)
                  else (coding_trail, week_marker) in
                Ok (coding_trail +:+ day, week_marker)
              else Ok (coding_trail, week_marker));
         ti ← get run_type i;
         if ti =? 0 then Ok (coding_trail +:+ "-", week_marker)
         else
           tp ← get_signed run_type (Z.of_nat i - 1);
           si ← get scores i;
           no_comma ←
             (if (tp =? 0) || (i =? 0)%nat then Ok true
              else
                c ← from_option Ok (Raise IndexError) (last_char coding_trail);
                Ok (Ascii.eqb c " "));
           if no_comma : bool then Ok (coding_trail +:+ str si, week_marker)
           else Ok (coding_trail +:+ "," +:+ str si, week_marker))
      ("", week_marker);
  Ok coding_trail.

(** One result record of [run] for a (student, lab) pair. *)
Record incdev_record : Type := {
  incdev_score : Q;
  incdev_score_trail : string;
  loc_trail : string;
  time_trail : string;
  coding_trail : string;
  drastic_change_trail : string
}.

(** The body of the loop of [run] for one list of runs. *)
Definition run_one {float : Type} {ops : FloatOps float}
    (compare : list string -> list string -> list string)
    (runs : list Submission) : result incdev_record :=
  let s := assign_inc_dev_score runs in
  st ← assign_inc_dev_score_trail compare runs;
  lt ← assign_loc_trail compare runs;
  tt ← assign_time_trail runs;
  ct ← assign_coding_trail runs;
  dt ← assign_drastic_change_trail compare runs;
  Ok {| incdev_score := s; incdev_score_trail := st; loc_trail := lt;
        time_trail := tt; coding_trail := ct; drastic_change_trail := dt |}.

(** [run]: the nested dictionaries are finite maps keyed by the student and
    lab identifiers; a dictionary is traversed in the order of its list of
    entries. The record of a pair is created with its fields at 0 and then
    overwritten field by field, which [run_one] does in one step; the inner
    dictionary [incdev_data[user_id]] exists when it is read, since it is
    created at the top of the outer loop body. *)
Definition run {float : Type} {ops : FloatOps float}
    (compare : list string -> list string -> list string)
    (data : gmap string (gmap string (list Submission)))
  : result (gmap string (gmap string incdev_record)) :=
  for_each (map_to_list data)
    (fun '(user_id, labs) incdev_data =>
       let incdev_data :=
         match incdev_data !! user_id with
         | None => <[user_id := ∅]> incdev_data
         | Some _ => incdev_data
         end in
       for_each (map_to_list labs)
         (fun '(lab_id, runs) incdev_data =>
            r ← run_one compare runs;
            Ok (<[user_id := <[lab_id := r]> (default ∅ (incdev_data !! user_id))]>
                  incdev_data))
         incdev_data)
    ∅.

(** ** Timestamps of the activity log (main.py) *)

(** [str.split()]: the maximal fields without whitespace; [cur] is the
    field read so far. *)
Fixpoint split_from (cur s : string) : list string :=
  match s with
  | "" => if is_empty cur then [] else [cur]
  | String c r =>
      if is_space c then
        if is_empty cur then split_from "" r else cur :: split_from "" r
      else split_from (cur +:+ String c "") r
  end.

Definition split (s : string) : list string := split_from "" s.

(** [s.find(c)] for a single character: the first index of [c], or -1. *)
Fixpoint find (s : string) (c : ascii) : Z :=
  match s with
  | "" => -1
  | String x r =>
      if Ascii.eqb x c then 0
      else let k := find r c in if k <? 0 then -1 else k + 1
  end.

(** [s[0:stop]], where a negative [stop] counts from the end. *)
Definition slice_to (s : string) (stop : Z) : string :=
  let stop :=
    if stop <? 0 then Z.max (Z.of_nat (String.length s) + stop) 0 else stop in
  String.substring 0 (Z.to_nat stop) s.

(** What a call of [get_valid_datetime] ends in. *)
Inductive datetime_result : Type :=
| Datetime (d : Z)
| RaiseIndexError
| RaiseValueError (message : string).

Section Timestamps.

(** [datetime.strptime(t, fmt)], with [None] for its [ValueError]. *)
Variable strptime : string -> string -> option Z.

(** The loop over the formats: the first one that [strptime] accepts. *)
Fixpoint try_formats (t : string) (formats : list string) : option Z :=
  match formats with
  | [] => None
  | fmt :: rest =>
      match strptime t fmt with
      | Some d => Some d
      | None => try_formats t rest
      end
  end.

(** The loop over the three formats and the final [raise]. *)
Definition parse_formats (t : string) : datetime_result :=
  match
    try_formats t ["%Y-%m-%d %H:%M:%S"; "%m/%d/%Y %H:%M:%S"; "%Y-%m-%d"]
  with
  | Some d => Datetime d
  | None => RaiseValueError ("Cannot recognize datetime format: " +:+ t)
  end.

Definition get_valid_datetime (timestamp : string) : datetime_result :=
  let t := timestamp in
  let t_split := split timestamp in
  match
    (field ← get t_split 1;
     if negb (find field "-" =? 0) then
       t_split ← set t_split 1 (slice_to field (find field "-"));
       Ok (join " " t_split)
     else Ok t)
  with
  | Ok t => parse_formats t
  | Raise _ => RaiseIndexError
  end.

End Timestamps.

(** ** Auxiliary notions for the statements *)

(** The concatenation of a list of lines. *)
Fixpoint concat_lines (lines : list string) : string :=
  match lines with
  | [] => ""
  | l :: ls => l +:+ concat_lines ls
  end.

(** The number of lines that [get_diff] divides by. *)
Definition lineCount_of (sub1 : string) : nat :=
  length
    (List.filter (fun line => negb (is_empty line))
       (map rstrip (splitlines true sub1))).

(** A computation that does not end in a division by zero. *)
Definition no_zero_division {A : Type} (m : result A) : Prop :=
  m <> Raise ZeroDivisionError.

(** A relevance tag: 0 omits a run, 1 marks it notable, 2 marks a violation. *)
Definition is_tag (x : Z) : Prop := x = 0 \/ x = 1 \/ x = 2.

(** The lengths of the maximal runs of consecutive 0-tags of a list, in
    order; [cur] zeros precede the list. *)
Fixpoint zero_runs_from (cur : nat) (l : list Z) : list nat :=
  match l with
  | [] => if (cur =? 0)%nat then [] else [cur]
  | x :: rest =>
      if x =? 0 then zero_runs_from (S cur) rest
      else (if (cur =? 0)%nat then [] else [cur]) ++ zero_runs_from 0 rest
  end.

Definition zero_runs (l : list Z) : list nat := zero_runs_from 0 l.

(** [after] is [before] with some tags overwritten by 1. *)
Definition promoted (before after : list Z) : Prop :=
  length after = length before /\
  forall j x, before !! j = Some x -> after !! j = Some x \/ after !! j = Some 1.

(** A run of omitted tags of admissible length. *)
Definition bounded_run (m : nat) : Prop := (3 <= m <= 10)%nat.

(** The state of the loop of [check_subsequence_length] after the indices
    [1 .. k] of the list [rl]: either no run is open, the tag at [k] is
    notable and the runs up to [k] are bounded; or a run of at most 10
    omitted tags is open from [s] to [k], preceded by a notable tag, and the
    runs before [s] are bounded. *)
Definition run_length_invariant (rl : list Z) (k : nat)
    (state : list Z * option nat * option nat) : Prop :=
  let '(rl', start_loc, end_loc) := state in
  promoted rl rl' /\ end_loc = None /\
  (forall j, (k < j)%nat -> rl' !! j = rl !! j) /\
  match start_loc with
  | None =>
      (exists x, rl' !! k = Some x /\ 0 < x) /\
      Forall bounded_run (zero_runs (take (S k) rl'))
  | Some s =>
      (1 <= s <= k)%nat /\ (k - s <= 9)%nat /\
      (exists x, rl' !! (s - 1)%nat = Some x /\ 0 < x) /\
      (forall j, (s <= j <= k)%nat -> rl' !! j = Some 0) /\
      Forall bounded_run (zero_runs (take s rl'))
  end.





(** ** The score recurrence in the words of the specification *)

(** One step on the line-count delta of a run: add 0.10 when the delta is
    at most 20, subtract 0.04 per line over 20 otherwise, then clamp the
    ceiling to 1.0. *)
Definition score_step (score : Q) (delta : Z) : Q :=
  let score :=
    if delta >? 20 then (score - (4 # 100) * inject_Z (delta - 20))%Q
    else (score + (1 # 10))%Q in
  if Qgtb score 1 then 1%Q else score.

(** The accumulator after the runs with the given non-blank line counts,
    started at [score] with previous line count [prev]. *)
Fixpoint score_after (score : Q) (prev : Z) (line_counts : list Z) : Q :=
  match line_counts with
  | [] => score
  | n :: rest => score_after (score_step score (n - prev)) n rest
  end.

Definition nonblank_line_counts (runs : list Submission) : list Z :=
  map (fun run => count_lines (nonblank_code run.(code))) runs.

(** Start at 1.0, step over every run, clamp the floor to 0 once at the
    end, round to two decimals. *)
Definition spec_score (runs : list Submission) : Q :=
  let score := score_after 1 0 (nonblank_line_counts runs) in
  round2 (if Qltb score 0 then 0%Q else score).

(** ** The trails in the words of the specification *)

Definition stripped_codes (runs : list Submission) : list string :=
  map (fun run => nonblank_code run.(code)) runs.

(** The 1-based positions of the [true] entries of a list of flags whose
    first entry has position [pos]. *)
Fixpoint positions_of_true (pos : Z) (flags : list bool) : list Z :=
  match flags with
  | [] => []
  | b :: rest =>
      (if b then [pos] else []) ++ positions_of_true (pos + 1) rest
  end.

Section TrailSpec.

Context {float : Type} {ops : FloatOps float}.

Variable compare : list string -> list string -> list string.

(** One step of the score recurrence on Python numbers: add 0.10 when the
    delta is at most 20, subtract 0.04 per line over 20 otherwise, then
    clamp the ceiling to 1. *)
Definition number_step (score : number float) (delta : Z) : number float :=
  let score :=
    if delta >? 20 then
      PyFloat (float_sub (to_float score)
                 (float_mul lit_04 (float_of_int (delta - 20))))
    else PyFloat (float_add (to_float score) lit_1) in
  if greater_than_1 score then PyInt 1 else score.

(** The accumulator of the score recurrence after each run. *)
Fixpoint running_scores (score : number float) (prev : Z) (line_counts : list Z)
  : list (number float) :=
  match line_counts with
  | [] => []
  | n :: rest =>
      let score := number_step score (n - prev) in
      score :: running_scores score n rest
  end.

(** The score updates of the loop of [assign_inc_dev_score_trail], which
    clamps after an increment only. *)
Definition trail_step (score : number float) (delta : Z) : number float :=
  if delta >? 20 then
    PyFloat (float_sub (to_float score)
               (float_mul lit_04 (float_of_int (delta - 20))))
  else
    let score := PyFloat (float_add (to_float score) lit_1) in
    if greater_than_1 score then PyInt 1 else score.

Fixpoint trail_scores (score : number float) (prev : Z) (line_counts : list Z)
  : list (number float) :=
  match line_counts with
  | [] => []
  | n :: rest =>
      let score := trail_step score (n - prev) in
      score :: trail_scores score n rest
  end.

(** A penalty never lifts a score above 1: a number that is not greater
    than 1 is not greater than 1 after [.04 * lines_over] is subtracted
    from it, for [lines_over >= 1]. Exact arithmetic has this property, and
    so has every float arithmetic whose rounding is monotone. *)
Definition penalty_keeps_ceiling : Prop :=
  forall (score : number float) (lines_over : Z),
    greater_than_1 score = false -> 1 <= lines_over ->
    greater_than_1
      (PyFloat (float_sub (to_float score)
                  (float_mul lit_04 (float_of_int lines_over)))) = false.

(** The diff ratio of [cur] against [prev] exceeds [threshold]; a ratio
    that is not defined exceeds nothing. *)
Definition ratio_exceeds (threshold : Q) (prev cur : string) : bool :=
  match get_diff compare prev cur with
  | Ok ratio => Qgtb ratio threshold
  | Raise _ => false
  end.

(** For each run, whether the diff ratio of its stripped code against the
    stripped code of the immediately preceding run exceeds [threshold];
    [prev] is the code preceding the first of [codes], if any. *)
Fixpoint change_flags (threshold : Q) (prev : option string)
    (codes : list string) : list bool :=
  match codes with
  | [] => []
  | c :: rest =>
      match prev with
      | Some p => ratio_exceeds threshold p c
      | None => false
      end :: change_flags threshold (Some c) rest
  end.

(** One token of the score trail: [^] when flagged, the line count, and
    the score in parentheses. *)
Definition score_token (caret : bool) (count_score : Z * number float) : string :=
  (if caret then "^" else "") +:+ str count_score.1
    +:+ " (" +:+ str_round count_score.2 +:+ ")".

(** The text of the score trail: the tokens of the runs, separated by
    ", ". *)
Definition rendered_score_trail (runs : list Submission) : string :=
  let counts := nonblank_line_counts runs in
  join ", "
    (zip_with score_token
       (change_flags (1 # 2) None (stripped_codes runs))
       (zip counts (trail_scores (PyInt 1) 0 counts))).

Definition spec_drastic_change_trail (runs : list Submission) : string :=
  join ", "
    (map str
       (positions_of_true 1 (change_flags (7 # 10) None (stripped_codes runs)))).

End TrailSpec.

(** ** Further notions for the statements *)

(** No run adds more than 20 non-blank lines to its predecessor, the
    first run being compared with [prev]. *)
Fixpoint steady_growth (prev : Z) (line_counts : list Z) : Prop :=
  match line_counts with
  | [] => True
  | n :: rest => n - prev <= 20 /\ steady_growth n rest
  end.

(** A text without any character at which [str.splitlines] breaks. *)
Fixpoint no_linebreak (s : string) : bool :=
  match s with
  | "" => true
  | String c r => negb (is_linebreak c) && no_linebreak r
  end.

(** The lines of a text that are kept by the blank-line filter. *)
Definition nonblank_lines (code : string) : list string :=
  List.filter (fun s => negb (is_empty (strip s))) (splitlines false code).

(** A text without whitespace. *)
Fixpoint no_whitespace (s : string) : bool :=
  match s with
  | "" => true
  | String c r => negb (is_space c) && no_whitespace r
  end.

(** The number of runs among [codes] whose predecessor has a non-empty
    stripped code, [prev] being the code before the first of them. *)
Fixpoint flagged_runs (prev : string) (codes : list string) : nat :=
  match codes with
  | [] => O
  | c :: rest => ((if is_empty prev then 0 else 1) + flagged_runs c rest)%nat
  end.

(** The state of the seeding loop of [assign_loc_trail] after the indices
    [1 .. k]: a tag 2 marks a run that added more than 20 lines and whose
    successor, if already seen, was not notable; a run whose successor was
    notable has tag 1. *)
Definition seeded (lines drastic_change : list Z) (k : nat) (rl : list Z) : Prop :=
  length rl = Datatypes.S k /\
  (forall j, rl !! j = Some 2 ->
     (1 <= j <= k)%nat /\
     exists a b, lines !! (j - 1)%nat = Some a /\ lines !! j = Some b /\ b - a > 20 /\
       forall c, (j + 1 <= k)%nat -> lines !! (j + 1)%nat = Some c ->
                 Z.abs (c - b) <= 10 /\ drastic_change !! (j + 1)%nat <> Some 1) /\
  (forall j b c, (j + 1 <= k)%nat ->
     lines !! j = Some b -> lines !! (j + 1)%nat = Some c ->
     Z.abs (c - b) > 10 \/ drastic_change !! (j + 1)%nat = Some 1 ->
     rl !! j = Some 1).

(** [out] holds, for exactly the (student, lab) pairs of [data], the record
    computed from the runs of the pair. *)
Definition reported {float : Type} {ops : FloatOps float}
    (compare : list string -> list string -> list string)
    (data : gmap string (gmap string (list Submission)))
    (out : gmap string (gmap string incdev_record)) : Prop :=
  map_Forall2 (M := gmap string)
    (fun _ labs recs =>
       map_Forall2 (M := gmap string)
         (fun _ runs r => run_one compare runs = Ok r) labs recs)
    data out.

(** * Properties *)

Local Arguments String.append : simpl nomatch.

(** ** Loops and indexing *)

Lemma bind_Ok {A B} (m : result A) (k : A -> result B) (a : A) :
  m = Ok a -> (m ≫= k) = k a.
Proof. intros ->. reflexivity. Qed.

Lemma bind_Raise {A B} (m : result A) (k : A -> result B) (e : exn) :
  m = Raise e -> (m ≫= k) = Raise e.
Proof. intros ->. reflexivity. Qed.

Lemma get_Ok {A} (l : list A) (i : nat) (x : A) :
  l !! i = Some x -> get l i = Ok x.
Proof. unfold get. intros ->. reflexivity. Qed.

Lemma get_Raise {A} (l : list A) (i : nat) :
  (length l <= i)%nat -> get l i = Raise IndexError.
Proof. intros H. unfold get. rewrite lookup_ge_None_2; [reflexivity | exact H]. Qed.

Lemma get_lt {A} (l : list A) (i : nat) :
  (i < length l)%nat -> exists x, l !! i = Some x /\ get l i = Ok x.
Proof.
  intros H. destruct (lookup_lt_is_Some_2 l i H) as [x Hx].
  exists x. split; [exact Hx | apply get_Ok, Hx].
Qed.

Lemma set_Ok {A} (l : list A) (i : nat) (v : A) :
  (i < length l)%nat -> set l i v = Ok (<[i:=v]> l).
Proof.
  intros H. unfold set. destruct (Nat.ltb_spec i (length l)); [reflexivity | lia].
Qed.

Lemma set_last_Ok {A} (l : list A) (v : A) :
  l <> [] -> set_last l v = Ok (<[pred (length l):=v]> l).
Proof. destruct l; [congruence | reflexivity]. Qed.

Lemma range_lookup (a b k : nat) :
  (k < b - a)%nat -> range a b !! k = Some (a + k)%nat.
Proof. intros H. unfold range. apply lookup_seq_lt, H. Qed.

Lemma range_lookup_inv (a b k x : nat) :
  range a b !! k = Some x -> x = (a + k)%nat /\ (k < b - a)%nat.
Proof. unfold range. intros H. apply lookup_seq in H. exact H. Qed.

Lemma range_length (a b : nat) : length (range a b) = (b - a)%nat.
Proof. unfold range. apply length_seq. Qed.

(** A loop whose body preserves an invariant indexed by the number of
    completed iterations runs to completion and establishes it. *)
Lemma for_each_invariant {X S : Type} (P : nat -> S -> Prop)
    (xs : list X) (body : X -> S -> result S) (s0 : S) :
  P O s0 ->
  (forall k x s, xs !! k = Some x -> P k s ->
                 exists s', body x s = Ok s' /\ P (Datatypes.S k) s') ->
  exists s', for_each xs body s0 = Ok s' /\ P (length xs) s'.
Proof.
  revert P s0. induction xs as [|x xs IH]; intros P s0 H0 Hstep.
  - exists s0. split; [reflexivity | exact H0].
  - destruct (Hstep O x s0 eq_refl H0) as (s1 & Hb & H1).
    destruct (IH (fun k => P (Datatypes.S k)) s1 H1) as (s' & Hrun & Hs').
    + intros k y s Hk Hs. apply (Hstep (Datatypes.S k) y s Hk Hs).
    + exists s'. split; [| exact Hs'].
      cbn [for_each]. rewrite (bind_Ok _ _ _ Hb). exact Hrun.
Qed.

Lemma for_each_app {X S : Type} (xs ys : list X) (body : X -> S -> result S) (s : S) :
  for_each (xs ++ ys) body s = (for_each xs body s ≫= for_each ys body).
Proof.
  revert s. induction xs as [|x xs IH]; intros s; cbn [for_each app].
  - reflexivity.
  - destruct (body x s) as [s'|e]; cbn; [apply IH | reflexivity].
Qed.

(** ** Session breaks (C5) *)

Lemma get_sub_sessions_invariant (ts : list Z) :
  exists sb,
    get_sub_sessions ts = Ok sb /\
    length sb = Datatypes.S (length ts - 1) /\
    sb !! O = Some 0 /\
    forall i p c, (1 <= i)%nat -> ts !! (i - 1)%nat = Some p -> ts !! i = Some c ->
                  sb !! i = Some (if c - p <=? 1800 then 0 else 1).
Proof.
  unfold get_sub_sessions.
  destruct (for_each_invariant
    (fun k sb =>
       length sb = Datatypes.S k /\ sb !! O = Some 0 /\
       forall i p c, (1 <= i <= k)%nat -> ts !! (i - 1)%nat = Some p ->
                     ts !! i = Some c ->
                     sb !! i = Some (if c - p <=? 1800 then 0 else 1))
    (range 1 (length ts))
    (fun i session_breaks =>
       p ← get ts (i - 1);
       c ← get ts i;
       let diff := get_submission_time_diff p (Time c) in
       if diff <=? 1800 then Ok (session_breaks ++ [0])
       else Ok (session_breaks ++ [1]))
    [0]) as (sb & Hrun & Hlen & H0 & Hall).
  - repeat split; intros; lia.
  - intros k x sb Hk (Hlen & H0 & Hall).
    apply range_lookup_inv in Hk as [-> Hk].
    destruct (get_lt ts (1 + k - 1)) as (p & Hp & Gp); [lia |].
    destruct (get_lt ts (1 + k)) as (c & Hc & Gc); [lia |].
    exists (sb ++ [if c - p <=? 1800 then 0 else 1]).
    split.
    + rewrite (bind_Ok _ _ _ Gp), (bind_Ok _ _ _ Gc). cbn.
      destruct (c - p <=? 1800); reflexivity.
    + split; [rewrite length_app; cbn; lia |].
      split; [rewrite lookup_app_l; [exact H0 | lia] |].
      intros i p' c' Hi Hp' Hc'.
      destruct (decide (i = Datatypes.S k)) as [-> | Hne].
      * replace (1 + k - 1)%nat with (Datatypes.S k - 1)%nat in Hp by lia.
        change (1 + k)%nat with (Datatypes.S k) in Hc.
        rewrite Hp in Hp'. rewrite Hc in Hc'.
        injection Hp' as <-. injection Hc' as <-.
        rewrite lookup_app_r; [| lia].
        rewrite Hlen, Nat.sub_diag. reflexivity.
      * rewrite lookup_app_l; [| lia]. apply Hall; [lia | exact Hp' | exact Hc'].
  - rewrite range_length in *.
    exists sb. split; [exact Hrun |]. split; [exact Hlen |]. split; [exact H0 |].
    intros i p c Hi Hp Hc. apply Hall; [| exact Hp | exact Hc].
    apply lookup_lt_Some in Hc. lia.
Qed.

(** C5. For a non-empty list of timestamps [get_sub_sessions] returns a list
    aligned to the input whose first element is 0 and whose element [i >= 1]
    is 1 exactly when [timestamps[i] - timestamps[i-1]] is strictly greater
    than 1800 seconds, and 0 otherwise; a gap of exactly 1800 seconds gives
    no break and a gap of 1801 seconds gives one. *)
Theorem get_sub_sessions_breaks (ts : list Z) :
  ts <> [] ->
  exists sb,
    get_sub_sessions ts = Ok sb /\
    length sb = length ts /\
    sb !! O = Some 0 /\
    (forall i p c, (1 <= i)%nat -> ts !! (i - 1)%nat = Some p -> ts !! i = Some c ->
       exists b, sb !! i = Some b /\ (b = 0 \/ b = 1) /\ (b = 1 <-> c - p > 1800)) /\
    (forall t, get_sub_sessions [t; t + 1800] = Ok [0; 0]) /\
    (forall t, get_sub_sessions [t; t + 1801] = Ok [0; 1]).
Proof.
  intros Hne.
  destruct (get_sub_sessions_invariant ts) as (sb & Hrun & Hlen & H0 & Hall).
  exists sb. split; [exact Hrun |].
  split; [destruct ts; [congruence | cbn in *; lia] |].
  split; [exact H0 |].
  split.
  - intros i p c Hi Hp Hc. rewrite (Hall i p c Hi Hp Hc).
    destruct (Z.leb_spec (c - p) 1800).
    + exists 0. split; [reflexivity |]. split; [left; reflexivity | lia].
    + exists 1. split; [reflexivity |]. split; [right; reflexivity | lia].
  - split; intros t; unfold get_sub_sessions; cbn.
    + replace (t + 1800 - t) with 1800 by lia. reflexivity.
    + replace (t + 1801 - t) with 1801 by lia. reflexivity.
Qed.

Lemma get_sub_sessions_breaks_witness :
  exists sb,
    get_sub_sessions [0; 1800; 3601] = Ok sb /\
    length sb = 3%nat /\ sb !! O = Some 0 /\ sb !! 1%nat = Some 0 /\ sb !! 2%nat = Some 1.
Proof.
  destruct (get_sub_sessions_breaks [0; 1800; 3601]) as (sb & Hrun & Hlen & H0 & Hall & _).
  - discriminate.
  - exists sb. split; [exact Hrun |]. split; [exact Hlen |]. split; [exact H0 |].
    vm_compute in Hrun. injection Hrun as <-. split; reflexivity.
Defined.

(** ** The score (C1) *)

Lemma Qgtb_true (a b : Q) : Qgtb a b = true <-> (b < a)%Q.
Proof.
  unfold Qgtb. rewrite negb_true_iff, <- not_true_iff_false, Qle_bool_iff.
  split; [apply Qnot_le_lt | apply Qlt_not_le].
Qed.

Lemma Qgtb_false (a b : Q) : Qgtb a b = false <-> (a <= b)%Q.
Proof. unfold Qgtb. rewrite negb_false_iff. apply Qle_bool_iff. Qed.

Lemma Qltb_true (a b : Q) : Qltb a b = true <-> (a < b)%Q.
Proof. apply (Qgtb_true b a). Qed.

Lemma Qltb_false (a b : Q) : Qltb a b = false <-> (b <= a)%Q.
Proof. apply (Qgtb_false b a). Qed.

Lemma round_half_even_lower (q : Q) (n : Z) :
  (inject_Z n <= q)%Q -> n <= round_half_even q.
Proof.
  intros H. assert (Hf : n <= Qfloor q).
  { rewrite <- (Qfloor_Z n). apply Qfloor_resp_le, H. }
  unfold round_half_even.
  destruct (Qltb _ _); [exact Hf |].
  destruct (Qgtb _ _); [lia |].
  destruct (Z.even _); lia.
Qed.

Lemma round_half_even_upper (q : Q) (n : Z) :
  (q <= inject_Z n)%Q -> round_half_even q <= n.
Proof.
  intros H. assert (Hf : Qfloor q <= n).
  { rewrite <- (Qfloor_Z n). apply Qfloor_resp_le, H. }
  unfold round_half_even.
  destruct (Qltb _ _) eqn:Hlt; [exact Hf |].
  apply Qltb_false in Hlt.
  assert (Hne : Qfloor q <> n).
  { intros E. rewrite E in Hlt. clear Hf E.
    revert H Hlt. generalize (inject_Z n). intros x H Hlt. lra. }
  destruct (Qgtb _ _); [lia |].
  destruct (Z.even _); lia.
Qed.

Lemma round2_bounds (q : Q) : (0 <= q <= 1)%Q -> (0 <= round2 q <= 1)%Q.
Proof.
  intros [H0 H1]. unfold round2.
  assert (L : 0 <= round_half_even (q * 100)).
  { apply round_half_even_lower. change (inject_Z 0) with 0%Q. lra. }
  assert (U : round_half_even (q * 100) <= 100).
  { apply round_half_even_upper. change (inject_Z 100) with 100%Q. lra. }
  assert (L' : (inject_Z 0 <= inject_Z (round_half_even (q * 100)))%Q)
    by (rewrite <- Zle_Qle; exact L).
  assert (U' : (inject_Z (round_half_even (q * 100)) <= inject_Z 100)%Q)
    by (rewrite <- Zle_Qle; exact U).
  change (inject_Z 0) with 0%Q in L'. change (inject_Z 100) with 100%Q in U'.
  split; [apply Qle_shift_div_l | apply Qle_shift_div_r]; lra.
Qed.

Lemma adjust_score_step (score : Q) (delta : Z) :
  adjust_score
    (if delta >? 20 then (score - (4 # 100) * inject_Z (delta - 20))%Q
     else (score + (1 # 10))%Q)
  = score_step score delta.
Proof. reflexivity. Qed.

Lemma score_step_le_1 (score : Q) (delta : Z) : (score_step score delta <= 1)%Q.
Proof.
  unfold score_step.
  destruct (Qgtb _ 1) eqn:H; [lra | apply Qgtb_false in H; exact H].
Qed.

Lemma inc_dev_score_loop_from (runs : list Submission) (score : Q) (prev : Z) :
  fold_left
    (fun '(score, prev_lines) run =>
       let code := nonblank_code run.(code) in
       let line_count := count_lines code in
       let score :=
         if line_count - prev_lines >? 20 then
           let lines_over := line_count - prev_lines - 20 in
           (score - (4 # 100) * inject_Z lines_over)%Q
         else (score + (1 # 10))%Q in
       let score := adjust_score score in
       (score, line_count))
    runs (score, prev)
  = (score_after score prev (nonblank_line_counts runs),
     fold_left (fun _ n => n) (nonblank_line_counts runs) prev).
Proof.
  revert score prev. induction runs as [|run runs IH]; intros score prev.
  - reflexivity.
  - cbn [fold_left nonblank_line_counts map score_after].
    cbv zeta. rewrite adjust_score_step, IH. reflexivity.
Qed.

Lemma inc_dev_score_loop_spec (runs : list Submission) :
  inc_dev_score_loop runs
  = (score_after 1 0 (nonblank_line_counts runs),
     fold_left (fun _ n => n) (nonblank_line_counts runs) 0).
Proof. apply inc_dev_score_loop_from. Qed.

Lemma score_after_le_1 (counts : list Z) (score : Q) (prev : Z) :
  (score <= 1)%Q -> (score_after score prev counts <= 1)%Q.
Proof.
  revert score prev. induction counts as [|n rest IH]; intros score prev H.
  - exact H.
  - cbn [score_after]. apply IH, score_step_le_1.
Qed.

(** C1. The value returned by [assign_inc_dev_score] is the recurrence of
    the specification (start at 1.0; per run add 0.10 when the non-blank line
    delta is at most 20 and subtract 0.04 * (delta - 20) otherwise; ceiling
    clamp to 1.0 after every step; floor clamp to 0 once after the last step;
    round to two decimals), every intermediate accumulator is at most 1, and
    the returned value lies in [0, 1]. This holds for every run sequence, in
    particular for every sequence of length at least 1. *)
Theorem assign_inc_dev_score_in_unit_interval (runs : list Submission) :
  assign_inc_dev_score runs = spec_score runs /\
  (forall k, score_after 1 0 (take k (nonblank_line_counts runs)) <= 1)%Q /\
  (0 <= assign_inc_dev_score runs <= 1)%Q.
Proof.
  assert (E : assign_inc_dev_score runs = spec_score runs).
  { unfold assign_inc_dev_score, spec_score.
    rewrite inc_dev_score_loop_spec. reflexivity. }
  split; [exact E |]. split.
  - intros k. apply score_after_le_1. lra.
  - rewrite E. unfold spec_score. apply round2_bounds.
    pose proof (score_after_le_1 (nonblank_line_counts runs) 1 0) as H.
    destruct (Qltb _ 0) eqn:Hlt.
    + lra.
    + apply Qltb_false in Hlt. split; [exact Hlt | apply H; lra].
Qed.

(** ** Blank-line stripping and the denominator of [get_diff] *)

Lemma append_assoc (a b c : string) : (a +:+ b) +:+ c = a +:+ (b +:+ c).
Proof. induction a as [|x a IH]; simpl; [reflexivity | rewrite IH; reflexivity]. Qed.

Lemma append_empty_r (a : string) : a +:+ "" = a.
Proof. induction a as [|x a IH]; simpl; [reflexivity | rewrite IH; reflexivity]. Qed.

Lemma all_space_append (a b : string) :
  all_space (a +:+ b) = all_space a && all_space b.
Proof.
  induction a as [|x a IH]; cbn; [reflexivity |].
  rewrite IH. apply andb_assoc.
Qed.

Lemma is_empty_rstrip (s : string) : is_empty (rstrip s) = all_space s.
Proof.
  induction s as [|c s IH]; cbn; [reflexivity |].
  rewrite IH. destruct (is_space c), (all_space s); reflexivity.
Qed.

Lemma all_space_rstrip (s : string) : all_space (rstrip s) = all_space s.
Proof.
  induction s as [|c s IH]; cbn; [reflexivity |].
  rewrite is_empty_rstrip.
  destruct (is_space c) eqn:Hc, (all_space s) eqn:Hs; cbn; rewrite ?Hc, ?IH; reflexivity.
Qed.

Lemma is_empty_lstrip (s : string) : is_empty (lstrip s) = all_space s.
Proof.
  induction s as [|c s IH]; cbn; [reflexivity |].
  destruct (is_space c); [exact IH | reflexivity].
Qed.

Lemma is_empty_strip (s : string) : is_empty (strip s) = all_space s.
Proof. unfold strip. rewrite is_empty_lstrip. apply all_space_rstrip. Qed.

(** With [keepends], the lines of [splitlines] concatenate to the text. *)
Lemma concat_splitlines_from (n : nat) :
  forall s cur, (String.length s <= n)%nat ->
                concat_lines (splitlines_from true cur s) = cur +:+ s.
Proof.
  induction n as [|n IH]; intros s cur Hlen.
  - destruct s; [| cbn in Hlen; lia]. cbn.
    destruct cur; cbn; rewrite ?append_empty_r; reflexivity.
  - destruct s as [|c rest].
    + cbn. destruct cur; cbn; rewrite ?append_empty_r; reflexivity.
    + cbn [splitlines_from]. cbn in Hlen.
      destruct (is_linebreak c).
      * destruct rest as [|c' rest'].
        -- cbn. rewrite append_empty_r. reflexivity.
        -- destruct (Ascii.eqb c CR && Ascii.eqb c' LF).
           ++ cbn [concat_lines]. rewrite IH by (cbn in Hlen; lia).
              rewrite append_assoc. reflexivity.
           ++ cbn [concat_lines]. rewrite IH by lia.
              rewrite append_assoc. reflexivity.
      * rewrite IH by lia. rewrite append_assoc. reflexivity.
Qed.

Lemma concat_splitlines (s : string) : concat_lines (splitlines true s) = s.
Proof. apply (concat_splitlines_from (String.length s)). lia. Qed.

Lemma all_space_concat_lines (lines : list string) :
  all_space (concat_lines lines) = forallb all_space lines.
Proof.
  induction lines as [|l ls IH]; cbn; [reflexivity |].
  rewrite all_space_append, IH. reflexivity.
Qed.

Lemma lineCount_of_lines (lines : list string) :
  forallb all_space lines = false ->
  (1 <= length (List.filter (fun line => negb (is_empty line)) (map rstrip lines)))%nat.
Proof.
  induction lines as [|l ls IH]; cbn; [discriminate |].
  rewrite is_empty_rstrip.
  destruct (all_space l); cbn; [exact IH | lia].
Qed.

Lemma lineCount_of_zero (lines : list string) :
  forallb all_space lines = true ->
  length (List.filter (fun line => negb (is_empty line)) (map rstrip lines)) = O.
Proof.
  induction lines as [|l ls IH]; cbn; [reflexivity |].
  rewrite is_empty_rstrip.
  destruct (all_space l); cbn; [exact IH | discriminate].
Qed.

Lemma lineCount_of_pos (sub1 : string) :
  all_space sub1 = false -> (1 <= lineCount_of sub1)%nat.
Proof.
  intros H. apply lineCount_of_lines.
  rewrite <- all_space_concat_lines, concat_splitlines. exact H.
Qed.

Lemma all_space_join_filter (lines : list string) :
  let kept := List.filter (fun s => negb (is_empty (strip s))) lines in
  is_empty (join linesep kept) = false -> all_space (join linesep kept) = false.
Proof.
  induction lines as [|l ls IH]; cbn; [discriminate |].
  rewrite is_empty_strip.
  destruct (all_space l) eqn:Hl; cbn; [exact IH |].
  intros _.
  destruct (List.filter _ ls); [exact Hl |].
  rewrite all_space_append, Hl. reflexivity.
Qed.

(** A non-empty stripped code has a character that is not whitespace. *)
Lemma nonblank_code_all_space (code : string) :
  is_empty (nonblank_code code) = false -> all_space (nonblank_code code) = false.
Proof. apply all_space_join_filter. Qed.

Lemma substring_prefix (x y : string) :
  String.substring 0 (String.length x) (x +:+ y) = x.
Proof.
  induction x as [|c x IH]; simpl.
  - destruct y; reflexivity.
  - rewrite IH. reflexivity.
Qed.

Lemma length_append (x y : string) :
  String.length (x +:+ y) = (String.length x + String.length y)%nat.
Proof. induction x as [|c x IH]; simpl; [reflexivity | rewrite IH; reflexivity]. Qed.

Lemma drop_last_chars_append (x y : string) :
  drop_last_chars (String.length y) (x +:+ y) = x.
Proof.
  unfold drop_last_chars. rewrite length_append.
  replace (String.length x + String.length y - String.length y)%nat
    with (String.length x) by lia.
  apply substring_prefix.
Qed.

(** Dropping the final separator of "token, token, " leaves the join. *)
Lemma concat_lines_join (sep : string) (tokens : list string) :
  tokens <> [] ->
  concat_lines (map (fun t => t +:+ sep) tokens) = join sep tokens +:+ sep.
Proof.
  induction tokens as [|t ts IH]; [congruence |]. intros _.
  destruct ts as [|t' ts].
  - simpl. rewrite append_empty_r. reflexivity.
  - change (concat_lines (map (fun t => t +:+ sep) (t :: t' :: ts)))
      with ((t +:+ sep) +:+ concat_lines (map (fun t => t +:+ sep) (t' :: ts))).
    rewrite IH by discriminate.
    change (join sep (t :: t' :: ts)) with (t +:+ sep +:+ join sep (t' :: ts)).
    rewrite !append_assoc. reflexivity.
Qed.

Lemma drop_separator (sep : string) (tokens : list string) :
  drop_last_chars (String.length sep) (concat_lines (map (fun t => t +:+ sep) tokens))
  = join sep tokens.
Proof.
  destruct tokens as [|t ts].
  - reflexivity.
  - rewrite concat_lines_join by discriminate. apply drop_last_chars_append.
Qed.

Lemma no_zero_division_Ok {A : Type} (a : A) : no_zero_division (Ok a).
Proof. discriminate. Qed.

Lemma no_zero_division_IndexError {A : Type} :
  no_zero_division (Raise IndexError : result A).
Proof. discriminate. Qed.

Lemma no_zero_division_bind {A B : Type} (m : result A) (k : A -> result B) :
  no_zero_division m -> (forall a, no_zero_division (k a)) ->
  no_zero_division (m ≫= k).
Proof.
  intros Hm Hk. destruct m as [a | e]; [apply Hk |].
  intros E. apply Hm. cbn in E. injection E as ->. reflexivity.
Qed.

Lemma no_zero_division_for_each {X S : Type} (xs : list X)
    (body : X -> S -> result S) (s : S) :
  (forall x s, no_zero_division (body x s)) ->
  no_zero_division (for_each xs body s).
Proof.
  intros Hbody. revert s. induction xs as [|x xs IH]; intros s; cbn [for_each].
  - discriminate.
  - apply no_zero_division_bind; [apply Hbody | exact IH].
Qed.

Lemma no_zero_division_get {A : Type} (l : list A) (i : nat) :
  no_zero_division (get l i).
Proof. unfold get. destruct (l !! i); discriminate. Qed.

Lemma no_zero_division_set {A : Type} (l : list A) (i : nat) (v : A) :
  no_zero_division (set l i v).
Proof. unfold set. destruct (i <? length l)%nat; discriminate. Qed.

Lemma no_zero_division_set_last {A : Type} (l : list A) (v : A) :
  no_zero_division (set_last l v).
Proof. destruct l; discriminate. Qed.

Ltac no_zero_division :=
  repeat first
    [ progress intros
    | apply no_zero_division_Ok
    | apply no_zero_division_IndexError
    | apply no_zero_division_get
    | apply no_zero_division_set
    | apply no_zero_division_set_last
    | apply no_zero_division_bind
    | apply no_zero_division_for_each
    | progress cbv zeta
    | match goal with
      | |- no_zero_division (from_option _ _ ?o) => destruct o; cbn [from_option]
      | |- no_zero_division (match ?x with _ => _ end) => destruct x
      end ].

Lemma classify_no_zero_division (lines drastic_change : list Z) :
  no_zero_division (classify lines drastic_change).
Proof.
  unfold classify, check_subsequence_values, check_subsequence_length.
  no_zero_division.
Qed.

Section EngineProperties.

Context {float : Type} {ops : FloatOps float}.

Variable compare : list string -> list string -> list string.

Lemma get_diff_Ok (sub1 sub2 : string) :
  all_space sub1 = false -> exists ratio, get_diff compare sub1 sub2 = Ok ratio.
Proof.
  intros H. apply lineCount_of_pos in H. unfold lineCount_of in H.
  unfold get_diff. cbv zeta.
  destruct (Nat.eqb_spec
    (length (List.filter (fun line => negb (is_empty line))
               (map rstrip (splitlines true sub1)))) 0) as [E | _].
  - rewrite E in H. lia.
  - eexists. reflexivity.
Qed.

Lemma get_diff_empty (sub2 : string) :
  get_diff compare "" sub2 = Raise ZeroDivisionError.
Proof. reflexivity. Qed.

(** The guarded call of [get_diff] made by the three trail loops. *)
Lemma guarded_diff {A : Type} (threshold : Q) (prev cur : string) (a b : A) :
  (is_empty prev = false -> all_space prev = false) ->
  (if negb (is_empty prev) then
     change ← get_diff compare prev cur;
     if Qgtb change threshold then Ok a else Ok b
   else Ok b)
  = Ok (if ratio_exceeds compare threshold prev cur then a else b).
Proof.
  intros H. unfold ratio_exceeds. destruct (is_empty prev) eqn:E.
  - destruct prev; [| discriminate]. rewrite get_diff_empty. reflexivity.
  - destruct (get_diff_Ok prev cur (H eq_refl)) as [r Hr].
    rewrite Hr. cbn. destruct (Qgtb r threshold); reflexivity.
Qed.

Lemma ratio_exceeds_iff (threshold : Q) (prev cur : string) :
  ratio_exceeds compare threshold prev cur = true <->
  exists ratio, get_diff compare prev cur = Ok ratio /\ (threshold < ratio)%Q.
Proof.
  unfold ratio_exceeds. destruct (get_diff compare prev cur) as [r | e].
  - rewrite Qgtb_true. split.
    + intros H. exists r. split; [reflexivity | exact H].
    + intros (r' & E & H). injection E as ->. exact H.
  - split; [discriminate | intros (r & E & _); discriminate].
Qed.

Lemma change_flags_length (threshold : Q) (codes : list string) (prev : option string) :
  length (change_flags compare threshold prev codes) = length codes.
Proof.
  revert prev. induction codes as [|c rest IH]; intros prev; cbn;
    [reflexivity | rewrite IH; reflexivity].
Qed.

Lemma change_flags_first (threshold : Q) (c : string) (rest : list string) :
  change_flags compare threshold None (c :: rest) !! O = Some false.
Proof. reflexivity. Qed.

Lemma change_flags_lookup (threshold : Q) (codes : list string) :
  forall (prev : option string) (k : nat) (p c : string),
    codes !! k = Some p -> codes !! Datatypes.S k = Some c ->
    change_flags compare threshold prev codes !! Datatypes.S k
    = Some (ratio_exceeds compare threshold p c).
Proof.
  induction codes as [|c0 rest IH]; intros prev k p c Hp Hc; [discriminate |].
  destruct k as [|k].
  - cbn in Hp. injection Hp as ->.
    destruct rest as [|c1 rest]; [discriminate |].
    cbn in Hc. injection Hc as ->. reflexivity.
  - cbn [change_flags]. rewrite lookup_cons.
    apply (IH (Some c0) k p c); assumption.
Qed.

Lemma running_scores_length (counts : list Z) (score : number float) (prev : Z) :
  length (running_scores score prev counts) = length counts.
Proof.
  revert score prev. induction counts as [|n rest IH]; intros score prev; cbn;
    [reflexivity | rewrite IH; reflexivity].
Qed.

Lemma number_step_ceiling (score : number float) (delta : Z) :
  greater_than_1 (number_step score delta) = false.
Proof.
  unfold number_step. cbv zeta.
  match goal with
  | |- context [if greater_than_1 ?x then _ else _] =>
      destruct (greater_than_1 x) eqn:H; [reflexivity | exact H]
  end.
Qed.

(** Under [penalty_keeps_ceiling] the missing clamp of the penalty branch
    of the trail makes no difference. *)
Lemma trail_step_number_step (score : number float) (delta : Z) :
  penalty_keeps_ceiling -> greater_than_1 score = false ->
  trail_step score delta = number_step score delta.
Proof.
  intros Hpen Hs. unfold trail_step, number_step. cbv zeta.
  destruct (Z.gtb_spec delta 20) as [Hd | _]; [| reflexivity].
  rewrite (Hpen score (delta - 20) Hs) by lia. reflexivity.
Qed.

Lemma trail_scores_running_scores (counts : list Z) :
  penalty_keeps_ceiling ->
  forall (score : number float) (prev : Z),
    greater_than_1 score = false ->
    trail_scores score prev counts = running_scores score prev counts.
Proof.
  intros Hpen. induction counts as [|n rest IH]; intros score prev Hs; [reflexivity |].
  cbn [trail_scores running_scores]. cbv zeta.
  rewrite (trail_step_number_step score (n - prev) Hpen Hs).
  rewrite IH by apply number_step_ceiling. reflexivity.
Qed.

(** The accumulators of the recurrence are those of the loop of
    [assign_inc_dev_score] on Python numbers. *)
Lemma running_scores_loop (runs : list Submission) :
  forall (score : number float) (prev : Z) (k : nat), (k < length runs)%nat ->
    running_scores score prev (nonblank_line_counts runs) !! k
    = Some
        (fold_left
           (fun '(score, prev_lines) run =>
              let code := nonblank_code run.(code) in
              let line_count := count_lines code in
              let score :=
                if line_count - prev_lines >? 20 then
                  let lines_over := line_count - prev_lines - 20 in
                  PyFloat (float_sub (to_float score)
                             (float_mul lit_04 (float_of_int lines_over)))
                else PyFloat (float_add (to_float score) lit_1) in
              let score := adjust_score_py score in
              (score, line_count))
           (take (Datatypes.S k) runs) (score, prev)).1.
Proof.
  induction runs as [|run runs IH]; intros score prev k Hk; [cbn in Hk; lia |].
  destruct k as [|k].
  - reflexivity.
  - cbn [nonblank_line_counts map running_scores]. cbv zeta. rewrite lookup_cons.
    change (map (fun run => count_lines (nonblank_code (code run))) runs)
      with (nonblank_line_counts runs).
    rewrite IH by (cbn in Hk; lia). reflexivity.
Qed.

(** The loop of [assign_inc_dev_score_trail] appends one rendered token
    and a separator per run. *)
Lemma score_trail_loop (runs : list Submission) :
  forall (acc : string) (score : number float) (prev_lines : Z) (prev_code : string)
         (prev : option string),
    (is_empty prev_code = false -> all_space prev_code = false) ->
    (prev = None /\ prev_code = "" \/ prev = Some prev_code) ->
    exists score' prev_lines' prev_code',
      for_each runs
        (fun run '(inc_dev_trail, score, prev_lines, prev_code) =>
           let code := nonblank_code run.(code) in
           let line_count := count_lines code in
           inc_dev_trail ←
             (if negb (is_empty prev_code) then
                change ← get_diff compare prev_code code;
                if Qgtb change (1 # 2) then Ok (inc_dev_trail +:+ "^")
                else Ok inc_dev_trail
              else Ok inc_dev_trail);
           let inc_dev_trail := inc_dev_trail +:+ str line_count +:+ " " in
           let '(inc_dev_trail, score) :=
             if line_count - prev_lines >? 20 then
               let lines_over := line_count - prev_lines - 20 in
               let score :=
                 PyFloat (float_sub (to_float score)
                            (float_mul lit_04 (float_of_int lines_over))) in
               (inc_dev_trail +:+ "(" +:+ str_round score +:+ "), ", score)
             else
               let score := PyFloat (float_add (to_float score) lit_1) in
               let score := if greater_than_1 score then PyInt 1 else score in
               (inc_dev_trail +:+ "(" +:+ str_round score +:+ "), ", score) in
           Ok (inc_dev_trail, score, line_count, code))
        (acc, score, prev_lines, prev_code)
      = Ok (acc +:+
              concat_lines
                (map (fun t => t +:+ ", ")
                   (zip_with score_token
                      (change_flags compare (1 # 2) prev (stripped_codes runs))
                      (zip (nonblank_line_counts runs)
                         (trail_scores score prev_lines
                            (nonblank_line_counts runs))))),
            score', prev_lines', prev_code').
Proof.
  induction runs as [|run runs IH];
    intros acc score prev_lines prev_code prev Hcode Hprev.
  - exists score, prev_lines, prev_code. cbn. rewrite append_empty_r. reflexivity.
  - cbn [for_each]. cbv zeta.
    rewrite (guarded_diff (1 # 2) prev_code (nonblank_code (code run))
               (acc +:+ "^") acc Hcode).
    cbn [mbind result_bind].
    set (c := nonblank_code (code run)).
    set (n := count_lines c).
    assert (Hflag : match prev with
                    | Some p => ratio_exceeds compare (1 # 2) p c
                    | None => false
                    end = ratio_exceeds compare (1 # 2) prev_code c).
    { destruct Hprev as [[-> ->] | ->]; [| reflexivity].
      unfold ratio_exceeds. rewrite get_diff_empty. reflexivity. }
    set (flag := ratio_exceeds compare (1 # 2) prev_code c) in *.
    match goal with
    | |- context [mbind _ ?m] =>
        assert (Hbody : m = Ok (acc +:+ score_token flag
                                        (n, trail_step score (n - prev_lines))
                                +:+ ", ",
                                trail_step score (n - prev_lines), n, c))
    end.
    { unfold trail_step, score_token. cbn [fst snd]. cbv zeta.
      destruct (n - prev_lines >? 20); destruct flag;
        rewrite ?append_assoc; reflexivity. }
    rewrite (bind_Ok _ _ _ Hbody).
    destruct (IH (acc +:+ score_token flag
                          (n, trail_step score (n - prev_lines)) +:+ ", ")
                (trail_step score (n - prev_lines)) n c (Some c))
      as (score' & lines' & code' & Hrun).
    + apply nonblank_code_all_space.
    + right. reflexivity.
    + exists score', lines', code'.
      etransitivity; [exact Hrun |].
      subst flag n c.
      cbn [stripped_codes nonblank_line_counts map change_flags trail_scores
           zip zip_with concat_lines].
      rewrite Hflag. rewrite !append_assoc. reflexivity.
Qed.

Lemma assign_inc_dev_score_trail_spec (runs : list Submission) :
  assign_inc_dev_score_trail compare runs
  = Ok (rendered_score_trail compare runs).
Proof.
  unfold assign_inc_dev_score_trail, rendered_score_trail.
  destruct (score_trail_loop runs "" (PyInt 1) 0 "" None) as (s' & l' & c' & Hrun).
  - discriminate.
  - left. split; reflexivity.
  - rewrite (bind_Ok _ _ _ Hrun). cbn [mbind result_bind]. f_equal.
    change ("" +:+ ?x) with x.
    apply (drop_separator ", ").
Qed.

(** The loop of [assign_drastic_change_trail] appends the number of each
    flagged run and a separator. *)
Lemma drastic_change_loop (runs : list Submission) :
  forall (acc : string) (run_num : Z) (prev_code : string) (prev : option string),
    (is_empty prev_code = false -> all_space prev_code = false) ->
    (prev = None /\ prev_code = "" \/ prev = Some prev_code) ->
    exists run_num' prev_code',
      for_each runs
        (fun run '(dc_trail, run_num, prev_code) =>
           let code := nonblank_code run.(code) in
           dc_trail ←
             (if negb (is_empty prev_code) then
                diff ← get_diff compare prev_code code;
                if Qgtb diff (7 # 10) then Ok (dc_trail +:+ str run_num +:+ ", ")
                else Ok dc_trail
              else Ok dc_trail);
           Ok (dc_trail, run_num + 1, code))
        (acc, run_num, prev_code)
      = Ok (acc +:+
              concat_lines
                (map (fun t => t +:+ ", ")
                   (map str
                      (positions_of_true run_num
                         (change_flags compare (7 # 10) prev (stripped_codes runs))))),
            run_num', prev_code').
Proof.
  induction runs as [|run runs IH]; intros acc run_num prev_code prev Hcode Hprev.
  - exists run_num, prev_code. cbn. rewrite append_empty_r. reflexivity.
  - cbn [for_each]. cbv zeta.
    rewrite (guarded_diff (7 # 10) prev_code (nonblank_code (code run))
               (acc +:+ str run_num +:+ ", ") acc Hcode).
    cbn [mbind result_bind].
    assert (Hflag : match prev with
                    | Some p => ratio_exceeds compare (7 # 10) p (nonblank_code (code run))
                    | None => false
                    end
                    = ratio_exceeds compare (7 # 10) prev_code (nonblank_code (code run))).
    { destruct Hprev as [[-> ->] | ->]; [| reflexivity].
      unfold ratio_exceeds. rewrite get_diff_empty. reflexivity. }
    destruct (IH (if ratio_exceeds compare (7 # 10) prev_code (nonblank_code (code run))
                  then acc +:+ str run_num +:+ ", " else acc)
                (run_num + 1) (nonblank_code (code run))
                (Some (nonblank_code (code run))))
      as (num' & code' & Hrun).
    + apply nonblank_code_all_space.
    + right. reflexivity.
    + exists num', code'.
      etransitivity; [exact Hrun |].
      cbn [stripped_codes map change_flags positions_of_true].
      rewrite Hflag.
      destruct (ratio_exceeds compare (7 # 10) prev_code (nonblank_code (code run)));
        cbn [app map concat_lines]; rewrite ?append_assoc; reflexivity.
Qed.

Lemma assign_drastic_change_trail_spec (runs : list Submission) :
  assign_drastic_change_trail compare runs
  = Ok (spec_drastic_change_trail compare runs).
Proof.
  unfold assign_drastic_change_trail, spec_drastic_change_trail.
  destruct (drastic_change_loop runs "" 1 "" None) as (n' & c' & Hrun).
  - discriminate.
  - left. split; reflexivity.
  - rewrite (bind_Ok _ _ _ Hrun). cbn [mbind result_bind]. f_equal.
    change ("" +:+ ?x) with x.
    apply (drop_separator ", ").
Qed.

Lemma positions_of_true_iff (flags : list bool) (pos i : Z) :
  i ∈ positions_of_true pos flags <->
  exists k : nat, i = pos + Z.of_nat k /\ flags !! k = Some true.
Proof.
  revert pos. induction flags as [|b rest IH]; intros pos; cbn [positions_of_true].
  - split; [intros H; inversion H | intros (k & _ & H); discriminate].
  - rewrite elem_of_app, IH. split.
    + intros [H | (k & -> & Hk)].
      * destruct b; [| inversion H]. apply list_elem_of_singleton in H as ->.
        exists O. split; [lia | reflexivity].
      * exists (Datatypes.S k). split; [lia | exact Hk].
    + intros (k & -> & Hk). destruct k as [|k].
      * left. cbn in Hk. injection Hk as ->.
        apply list_elem_of_singleton. lia.
      * right. exists k. split; [lia | exact Hk].
Qed.

Lemma change_flags_true_iff (threshold : Q) (codes : list string) (j : nat) :
  change_flags compare threshold None codes !! j = Some true <->
  exists (k : nat) (p c : string),
    j = Datatypes.S k /\ codes !! k = Some p /\ codes !! Datatypes.S k = Some c /\
    exists ratio, get_diff compare p c = Ok ratio /\ (threshold < ratio)%Q.
Proof.
  split.
  - intros H. destruct j as [|k].
    + destruct codes; discriminate.
    + assert (Hlt : (Datatypes.S k < length codes)%nat).
      { rewrite <- (change_flags_length threshold codes None).
        apply lookup_lt_Some in H. exact H. }
      destruct (lookup_lt_is_Some_2 codes k) as [p Hp]; [lia |].
      destruct (lookup_lt_is_Some_2 codes (Datatypes.S k) Hlt) as [c Hc].
      rewrite (change_flags_lookup threshold codes None k p c Hp Hc) in H.
      injection H as H. apply ratio_exceeds_iff in H.
      exists k, p, c. repeat split; assumption.
  - intros (k & p & c & -> & Hp & Hc & Hr).
    rewrite (change_flags_lookup threshold codes None k p c Hp Hc).
    f_equal. apply ratio_exceeds_iff. exact Hr.
Qed.

(** Under exact arithmetic the loop of [assign_inc_dev_score] on Python
    numbers is the loop of [assign_inc_dev_score] on rationals. *)
Lemma inc_dev_score_loop_exact (print : Q -> string) (runs : list Submission) :
  (to_float (ops := exact_float print)
     (inc_dev_score_loop_py (ops := exact_float print) runs).1,
   (inc_dev_score_loop_py (ops := exact_float print) runs).2)
  = inc_dev_score_loop runs.
Proof.
  unfold inc_dev_score_loop_py, inc_dev_score_loop.
  change (1%Q, 0) with (to_float (ops := exact_float print) (PyInt 1), 0).
  generalize (PyInt 1 : number Q) 0.
  induction runs as [|run runs IH]; intros score prev; [reflexivity |].
  cbn [fold_left]. cbv zeta. rewrite IH. f_equal. unfold adjust_score_py, adjust_score.
  destruct (count_lines (nonblank_code (code run)) - prev >? 20);
    cbn [greater_than_1 to_float float_gt float_sub float_add float_mul
         float_of_int lit_04 lit_1 exact_float];
    match goal with
    | |- context [Qgtb ?x ?y] => change y with 1%Q; destruct (Qgtb x 1)
    end; reflexivity.
Qed.

Lemma exact_float_penalty (print : Q -> string) :
  penalty_keeps_ceiling (ops := exact_float print).
Proof.
  intros score lines_over Hs Hn.
  assert (Hle : (to_float (ops := exact_float print) score <= 1)%Q).
  { destruct score as [m | x]; cbn in Hs |- *.
    - change 1%Q with (inject_Z 1). rewrite <- Zle_Qle. lia.
    - apply Qgtb_false in Hs. exact Hs. }
  cbn [greater_than_1 float_gt float_sub float_mul float_of_int lit_04 exact_float].
  apply Qgtb_false. change (inject_Z 1) with 1%Q.
  assert (H1 : (inject_Z 1 <= inject_Z lines_over)%Q) by (rewrite <- Zle_Qle; lia).
  change (inject_Z 1) with 1%Q in H1.
  revert Hle H1. generalize (to_float (ops := exact_float print) score).
  generalize (inject_Z lines_over). intros x y Hy Hx. lra.
Qed.

(** C6. The score trail is the comma-separated list of tokens
    "count (score)" in which the score of run [k] is printed from the
    accumulator of the loop of [assign_inc_dev_score] after the first
    [k + 1] runs (start 1, +0.10 or -0.04 * (delta - 20), ceiling clamp to 1
    after every step), and the token of a run carries the prefix [^]
    exactly when the diff ratio of its stripped code against the stripped
    code of the immediately preceding run exceeds 0.5. The trail does not
    clamp after a penalty, which makes no difference as a penalty never
    lifts a score above 1. Under exact arithmetic the accumulators are
    those of [assign_inc_dev_score] on rationals. *)
Theorem assign_inc_dev_score_trail_recurrence (runs : list Submission) :
  penalty_keeps_ceiling ->
  let codes := stripped_codes runs in
  let counts := nonblank_line_counts runs in
  let flags := change_flags compare (1 # 2) None codes in
  let scores := running_scores (PyInt 1) 0 counts in
  assign_inc_dev_score_trail compare runs
  = Ok (join ", " (zip_with score_token flags (zip counts scores))) /\
  length flags = length runs /\
  length counts = length runs /\
  length scores = length runs /\
  (forall k, (k < length runs)%nat ->
             scores !! k = Some (inc_dev_score_loop_py (take (Datatypes.S k) runs)).1) /\
  (forall (print : Q -> string) (rs : list Submission),
      to_float (ops := exact_float print)
        (inc_dev_score_loop_py (ops := exact_float print) rs).1
      = (inc_dev_score_loop rs).1) /\
  (forall j, flags !! j = Some true <->
             exists (k : nat) (p c : string),
               j = Datatypes.S k /\ codes !! k = Some p /\
               codes !! Datatypes.S k = Some c /\
               exists ratio, get_diff compare p c = Ok ratio /\ (1 # 2 < ratio)%Q) /\
  (forall n s, score_token false (n, s) = str n +:+ " (" +:+ str_round s +:+ ")") /\
  (forall n s, score_token true (n, s) = "^" +:+ score_token false (n, s)).
Proof.
  intros Hpen. cbv zeta. split.
  - rewrite assign_inc_dev_score_trail_spec. unfold rendered_score_trail. cbv zeta.
    rewrite (trail_scores_running_scores _ Hpen) by reflexivity. reflexivity.
  - split; [rewrite change_flags_length; apply length_map |].
    split; [apply length_map |].
    split; [rewrite running_scores_length; apply length_map |].
    split; [| split; [| split; [| split]]].
    + intros k Hk. apply (running_scores_loop runs (PyInt 1) 0 k Hk).
    + intros print rs. rewrite <- (inc_dev_score_loop_exact print rs). reflexivity.
    + intros j. apply change_flags_true_iff.
    + intros n s. reflexivity.
    + intros n s. reflexivity.
Qed.

(** C7. The drastic-change trail is the list, joined with ", ", of the
    1-based numbers of exactly those runs whose diff ratio against their
    immediate predecessor exceeds 0.7, and it is empty for a sequence of
    at most one run. *)
Theorem assign_drastic_change_trail_indices (runs : list Submission) :
  let codes := stripped_codes runs in
  let flags := change_flags compare (7 # 10) None codes in
  assign_drastic_change_trail compare runs
  = Ok (join ", " (map str (positions_of_true 1 flags))) /\
  (forall i, i ∈ positions_of_true 1 flags <->
             exists (k : nat) (p c : string),
               i = Z.of_nat (Datatypes.S k) + 1 /\
               codes !! k = Some p /\ codes !! Datatypes.S k = Some c /\
               exists ratio, get_diff compare p c = Ok ratio /\ (7 # 10 < ratio)%Q) /\
  ((length runs <= 1)%nat -> assign_drastic_change_trail compare runs = Ok "").
Proof.
  cbv zeta. split; [apply assign_drastic_change_trail_spec |]. split.
  - intros i. rewrite positions_of_true_iff. split.
    + intros (j & -> & Hj). apply change_flags_true_iff in Hj.
      destruct Hj as (k & p & c & -> & Hp & Hc & Hr).
      exists k, p, c. split; [lia |]. repeat split; assumption.
    + intros (k & p & c & -> & Hp & Hc & Hr).
      exists (Datatypes.S k). split; [lia |].
      apply change_flags_true_iff. exists k, p, c. repeat split; assumption.
  - intros Hlen. rewrite assign_drastic_change_trail_spec.
    destruct runs as [|r [|r' runs]]; [reflexivity | reflexivity | cbn in Hlen; lia].
Qed.

(** The first loop of [assign_loc_trail] never fails: it collects the
    line counts and a list of flags. *)
Lemma loc_trail_loop (runs : list Submission) :
  forall (lines drastic_change : list Z) (prev_code : string),
    (is_empty prev_code = false -> all_space prev_code = false) ->
    exists drastic_change' prev_code',
      for_each runs
        (fun run '(lines, drastic_change, prev_code) =>
           let code := nonblank_code run.(code) in
           let lines := lines ++ [count_lines code] in
           drastic_change ←
             (if negb (is_empty prev_code) then
                diff ← get_diff compare prev_code code;
                if Qgtb diff (7 # 10) then Ok (drastic_change ++ [1])
                else Ok (drastic_change ++ [0])
              else Ok drastic_change);
           Ok (lines, drastic_change, code))
        (lines, drastic_change, prev_code)
      = Ok (lines ++ nonblank_line_counts runs, drastic_change', prev_code').
Proof.
  induction runs as [|run runs IH]; intros lines drastic_change prev_code Hcode.
  - exists drastic_change, prev_code. cbn. rewrite app_nil_r. reflexivity.
  - cbn [for_each]. cbv zeta.
    destruct (is_empty prev_code) eqn:E; cbn [negb].
    + cbn [mbind result_bind].
      destruct (IH (lines ++ [count_lines (nonblank_code (code run))])
                  drastic_change (nonblank_code (code run)))
        as (d' & c' & Hrun); [apply nonblank_code_all_space |].
      exists d', c'. etransitivity; [exact Hrun |].
      cbn [nonblank_line_counts map]. rewrite <- app_assoc. reflexivity.
    + destruct (get_diff_Ok prev_code (nonblank_code (code run)) (Hcode eq_refl))
        as [r Hr].
      rewrite Hr. cbn [mbind result_bind].
      destruct (IH (lines ++ [count_lines (nonblank_code (code run))])
                  (if Qgtb r (7 # 10) then drastic_change ++ [1]
                   else drastic_change ++ [0])
                  (nonblank_code (code run)))
        as (d' & c' & Hrun); [apply nonblank_code_all_space |].
      exists d', c'. destruct (Qgtb r (7 # 10));
        (etransitivity; [exact Hrun |]);
        cbn [nonblank_line_counts map]; rewrite <- app_assoc; reflexivity.
Qed.

Lemma assign_loc_trail_no_zero_division (runs : list Submission) :
  no_zero_division (assign_loc_trail compare runs).
Proof.
  unfold assign_loc_trail.
  destruct (loc_trail_loop runs [] [0] "") as (d' & c' & Hrun); [discriminate |].
  rewrite (bind_Ok _ _ _ Hrun).
  apply no_zero_division_bind; [apply classify_no_zero_division |].
  no_zero_division.
Qed.

(** C10. The division in [get_diff] is defined at every call site of the
    engine: a non-empty blank-line-stripped code has at least one line
    that is not blank, so [get_diff] returns a ratio for it; the score
    trail and the drastic-change trail, which call [get_diff] only under
    that guard, always return, and the LOC trail never ends in a division
    by zero. *)
Theorem get_diff_denominator_nonzero :
  (forall code sub2 : string,
      is_empty (nonblank_code code) = false ->
      (1 <= lineCount_of (nonblank_code code))%nat /\
      exists ratio, get_diff compare (nonblank_code code) sub2 = Ok ratio) /\
  (forall runs, exists trail,
      assign_inc_dev_score_trail compare runs = Ok trail) /\
  (forall runs, exists trail,
      assign_drastic_change_trail compare runs = Ok trail) /\
  (forall runs, assign_loc_trail compare runs <> Raise ZeroDivisionError).
Proof.
  split; [| split; [| split]].
  - intros code sub2 H. apply nonblank_code_all_space in H.
    split; [apply lineCount_of_pos, H | apply get_diff_Ok, H].
  - intros runs. eexists. apply assign_inc_dev_score_trail_spec.
  - intros runs. eexists. apply assign_drastic_change_trail_spec.
  - intros runs. apply assign_loc_trail_no_zero_division.
Qed.

End EngineProperties.

Lemma assign_inc_dev_score_trail_recurrence_witness :
  let hundredths := exact_float (fun score => str (round_half_even (score * 100))) in
  let runs :=
    [ {| type := 1; code := join linesep (replicate 21 "a"); sub_time := 0; score := 0 |};
      {| type := 1; code := join linesep (replicate 21 "a"); sub_time := 60; score := 0 |} ] in
  penalty_keeps_ceiling (ops := hundredths) /\
  assign_inc_dev_score_trail (ops := hundredths) (fun _ _ => []) runs
  = Ok "21 (96), 21 (1)".
Proof.
  cbv zeta. split; [apply exact_float_penalty |].
  etransitivity.
  - apply (assign_inc_dev_score_trail_recurrence (fun _ _ => []) _
             (exact_float_penalty _)).
  - vm_compute. reflexivity.
Defined.

(** ** Empty run sequences (C2) *)

(** C2, as stated, fails: on the empty run sequence [assign_loc_trail] and
    [assign_coding_trail] raise instead of returning an empty trail. *)
Lemma empty_sequence_raises :
  ~ (forall (float : Type) (ops : FloatOps float) compare, exists r,
       run_one compare [] = Ok r) /\
  ~ (exists trail, assign_loc_trail (fun _ _ => []) [] = Ok trail) /\
  ~ (exists trail, assign_coding_trail [] = Ok trail).
Proof.
  split; [| split].
  - intros H.
    destruct (H Q (exact_float (fun _ => "")) (fun _ _ => [])) as [r Hr]. discriminate.
  - intros [t Ht]. discriminate.
  - intros [t Ht]. discriminate.
Qed.

(** C2, amended. On the empty run sequence the score is 1, the score
    trail, the time trail and the drastic-change trail are the empty string,
    and [assign_loc_trail] and [assign_coding_trail] raise [IndexError], so
    the fan-out of [run] fails for such a pair. *)
Theorem empty_sequence_outputs {float : Type} (ops : FloatOps float)
    (compare : list string -> list string -> list string) :
  (assign_inc_dev_score [] == 1)%Q /\
  assign_inc_dev_score_trail compare [] = Ok "" /\
  assign_time_trail [] = Ok "" /\
  assign_drastic_change_trail compare [] = Ok "" /\
  assign_loc_trail compare [] = Raise IndexError /\
  assign_coding_trail [] = Raise IndexError /\
  run_one compare [] = Raise IndexError.
Proof. repeat split. Qed.

(** ** Alignment of the drastic-change flags (C9) *)

(** C9 fails on the code: a run whose stripped code is empty makes the
    loop skip the flag of the next run, the flag list becomes shorter than
    the list of line counts, and the rendering loop reads past its end. *)
Theorem assign_loc_trail_misaligned_flags
    (compare : list string -> list string -> list string) :
  assign_loc_trail compare
    [ {| type := 1; code := ""; sub_time := 0; score := 0 |};
      {| type := 1; code := "x"; sub_time := 60; score := 0 |} ]
  = Raise IndexError /\
  assign_loc_trail compare
    [ {| type := 1; code := "a"; sub_time := 0; score := 0 |};
      {| type := 1; code := ""; sub_time := 60; score := 0 |};
      {| type := 1; code := "b"; sub_time := 120; score := 0 |} ]
  = Raise IndexError.
Proof.
  split; [reflexivity |].
  unfold assign_loc_trail. cbn [for_each].
  change (nonblank_code (code {| type := 1; code := "a"; sub_time := 0; score := 0 |}))
    with "a".
  change (nonblank_code (code {| type := 1; code := ""; sub_time := 60; score := 0 |}))
    with "".
  change (nonblank_code (code {| type := 1; code := "b"; sub_time := 120; score := 0 |}))
    with "b".
  cbn [is_empty negb mbind result_bind count_lines].
  destruct (get_diff_Ok compare "a" "" eq_refl) as [r Hr]. rewrite Hr.
  cbn [mbind result_bind].
  destruct (Qgtb r (7 # 10)); reflexivity.
Qed.

(** ** The time trail (C8) *)

Lemma time_trail_lists (runs : list Submission) :
  forall sub_times all_times,
    fold_left
      (fun '(sub_times, all_times) run =>
         let all_times := all_times ++ [run.(sub_time)] in
         if run.(type) =? 1 then (sub_times ++ [Time run.(sub_time)], all_times)
         else (sub_times ++ [Sentinel], all_times))
      runs (sub_times, all_times)
    = (sub_times ++
         map (fun run => if run.(type) =? 1 then Time run.(sub_time) else Sentinel) runs,
       all_times ++ map sub_time runs).
Proof.
  induction runs as [|run runs IH]; intros sub_times all_times.
  - cbn. rewrite !app_nil_r. reflexivity.
  - cbn [fold_left map]. cbv zeta.
    destruct (type run =? 1); rewrite IH, <- !app_assoc; reflexivity.
Qed.













(** ** Runs of omitted tags *)

Lemma zero_runs_from_replicate (m c : nat) (l : list Z) :
  zero_runs_from c (replicate m 0 ++ l) = zero_runs_from (c + m) l.
Proof.
  revert c. induction m as [|m IH]; intros c; cbn [replicate app zero_runs_from].
  - rewrite Nat.add_0_r. reflexivity.
  - cbn. rewrite IH. f_equal. lia.
Qed.

Lemma zero_runs_from_nonzero (c : nat) (x : Z) (l : list Z) :
  x <> 0 ->
  zero_runs_from c (x :: l) = (if (c =? 0)%nat then [] else [c]) ++ zero_runs l.
Proof.
  intros Hx. cbn [zero_runs_from].
  destruct (Z.eqb_spec x 0); [contradiction | reflexivity].
Qed.

(** After a tag that is not 0 the runs of the rest are counted afresh. *)
Lemma zero_runs_from_app (l : list Z) :
  forall (c : nat) (x : Z) (l2 : list Z),
    x <> 0 ->
    zero_runs_from c ((l ++ [x]) ++ l2) = zero_runs_from c (l ++ [x]) ++ zero_runs l2.
Proof.
  induction l as [|y l IH]; intros c x l2 Hx.
  - cbn [app]. rewrite !zero_runs_from_nonzero by exact Hx.
    cbn. rewrite app_nil_r. reflexivity.
  - cbn [app zero_runs_from].
    destruct (y =? 0).
    + apply IH, Hx.
    + rewrite (IH O x l2 Hx). rewrite app_assoc. reflexivity.
Qed.

Lemma zero_runs_app (l : list Z) (x : Z) (l2 : list Z) :
  x <> 0 -> zero_runs ((l ++ [x]) ++ l2) = zero_runs (l ++ [x]) ++ zero_runs l2.
Proof. apply zero_runs_from_app. Qed.

Lemma zero_runs_zeros_closed (m : nat) (x : Z) :
  x <> 0 -> zero_runs (replicate m 0 ++ [x]) = if (m =? 0)%nat then [] else [m].
Proof.
  intros Hx. unfold zero_runs. rewrite zero_runs_from_replicate.
  rewrite zero_runs_from_nonzero by exact Hx. cbn. apply app_nil_r.
Qed.

Lemma zero_runs_ones (m : nat) (l : list Z) :
  zero_runs (replicate m 1 ++ l) = zero_runs l.
Proof. induction m as [|m IH]; [reflexivity | exact IH]. Qed.

Lemma zero_runs_singleton (x : Z) : x <> 0 -> zero_runs [x] = [].
Proof. intros Hx. apply (zero_runs_zeros_closed O x Hx). Qed.

(** ** Lists seen through their lookups *)

Lemma take_constant (l : list Z) (v : Z) (s m : nat) :
  (forall j, (s <= j < s + m)%nat -> l !! j = Some v) ->
  take (s + m) l = take s l ++ replicate m v.
Proof.
  induction m as [|m IH]; intros H.
  - rewrite Nat.add_0_r. cbn. rewrite app_nil_r. reflexivity.
  - replace (s + Datatypes.S m)%nat with (Datatypes.S (s + m)) by lia.
    rewrite (take_S_r l (s + m) v) by (apply H; lia).
    rewrite IH by (intros j Hj; apply H; lia).
    rewrite replicate_S_end, app_assoc. reflexivity.
Qed.

Lemma take_ext (l1 l2 : list Z) (m : nat) :
  (forall j, (j < m)%nat -> l1 !! j = l2 !! j) -> take m l1 = take m l2.
Proof.
  intros H. apply list_eq. intros j. rewrite !lookup_take.
  case_decide; [apply H; assumption | reflexivity].
Qed.

Lemma promoted_refl (l : list Z) : promoted l l.
Proof. split; [reflexivity | intros j x H; left; exact H]. Qed.

Lemma promoted_insert (before after : list Z) (j : nat) :
  promoted before after -> promoted before (<[j:=1]> after).
Proof.
  intros [Hlen H]. split; [rewrite length_insert; exact Hlen |].
  intros i x Hi. destruct (decide (j = i)) as [-> | Hne].
  - right. apply list_lookup_insert_eq. rewrite Hlen. apply lookup_lt_Some in Hi. exact Hi.
  - rewrite list_lookup_insert_ne by exact Hne. apply H, Hi.
Qed.

Lemma promoted_trans (a b c : list Z) : promoted a b -> promoted b c -> promoted a c.
Proof.
  intros [L1 H1] [L2 H2]. split; [congruence |].
  intros j x Hj. destruct (H1 j x Hj) as [Hb | Hb].
  - apply H2, Hb.
  - destruct (H2 j 1 Hb) as [Hc | Hc]; right; exact Hc.
Qed.

Lemma promoted_tags (before after : list Z) :
  promoted before after -> Forall is_tag before -> Forall is_tag after.
Proof.
  intros [Hlen H] Hb. apply Forall_lookup. intros j y Hy.
  destruct (lookup_lt_is_Some_2 before j) as [x Hx].
  { rewrite <- Hlen. apply lookup_lt_Some in Hy. exact Hy. }
  destruct (H j x Hx) as [E | E]; rewrite E in Hy; injection Hy as <-.
  - apply (Forall_lookup_1 _ _ _ _ Hb Hx).
  - right. left. reflexivity.
Qed.

Lemma promoted_positive (before after : list Z) (j : nat) (x : Z) :
  promoted before after -> before !! j = Some x -> 0 < x ->
  exists y, after !! j = Some y /\ 0 < y.
Proof.
  intros [_ H] Hj Hx. destruct (H j x Hj) as [E | E].
  - exists x. split; assumption.
  - exists 1. split; [exact E | lia].
Qed.

Lemma promoted_one (before after : list Z) (j : nat) :
  promoted before after -> before !! j = Some 1 -> after !! j = Some 1.
Proof. intros [_ H] Hj. destruct (H j 1 Hj); assumption. Qed.

(** The promotion loop [for j in range(s, e + 1): relevance_list[j] = 1]. *)
Lemma promote_range (l : list Z) (s e : nat) :
  (e < length l)%nat ->
  exists l',
    for_each (range s (e + 1)) (fun j l => set l j 1) l = Ok l' /\
    promoted l l' /\
    (forall j, (s <= j <= e)%nat -> l' !! j = Some 1) /\
    (forall j, (j < s \/ e < j)%nat -> l' !! j = l !! j).
Proof.
  intros He.
  destruct (for_each_invariant
    (fun m l' =>
       promoted l l' /\
       (forall j, (s <= j < s + m)%nat -> l' !! j = Some 1) /\
       (forall j, (j < s \/ s + m <= j)%nat -> l' !! j = l !! j))
    (range s (e + 1)) (fun j l => set l j 1) l) as (l' & Hrun & Hp & H1 & H2).
  - split; [apply promoted_refl |]. split; [intros j Hj; lia | reflexivity].
  - intros m j l' Hj (Hp & H1 & H2).
    apply range_lookup_inv in Hj as [-> Hm].
    exists (<[(s + m)%nat:=1]> l'). split.
    + apply set_Ok. destruct Hp as [-> _]. lia.
    + split; [apply promoted_insert, Hp |]. split.
      * intros j Hj. destruct (decide (j = s + m)%nat) as [-> | Hne].
        -- apply list_lookup_insert_eq. destruct Hp as [-> _]. lia.
        -- rewrite list_lookup_insert_ne by lia. apply H1. lia.
      * intros j Hj. rewrite list_lookup_insert_ne by lia. apply H2. lia.
  - rewrite range_length in *. exists l'. split; [exact Hrun |].
    split; [exact Hp |]. split.
    + intros j Hj. apply H1. lia.
    + intros j Hj. apply H2. lia.
Qed.

(** ** The run-length pass *)

Lemma is_tag_nonneg (x : Z) : is_tag x -> 0 <= x.
Proof. intros [-> | [-> | ->]]; lia. Qed.

(** The runs of a prefix that ends in a notable tag followed by [m] equal
    tags [v] and a notable tag. *)
Lemma zero_runs_extend (l : list Z) (s m : nat) (v x y : Z) :
  (1 <= s)%nat -> l !! (s - 1)%nat = Some x -> 0 < x ->
  (forall j, (s <= j < s + m)%nat -> l !! j = Some v) ->
  l !! (s + m)%nat = Some y -> 0 < y ->
  zero_runs (take (Datatypes.S (s + m)) l)
  = zero_runs (take s l) ++ zero_runs (replicate m v ++ [y]).
Proof.
  intros Hs Hx Hx0 Hv Hy Hy0.
  rewrite (take_S_r l (s + m) y Hy), (take_constant l v s m Hv).
  replace s with (Datatypes.S (s - 1)) at 1 2 by lia.
  rewrite (take_S_r l (s - 1) x Hx), <- app_assoc.
  apply zero_runs_app. lia.
Qed.

Lemma check_subsequence_length_step (rl : list Z) (k i : nat)
    (state : list Z * option nat * option nat) :
  Forall is_tag rl ->
  range 1 (length rl) !! k = Some i ->
  run_length_invariant rl k state ->
  exists state',
    (let '(relevance_list, start_loc, end_loc) := state in
     ri ← get relevance_list i;
     rp ← get relevance_list (i - 1);
     '(relevance_list, start_loc, end_loc) ←
       (if (ri =? 0) && (rp >? 0) then
          Ok (relevance_list, Some i, end_loc)
        else if (ri >? 0) && (rp =? 0) then
          Ok (relevance_list, start_loc, Some (i - 1)%nat)
        else if truthy start_loc
                && (Z.of_nat i - Z.of_nat (loc_index start_loc) =? 10) then
          relevance_list ← set relevance_list i 1;
          Ok (relevance_list, None, end_loc)
        else Ok (relevance_list, start_loc, end_loc));
     if truthy start_loc && truthy end_loc then
       let s := loc_index start_loc in
       let e := loc_index end_loc in
       relevance_list ←
         (if Z.of_nat e - Z.of_nat s <? 2 then
            for_each (range s (e + 1))
              (fun j relevance_list => set relevance_list j 1)
              relevance_list
          else Ok relevance_list);
       Ok (relevance_list, None, None)
     else Ok (relevance_list, start_loc, end_loc)) = Ok state' /\
    run_length_invariant rl (Datatypes.S k) state'.
Proof.
  intros Htags Hi Hinv. apply range_lookup_inv in Hi as [-> Hk].
  destruct state as [[rl' start_loc] end_loc].
  destruct Hinv as (Hp & -> & Hsuffix & Hstart).
  assert (Hlen : length rl' = length rl) by apply Hp.
  assert (Htags' : Forall is_tag rl') by (apply (promoted_tags rl); assumption).
  destruct (get_lt rl' (1 + k)) as (ri & Hri & Gri); [lia |].
  destruct (get_lt rl' (1 + k - 1)) as (rp & Hrp & Grp); [lia |].
  replace (1 + k - 1)%nat with k in Hrp by lia.
  change (1 + k)%nat with (Datatypes.S k) in *.
  assert (Hri0 : 0 <= ri) by (apply is_tag_nonneg, (Forall_lookup_1 _ _ _ _ Htags' Hri)).
  rewrite (bind_Ok _ _ _ Gri), (bind_Ok _ _ _ Grp).
  destruct start_loc as [s |].
  - (* a run is open *)
    destruct Hstart as (Hs & Hshort & (x & Hx & Hx0) & Hzeros & Hruns).
    assert (Hrp0 : rp = 0).
    { rewrite (Hzeros k) in Hrp by lia. injection Hrp as <-. reflexivity. }
    subst rp. cbn [Z.gtb Z.compare Z.eqb andb].
    destruct (Z.eqb_spec ri 0) as [-> | Hne].
    + (* the run goes on *)
      cbn [Z.gtb Z.compare andb].
      assert (Htruthy : truthy (Some s) = true) by (destruct s; [lia | reflexivity]).
      rewrite Htruthy. cbn [andb loc_index default from_option id].
      destruct (Z.eqb_spec (Z.of_nat (Datatypes.S k) - Z.of_nat s) 10) as [E | E].
      * (* the eleventh omitted tag is promoted *)
        rewrite (set_Ok rl' (Datatypes.S k) 1) by lia.
        cbn [mbind result_bind truthy andb].
        eexists. split; [reflexivity |].
        split; [apply promoted_insert, Hp |]. split; [reflexivity |].
        split; [intros j Hj; rewrite list_lookup_insert_ne by lia; apply Hsuffix; lia |].
        split.
        -- exists 1. split; [apply list_lookup_insert_eq; lia | lia].
        -- replace (Datatypes.S k) with (s + 10)%nat by lia.
           rewrite (zero_runs_extend (<[(s + 10)%nat:=1]> rl') s 10 0 x 1).
           ++ rewrite zero_runs_zeros_closed by lia. cbn [Nat.eqb].
              apply Forall_app. split.
              ** rewrite (take_ext _ rl') by
                   (intros j Hj; apply list_lookup_insert_ne; lia).
                 exact Hruns.
              ** apply Forall_singleton. unfold bounded_run. lia.
           ++ lia.
           ++ rewrite list_lookup_insert_ne by lia. exact Hx.
           ++ exact Hx0.
           ++ intros j Hj. rewrite list_lookup_insert_ne by lia. apply Hzeros. lia.
           ++ apply list_lookup_insert_eq. lia.
           ++ lia.
      * cbn [mbind result_bind]. rewrite Htruthy. cbn [truthy andb].
        eexists. split; [reflexivity |].
        split; [exact Hp |]. split; [reflexivity |].
        split; [intros j Hj; apply Hsuffix; lia |].
        split; [lia |]. split; [lia |]. split; [exists x; split; assumption |].
        split; [| exact Hruns].
        intros j Hj. destruct (decide (j = Datatypes.S k)) as [-> | Hne];
          [exact Hri | apply Hzeros; lia].
    + (* the run ends *)
      destruct (Z.gtb_spec ri 0) as [Hpos | Hneg]; [| lia].
      cbn [andb mbind result_bind].
      replace (Datatypes.S k - 1)%nat with k by lia.
      assert (Htruthy : truthy (Some s) = true) by (destruct s; [lia | reflexivity]).
      assert (Htruthy' : truthy (Some k) = true) by (destruct k; [lia | reflexivity]).
      rewrite Htruthy, Htruthy'. cbn [andb loc_index default from_option id]. cbv zeta.
      destruct (Z.ltb_spec (Z.of_nat k - Z.of_nat s) 2) as [Hlt | Hge].
      * (* fewer than three omitted tags: all are promoted *)
        destruct (promote_range rl' s k) as (rl'' & Hrun & Hp' & Hones & Hrest); [lia |].
        rewrite Hrun. cbn [mbind result_bind].
        eexists. split; [reflexivity |].
        split; [apply (promoted_trans rl rl' rl''); assumption |].
        split; [reflexivity |].
        split; [intros j Hj; rewrite Hrest by lia; apply Hsuffix; lia |].
        split.
        -- exists ri. split; [rewrite Hrest by lia; exact Hri | exact Hpos].
        -- replace (Datatypes.S k) with (s + (Datatypes.S k - s))%nat by lia.
           rewrite (zero_runs_extend rl'' s (Datatypes.S k - s) 1 x ri).
           ++ rewrite zero_runs_ones, zero_runs_singleton by lia.
              rewrite app_nil_r.
              rewrite (take_ext _ rl') by (intros j Hj; apply Hrest; lia).
              exact Hruns.
           ++ lia.
           ++ rewrite Hrest by lia. exact Hx.
           ++ exact Hx0.
           ++ intros j Hj. apply Hones. lia.
           ++ rewrite Hrest by lia.
              replace (s + (Datatypes.S k - s))%nat with (Datatypes.S k) by lia.
              exact Hri.
           ++ exact Hpos.
      * cbn [mbind result_bind].
        eexists. split; [reflexivity |].
        split; [exact Hp |]. split; [reflexivity |].
        split; [intros j Hj; apply Hsuffix; lia |].
        split.
        -- exists ri. split; [exact Hri | exact Hpos].
        -- replace (Datatypes.S k) with (s + (Datatypes.S k - s))%nat by lia.
           rewrite (zero_runs_extend rl' s (Datatypes.S k - s) 0 x ri).
           ++ rewrite zero_runs_zeros_closed by lia.
              destruct (Nat.eqb_spec (Datatypes.S k - s) 0) as [E | _]; [lia |].
              apply Forall_app. split; [exact Hruns |].
              apply Forall_singleton. unfold bounded_run. lia.
           ++ lia.
           ++ exact Hx.
           ++ exact Hx0.
           ++ intros j Hj. apply Hzeros. lia.
           ++ replace (s + (Datatypes.S k - s))%nat with (Datatypes.S k) by lia.
              exact Hri.
           ++ exact Hpos.
  - (* no run is open *)
    destruct Hstart as ((x & Hx & Hx0) & Hruns).
    rewrite Hrp in Hx. injection Hx as <-.
    destruct (Z.gtb_spec rp 0) as [_ | Hneg]; [| lia].
    destruct (Z.eqb_spec rp 0) as [E | _]; [lia |].
    destruct (Z.eqb_spec ri 0) as [-> | Hne].
    + (* a run starts *)
      cbn [andb mbind result_bind truthy].
      eexists. split; [reflexivity |].
      split; [exact Hp |]. split; [reflexivity |].
      split; [intros j Hj; apply Hsuffix; lia |].
      split; [lia |]. split; [lia |].
      split; [exists rp; replace (Datatypes.S k - 1)%nat with k by lia; split; assumption |].
      split; [| exact Hruns].
      intros j Hj. replace j with (Datatypes.S k) by lia. exact Hri.
    + destruct (Z.gtb_spec ri 0) as [Hpos | Hneg]; [| lia].
      cbn [andb mbind result_bind truthy].
      eexists. split; [reflexivity |].
      split; [exact Hp |]. split; [reflexivity |].
      split; [intros j Hj; apply Hsuffix; lia |].
      split; [exists ri; split; assumption |].
      rewrite (take_S_r rl' (Datatypes.S k) ri Hri).
      rewrite (take_S_r rl' k rp Hrp) in *.
      rewrite zero_runs_app by lia.
      rewrite zero_runs_singleton by lia. rewrite app_nil_r. exact Hruns.
Qed.

(** After the run-length pass every maximal run of omitted tags has
    between 3 and 10 elements. *)
Lemma check_subsequence_length_bounded (rl : list Z) (x0 xl : Z) :
  Forall is_tag rl ->
  rl !! O = Some x0 -> 0 < x0 ->
  rl !! (length rl - 1)%nat = Some xl -> 0 < xl ->
  exists rl',
    check_subsequence_length rl = Ok rl' /\ promoted rl rl' /\
    Forall bounded_run (zero_runs rl').
Proof.
  intros Htags H0 Hx0 Hl Hxl. unfold check_subsequence_length.
  match goal with
  | |- context [for_each _ ?body _] =>
      destruct (for_each_invariant (run_length_invariant rl)
                  (range 1 (length rl)) body (rl, None, None))
        as ([[rl' start_loc] end_loc] & Hrun & Hinv)
  end.
  - split; [apply promoted_refl |]. split; [reflexivity |].
    split; [reflexivity |]. split.
    + exists x0. split; assumption.
    + rewrite (take_S_r rl O x0 H0), take_0. cbn [app].
      rewrite zero_runs_singleton by lia. constructor.
  - intros k i state Hi Hinv.
    apply (check_subsequence_length_step rl k i state Htags Hi Hinv).
  - rewrite (bind_Ok _ _ _ Hrun). cbn [mbind result_bind].
    rewrite range_length in Hinv.
    destruct Hinv as (Hp & -> & _ & Hstart).
    exists rl'. split; [reflexivity |]. split; [exact Hp |].
    assert (Hlen : length rl' = length rl) by apply Hp.
    destruct start_loc as [s |].
    + destruct Hstart as (Hs & _ & _ & Hzeros & _).
      destruct (promoted_positive rl rl' _ xl Hp Hl Hxl) as (y & Hy & Hy0).
      rewrite (Hzeros (length rl - 1)%nat) in Hy by lia.
      injection Hy as <-. lia.
    + destruct Hstart as (_ & Hruns).
      rewrite take_ge in Hruns; [exact Hruns |].
      apply lookup_lt_Some in H0. lia.
Qed.

(** ** The trend pass *)

(** The inner loop of [check_subsequence_values] only promotes tags. *)
Lemma trend_loop (rl rl' lines : list Z) (s0 e : nat) :
  promoted rl rl' ->
  (length rl <= length lines)%nat ->
  (s0 < length rl)%nat -> (e + 1 < length rl)%nat ->
  exists rl'' start_loc,
    for_each (range s0 (e + 1))
      (fun j '(relevance_list, start_loc) =>
         ls ← get lines start_loc;
         le ← get lines e;
         lj ← get lines j;
         if ls <? le then
           if (lj <? ls) || (lj >? le) then
             relevance_list ← set relevance_list j 1;
             Ok (relevance_list, (j + 1)%nat)
           else Ok (relevance_list, start_loc)
         else
           if (lj >? ls) || (lj <? le) then
             relevance_list ← set relevance_list j 1;
             Ok (relevance_list, (j + 1)%nat)
           else Ok (relevance_list, start_loc))
      (rl', s0)
    = Ok (rl'', start_loc) /\ promoted rl rl''.
Proof.
  intros Hp Hlines Hs0 He.
  match goal with
  | |- context [for_each _ ?body _] =>
      destruct (for_each_invariant
                  (fun (_ : nat) (st : list Z * nat) =>
                     promoted rl st.1 /\ (st.2 < length rl)%nat)
                  (range s0 (e + 1)) body (rl', s0))
        as ([rl'' sl] & Hrun & Hp'' & _)
  end.
  - split; assumption.
  - intros m j [rl1 sl] Hj [Hp1 Hsl]. cbn [fst snd] in *.
    apply range_lookup_inv in Hj as [-> Hm].
    destruct (get_lt lines sl) as (ls & _ & Gs); [lia |].
    destruct (get_lt lines e) as (le & _ & Ge); [lia |].
    destruct (get_lt lines (s0 + m)) as (lj & _ & Gj); [lia |].
    rewrite (bind_Ok _ _ _ Gs), (bind_Ok _ _ _ Ge), (bind_Ok _ _ _ Gj).
    assert (Hset : set rl1 (s0 + m) 1 = Ok (<[(s0 + m)%nat:=1]> rl1)).
    { apply set_Ok. destruct Hp1 as [-> _]. lia. }
    destruct (ls <? le).
    + destruct ((lj <? ls) || (lj >? le)).
      * rewrite Hset. cbn [mbind result_bind]. eexists. split; [reflexivity |].
        cbn [fst snd]. split; [apply promoted_insert, Hp1 | lia].
      * eexists. split; [reflexivity |]. cbn [fst snd]. split; assumption.
    + destruct ((lj >? ls) || (lj <? le)).
      * rewrite Hset. cbn [mbind result_bind]. eexists. split; [reflexivity |].
        cbn [fst snd]. split; [apply promoted_insert, Hp1 | lia].
      * eexists. split; [reflexivity |]. cbn [fst snd]. split; assumption.
  - exists rl'', sl. split; [exact Hrun | exact Hp''].
Qed.

Lemma truthy_Some (loc : option nat) :
  truthy loc = true -> exists s, loc = Some s /\ (1 <= s)%nat.
Proof.
  destruct loc as [[|s] |]; try discriminate.
  intros _. exists (Datatypes.S s). split; [reflexivity | lia].
Qed.

(** The trend pass returns for every relevance list that is no longer than
    the list of line counts, and only promotes tags. *)
Lemma check_subsequence_values_promotes (rl lines : list Z) :
  (length rl <= length lines)%nat ->
  exists rl', check_subsequence_values rl lines = Ok rl' /\ promoted rl rl'.
Proof.
  intros Hlines. unfold check_subsequence_values.
  match goal with
  | |- context [for_each _ ?body _] =>
      destruct (for_each_invariant
                  (fun (_ : nat) (st : list Z * option nat * option nat) =>
                     promoted rl st.1.1 /\
                     (forall s, st.1.2 = Some s -> (s < length rl)%nat) /\
                     (forall e, st.2 = Some e -> (e + 1 < length rl)%nat))
                  (range 1 (length rl)) body (rl, None, None))
        as ([[rl' start_loc] end_loc] & Hrun & Hp & _)
  end.
  - cbn [fst snd]. split; [apply promoted_refl |]. split; intros ? ?; discriminate.
  - intros k i [[rl1 start_loc] end_loc] Hi (Hp & Hstart & Hend). cbn [fst snd] in *.
    apply range_lookup_inv in Hi as [-> Hk].
    assert (Hlen : length rl1 = length rl) by apply Hp.
    destruct (get_lt rl1 (1 + k)) as (ri & _ & Gri); [lia |].
    destruct (get_lt rl1 (1 + k - 1)) as (rp & _ & Grp); [lia |].
    rewrite (bind_Ok _ _ _ Gri), (bind_Ok _ _ _ Grp).
    set (locs := if (ri =? 0) && (rp >? 0) then (Some (1 + k)%nat, end_loc)
                 else if (ri >? 0) && (rp =? 0)
                      then (start_loc, Some (1 + k - 1)%nat)
                      else (start_loc, end_loc)).
    assert (Hlocs : (forall s, locs.1 = Some s -> (s < length rl)%nat) /\
                    (forall e, locs.2 = Some e -> (e + 1 < length rl)%nat)).
    { unfold locs. destruct ((ri =? 0) && (rp >? 0)); [| destruct ((ri >? 0) && (rp =? 0))];
        cbn [fst snd]; split; try assumption; intros ? [= <-]; lia. }
    destruct locs as [start_loc' end_loc']. cbn [fst snd] in Hlocs.
    destruct Hlocs as [Hstart' Hend'].
    destruct (truthy start_loc' && truthy end_loc') eqn:Htruthy.
    + apply andb_prop in Htruthy as [Hs He].
      apply truthy_Some in Hs as (s & -> & _).
      apply truthy_Some in He as (e & -> & _).
      cbn [loc_index default from_option id].
      destruct (trend_loop rl rl1 lines s e Hp Hlines (Hstart' s eq_refl) (Hend' e eq_refl))
        as (rl2 & sl & Hloop & Hp2).
      rewrite Hloop. cbn [mbind result_bind].
      eexists. split; [reflexivity |]. cbn [fst snd].
      split; [exact Hp2 |]. split; intros ? ?; discriminate.
    + eexists. split; [reflexivity |]. cbn [fst snd].
      split; [exact Hp |]. split; assumption.
  - cbn [fst snd] in Hp. rewrite (bind_Ok _ _ _ Hrun). cbn [mbind result_bind].
    exists rl'. split; [reflexivity | exact Hp].
Qed.

(** ** The relevance classification (C3, C4) *)

Lemma seeding_loop (lines drastic_change : list Z) :
  (length lines - 1 <= length drastic_change)%nat ->
  exists rl,
    for_each (range 1 (length lines - 1))
      (fun i relevance_list =>
         li ← get lines i;
         lp ← get lines (i - 1);
         if li - lp >? 20 then
           relevance_list ← set_last relevance_list 1;
           Ok (relevance_list ++ [2])
         else
           notable ←
             (if Z.abs (li - lp) >? 10 then Ok true
              else d ← get drastic_change i; Ok (d =? 1));
           if notable : bool then
             relevance_list ← set_last relevance_list 1;
             Ok (relevance_list ++ [1])
           else Ok (relevance_list ++ [0]))
      [1]
    = Ok rl /\
    length rl = Datatypes.S (length lines - 1 - 1) /\
    Forall is_tag rl /\ rl !! O = Some 1.
Proof.
  intros Hflags.
  match goal with
  | |- context [for_each _ ?body _] =>
      destruct (for_each_invariant
                  (fun (k : nat) (rl : list Z) =>
                     length rl = Datatypes.S k /\ Forall is_tag rl /\ rl !! O = Some 1)
                  (range 1 (length lines - 1)) body [1])
        as (rl & Hrun & Hlen & Htags & Hfirst)
  end.
  - split; [reflexivity |]. split; [| reflexivity].
    apply Forall_singleton. right. left. reflexivity.
  - intros k i rl Hi (Hlen & Htags & Hfirst).
    apply range_lookup_inv in Hi as [-> Hk].
    destruct (get_lt lines (1 + k)) as (li & _ & Gi); [lia |].
    destruct (get_lt lines (1 + k - 1)) as (lp & _ & Gp); [lia |].
    destruct (get_lt drastic_change (1 + k)) as (d & _ & Gd); [lia |].
    rewrite (bind_Ok _ _ _ Gi), (bind_Ok _ _ _ Gp).
    assert (Hset : set_last rl 1 = Ok (<[pred (length rl):=1]> rl)).
    { apply set_last_Ok. destruct rl; [discriminate | congruence]. }
    assert (Hp : promoted rl (<[pred (length rl):=1]> rl))
      by apply promoted_insert, promoted_refl.
    assert (Hgrow : forall t, is_tag t ->
      length (<[pred (length rl):=1]> rl ++ [t]) = Datatypes.S (Datatypes.S k) /\
      Forall is_tag (<[pred (length rl):=1]> rl ++ [t]) /\
      (<[pred (length rl):=1]> rl ++ [t]) !! O = Some 1).
    { intros t Ht. split; [rewrite length_app, length_insert; cbn; lia |]. split.
      - apply Forall_app. split; [apply (promoted_tags rl); assumption |].
        apply Forall_singleton, Ht.
      - rewrite lookup_app_l by (rewrite length_insert; lia).
        apply (promoted_one rl); assumption. }
    destruct (li - lp >? 20).
    + rewrite Hset. cbn [mbind result_bind]. eexists. split; [reflexivity |].
      apply Hgrow. right. right. reflexivity.
    + destruct (Z.abs (li - lp) >? 10).
      * cbn [mbind result_bind]. rewrite Hset. cbn [mbind result_bind].
        eexists. split; [reflexivity |]. apply Hgrow. right. left. reflexivity.
      * rewrite Gd. cbn [mbind result_bind]. destruct (d =? 1).
        -- rewrite Hset. cbn [mbind result_bind].
           eexists. split; [reflexivity |]. apply Hgrow. right. left. reflexivity.
        -- eexists. split; [reflexivity |].
           split; [rewrite length_app; cbn; lia |]. split.
           ++ apply Forall_app. split; [exact Htags |].
              apply Forall_singleton. left. reflexivity.
           ++ rewrite lookup_app_l by lia. exact Hfirst.
  - rewrite range_length in Hlen. exists rl.
    split; [exact Hrun |]. split; [exact Hlen |]. split; assumption.
Qed.

(** The classification of a list of line counts that has a drastic-change
    flag for every interior index. *)
Lemma classify_properties (lines drastic_change : list Z) :
  (length lines - 1 <= length drastic_change)%nat ->
  exists rl,
    classify lines drastic_change = Ok rl /\
    length rl = Nat.max (length lines) 2 /\
    Forall is_tag rl /\
    rl !! O = Some 1 /\
    rl !! (length rl - 1)%nat = Some 1 /\
    Forall bounded_run (zero_runs rl).
Proof.
  intros Hflags.
  destruct lines as [|x [|y lines]].
  - exists [1; 1]. split; [reflexivity |]. split; [reflexivity |].
    split; [repeat constructor; right; left; reflexivity |].
    split; [reflexivity |]. split; [reflexivity | constructor].
  - exists [1; 1]. split; [reflexivity |]. split; [reflexivity |].
    split; [repeat constructor; right; left; reflexivity |].
    split; [reflexivity |]. split; [reflexivity | constructor].
  - set (ls := x :: y :: lines) in *.
    assert (Hn : (2 <= length ls)%nat) by (cbn; lia).
    clearbody ls.
    destruct (seeding_loop ls drastic_change Hflags) as (rl1 & Hrun & Hlen1 & Htags1 & Hfirst1).
    unfold classify. rewrite (bind_Ok _ _ _ Hrun). cbv zeta.
    assert (HlenA : length (rl1 ++ [1]) = length ls)
      by (rewrite length_app; cbn; lia).
    assert (HtagsA : Forall is_tag (rl1 ++ [1])).
    { apply Forall_app. split; [exact Htags1 |].
      apply Forall_singleton. right. left. reflexivity. }
    assert (HfirstA : (rl1 ++ [1]) !! O = Some 1)
      by (rewrite lookup_app_l by lia; exact Hfirst1).
    assert (HlastA : (rl1 ++ [1]) !! (length ls - 1)%nat = Some 1)
      by (apply list_lookup_middle; lia).
    destruct (check_subsequence_values_promotes (rl1 ++ [1]) ls) as (rlB & HB & HpB);
      [lia |].
    rewrite (bind_Ok _ _ _ HB).
    assert (HlenB : length rlB = length ls) by (destruct HpB as [-> _]; exact HlenA).
    destruct (check_subsequence_length_bounded rlB 1 1) as (rlC & HC & HpC & Hruns).
    + apply (promoted_tags (rl1 ++ [1])); assumption.
    + apply (promoted_one (rl1 ++ [1])); assumption.
    + lia.
    + rewrite HlenB. apply (promoted_one (rl1 ++ [1])); assumption.
    + lia.
    + assert (HlenC : length rlC = length ls) by (destruct HpC as [-> _]; exact HlenB).
      assert (Hp : promoted (rl1 ++ [1]) rlC) by (apply (promoted_trans _ rlB); assumption).
      exists rlC. split; [exact HC |].
      split; [rewrite HlenC; lia |].
      split; [apply (promoted_tags (rl1 ++ [1])); assumption |].
      split; [apply (promoted_one (rl1 ++ [1])); assumption |].
      split; [rewrite HlenC; apply (promoted_one (rl1 ++ [1])); assumption |].
      exact Hruns.
Qed.

(** C4, as stated, fails: for a list of one line count (and for the empty
    list) the classification has two tags. *)
Lemma classify_short_list_length :
  classify [5] [0] = Ok [1; 1] /\
  classify [] [0] = Ok [1; 1] /\
  ~ (forall lines drastic_change rl,
        classify lines drastic_change = Ok rl -> length rl = length lines).
Proof.
  split; [reflexivity |]. split; [reflexivity |].
  intros H. specialize (H [5] [0] [1; 1] eq_refl). discriminate.
Qed.

(** C4, amended. For every list of [n] line counts that has a
    drastic-change flag for every interior index, the classification returns
    a sequence of tags drawn from {0, 1, 2} of length [max n 2] (the length
    of the input when [n >= 2], and the two tags 1, 1 when [n <= 1]) whose
    first and last tags are 1. *)
Theorem classify_tags (lines drastic_change : list Z) :
  (length lines - 1 <= length drastic_change)%nat ->
  exists rl,
    classify lines drastic_change = Ok rl /\
    length rl = Nat.max (length lines) 2 /\
    ((2 <= length lines)%nat -> length rl = length lines) /\
    ((length lines <= 1)%nat -> rl = [1; 1]) /\
    Forall is_tag rl /\
    rl !! O = Some 1 /\
    rl !! (length rl - 1)%nat = Some 1.
Proof.
  intros Hflags.
  destruct (classify_properties lines drastic_change Hflags)
    as (rl & Hrun & Hlen & Htags & Hfirst & Hlast & _).
  exists rl. split; [exact Hrun |]. split; [exact Hlen |].
  split; [intros Hn; lia |].
  split; [| split; [exact Htags | split; assumption]].
  intros Hn. destruct rl as [|a [|b [|c rl]]]; cbn in Hlen; try lia.
  cbn in Hfirst, Hlast. congruence.
Qed.

Lemma classify_tags_witness :
  (length [5; 6; 7; 8; 40] - 1 <= length [0; 0; 0; 0; 1])%nat /\
  exists rl,
    classify [5; 6; 7; 8; 40] [0; 0; 0; 0; 1] = Ok rl /\
    length rl = 5%nat /\ rl !! O = Some 1 /\ rl !! 4%nat = Some 1.
Proof.
  split; [cbn; lia |].
  destruct (classify_tags [5; 6; 7; 8; 40] [0; 0; 0; 0; 1])
    as (rl & Hrun & Hlen & _ & _ & _ & Hfirst & Hlast); [cbn; lia |].
  exists rl. split; [exact Hrun |]. split; [exact Hlen |].
  split; [exact Hfirst |]. rewrite Hlen in Hlast. exact Hlast.
Defined.

(** C3, as stated, fails: a run of ten omitted tags survives the three
    passes, because the run-length pass promotes the eleventh tag of a run,
    not the tenth. *)
Lemma ten_omitted_runs_survive :
  classify (replicate 14 5) (replicate 14 0)
  = Ok (1 :: replicate 10 0 ++ [1; 1; 1]) /\
  zero_runs (1 :: replicate 10 0 ++ [1; 1; 1]) = [10%nat] /\
  ~ (forall lines drastic_change rl,
        classify lines drastic_change = Ok rl ->
        Forall (fun m => (3 <= m <= 9)%nat) (zero_runs rl)).
Proof.
  assert (E : classify (replicate 14 5) (replicate 14 0)
              = Ok (1 :: replicate 10 0 ++ [1; 1; 1])) by (vm_compute; reflexivity).
  split; [exact E |]. split; [reflexivity |].
  intros H. specialize (H _ _ _ E).
  change (zero_runs (1 :: replicate 10 0 ++ [1; 1; 1])) with [10%nat] in H.
  apply Forall_inv in H. cbv beta in H. lia.
Qed.

(** C3, amended. After the three passes every maximal run of consecutive
    0-tags has length at least 3 and at most 10: an omitted run shorter than
    3 is promoted to tag 1, and an omitted run reaching 11 elements has its
    11th element promoted, so more than 10 consecutive runs are never
    omitted. *)
Theorem omitted_runs_bounded (lines drastic_change : list Z) :
  (length lines - 1 <= length drastic_change)%nat ->
  exists rl,
    classify lines drastic_change = Ok rl /\
    Forall (fun m => (3 <= m <= 10)%nat) (zero_runs rl).
Proof.
  intros Hflags.
  destruct (classify_properties lines drastic_change Hflags)
    as (rl & Hrun & _ & _ & _ & _ & Hruns).
  exists rl. split; [exact Hrun | exact Hruns].
Qed.

Lemma omitted_runs_bounded_witness :
  (length (replicate 14 5) - 1 <= length (replicate 14 0))%nat /\
  exists rl,
    classify (replicate 14 5) (replicate 14 0) = Ok rl /\
    Forall (fun m => (3 <= m <= 10)%nat) (zero_runs rl).
Proof.
  split; [cbn; lia |].
  apply (omitted_runs_bounded (replicate 14 5) (replicate 14 0)). cbn. lia.
Defined.

(** * Further properties of the engine *)

(** ** The diff ratio *)

Lemma Qdiv_nat_nonneg (a b : nat) :
  (0 <= inject_Z (Z.of_nat a) / inject_Z (Z.of_nat b))%Q.
Proof.
  unfold Qdiv. apply Qmult_le_0_compat.
  - change 0%Q with (inject_Z 0). rewrite <- Zle_Qle. lia.
  - apply Qinv_le_0_compat. change 0%Q with (inject_Z 0). rewrite <- Zle_Qle. lia.
Qed.

(** X1. [get_diff] raises [ZeroDivisionError] exactly when its first text
    consists of whitespace only (in particular when it is empty); otherwise
    it returns a ratio, and every ratio it returns is non-negative. *)
Theorem get_diff_zero_division
    (compare : list string -> list string -> list string) (sub1 sub2 : string) :
  (get_diff compare sub1 sub2 = Raise ZeroDivisionError <-> all_space sub1 = true) /\
  (all_space sub1 = false <-> exists ratio, get_diff compare sub1 sub2 = Ok ratio) /\
  (forall ratio, get_diff compare sub1 sub2 = Ok ratio -> (0 <= ratio)%Q).
Proof.
  assert (Hzero : all_space sub1 = true ->
                  get_diff compare sub1 sub2 = Raise ZeroDivisionError).
  { intros H. unfold get_diff. cbv zeta.
    rewrite lineCount_of_zero; [reflexivity |].
    rewrite <- all_space_concat_lines, concat_splitlines. exact H. }
  split; [| split].
  - split; [| exact Hzero].
    intros H. destruct (all_space sub1) eqn:E; [reflexivity |].
    destruct (get_diff_Ok compare sub1 sub2 E) as [r Hr]. congruence.
  - split; [apply get_diff_Ok |].
    intros [r Hr]. destruct (all_space sub1) eqn:E; [| reflexivity].
    rewrite (Hzero eq_refl) in Hr. discriminate.
  - intros ratio. unfold get_diff. cbv zeta.
    destruct (_ =? 0)%nat; [discriminate |].
    intros [= <-]. apply Qdiv_nat_nonneg.
Qed.

(** ** Steady growth *)

Lemma score_step_full (delta : Z) : delta <= 20 -> score_step 1 delta = 1%Q.
Proof.
  intros H. unfold score_step.
  destruct (Z.gtb_spec delta 20) as [Hgt | _]; [lia | reflexivity].
Qed.

Lemma score_after_steady (counts : list Z) (prev : Z) :
  steady_growth prev counts -> score_after 1 prev counts = 1%Q.
Proof.
  revert prev. induction counts as [|n rest IH]; intros prev H; [reflexivity |].
  destruct H as [Hn Hrest]. cbn [score_after].
  rewrite (score_step_full _ Hn). apply IH, Hrest.
Qed.

Section SteadyGrowth.

Context {float : Type} {ops : FloatOps float}.

Variable compare : list string -> list string -> list string.

(** [1 + .1 > 1] *)
Hypothesis increment_exceeds_ceiling :
  greater_than_1 (PyFloat (float_add (float_of_int 1) lit_1)) = true.

Lemma trail_scores_steady (counts : list Z) (prev : Z) :
  steady_growth prev counts ->
  trail_scores (PyInt 1) prev counts = replicate (length counts) (PyInt 1).
Proof.
  revert prev. induction counts as [|n rest IH]; intros prev H; [reflexivity |].
  destruct H as [Hn Hrest]. cbn [trail_scores length replicate]. cbv zeta.
  assert (Hstep : trail_step (PyInt 1) (n - prev) = PyInt 1).
  { unfold trail_step. cbv zeta.
    destruct (Z.gtb_spec (n - prev) 20) as [Hgt | _]; [lia |].
    cbn [to_float]. rewrite increment_exceeds_ceiling. reflexivity. }
  rewrite Hstep, (IH n Hrest). reflexivity.
Qed.

Lemma full_score_tokens (flags : list bool) (counts : list Z) :
  zip_with score_token flags (zip counts (replicate (length counts) (PyInt 1)))
  = zip_with (fun (caret : bool) (n : Z) =>
                (if caret then "^" else "") +:+ str n +:+ " (1)") flags counts.
Proof.
  revert flags. induction counts as [|n rest IH]; intros [|f flags]; try reflexivity.
  cbn [length replicate zip zip_with]. rewrite <- IH. reflexivity.
Qed.

(** X2. When no run adds more than 20 non-blank lines to its predecessor
    (the first run being compared with 0 lines), the score stays at its
    ceiling: [assign_inc_dev_score] returns 1, and every token of the score
    trail of [assign_inc_dev_score_trail] prints the score as "(1)", the
    [int] to which each increment is clamped. *)
Theorem steady_growth_keeps_full_score (runs : list Submission) :
  steady_growth 0 (nonblank_line_counts runs) ->
  (assign_inc_dev_score runs == 1)%Q /\
  assign_inc_dev_score_trail compare runs
  = Ok (join ", "
          (zip_with (fun (caret : bool) (n : Z) =>
                       (if caret then "^" else "") +:+ str n +:+ " (1)")
             (change_flags compare (1 # 2) None (stripped_codes runs))
             (nonblank_line_counts runs))).
Proof.
  intros H. split.
  - unfold assign_inc_dev_score. rewrite inc_dev_score_loop_spec.
    rewrite (score_after_steady _ _ H). reflexivity.
  - rewrite assign_inc_dev_score_trail_spec. unfold rendered_score_trail. cbv zeta.
    rewrite (trail_scores_steady _ _ H), full_score_tokens. reflexivity.
Qed.

End SteadyGrowth.

Lemma steady_growth_keeps_full_score_witness :
  let hundredths := exact_float (fun score => str (round_half_even (score * 100))) in
  let runs := [ {| type := 1; code := "a"; sub_time := 0; score := 0 |};
                {| type := 1; code := "a"; sub_time := 60; score := 0 |} ] in
  greater_than_1 (ops := hundredths)
    (PyFloat (float_add (float_of_int 1) lit_1)) = true /\
  steady_growth 0 (nonblank_line_counts runs) /\
  (assign_inc_dev_score runs == 1)%Q /\
  assign_inc_dev_score_trail (ops := hundredths) (fun _ _ => []) runs
  = Ok "1 (1), 1 (1)".
Proof.
  cbv zeta. split; [reflexivity |]. split.
  - vm_compute. repeat split; discriminate.
  - assert (Hsteady : steady_growth 0
              (nonblank_line_counts
                 [ {| type := 1; code := "a"; sub_time := 0; score := 0 |};
                   {| type := 1; code := "a"; sub_time := 60; score := 0 |} ])).
    { vm_compute. repeat split; discriminate. }
    split.
    + apply (steady_growth_keeps_full_score
               (ops := exact_float (fun score => str (round_half_even (score * 100))))
               (fun _ _ => []) eq_refl _ Hsteady).
    + etransitivity.
      * apply (steady_growth_keeps_full_score
                 (ops := exact_float (fun score => str (round_half_even (score * 100))))
                 (fun _ _ => []) eq_refl _ Hsteady).
      * vm_compute. reflexivity.
Defined.

(** ** Totality of the time trail *)

Lemma assign_time_trail_returns (runs : list Submission) :
  exists trail, assign_time_trail runs = Ok trail.
Proof.
  unfold assign_time_trail. rewrite time_trail_lists. cbn [app].
  destruct (get_sub_sessions_invariant (map sub_time runs))
    as (sb & Hsb & Hlen & _).
  rewrite (bind_Ok _ _ _ Hsb). rewrite length_map in Hlen.
  match goal with
  | |- context [for_each ?xs ?body ?init] =>
      destruct (for_each_invariant (fun _ _ => True) xs body init)
        as ([trail prev] & Hrun & _)
  end.
  - exact I.
  - intros k i [trail prev] Hi _.
    apply range_lookup_inv in Hi as [-> Hk]. rewrite length_map in Hk.
    destruct (get_lt sb (0 + k)) as (b & _ & Gb); [lia |].
    destruct (get_lt (map (fun run => if type run =? 1 then Time (sub_time run)
                                      else Sentinel) runs) (0 + k))
      as (t & _ & Gt); [rewrite length_map; lia |].
    rewrite (bind_Ok _ _ _ Gb).
    destruct (b =? 1); rewrite (bind_Ok _ _ _ Gt);
      (destruct t as [ti |]; [destruct prev | ]); eexists; (split; [reflexivity | exact I]).
  - rewrite (bind_Ok _ _ _ Hrun). exists trail. reflexivity.
Qed.

(** X3. [assign_time_trail] never raises: the list of session breaks has
    an entry for every run, so every read of the rendering loop is in
    bounds, for every run sequence including the empty one. *)
Theorem assign_time_trail_total (runs : list Submission) :
  exists trail, assign_time_trail runs = Ok trail.
Proof. apply assign_time_trail_returns. Qed.

(** ** The refinement passes on arbitrary relevance lists *)

(** The run-length pass returns for every list and only promotes tags. *)
Lemma check_subsequence_length_promotes (rl : list Z) :
  exists rl', check_subsequence_length rl = Ok rl' /\ promoted rl rl'.
Proof.
  unfold check_subsequence_length.
  match goal with
  | |- context [for_each _ ?body _] =>
      destruct (for_each_invariant
                  (fun (_ : nat) (st : list Z * option nat * option nat) =>
                     promoted rl st.1.1 /\
                     (forall s, st.1.2 = Some s -> (s < length rl)%nat) /\
                     (forall e, st.2 = Some e -> (e + 1 < length rl)%nat))
                  (range 1 (length rl)) body (rl, None, None))
        as ([[rl' start_loc] end_loc] & Hrun & Hp & _)
  end.
  - cbn [fst snd]. split; [apply promoted_refl |]. split; intros ? ?; discriminate.
  - intros k i [[rl1 start_loc] end_loc] Hi (Hp & Hstart & Hend). cbn [fst snd] in *.
    apply range_lookup_inv in Hi as [-> Hk].
    assert (Hlen : length rl1 = length rl) by apply Hp.
    destruct (get_lt rl1 (1 + k)) as (ri & _ & Gri); [lia |].
    destruct (get_lt rl1 (1 + k - 1)) as (rp & _ & Grp); [lia |].
    rewrite (bind_Ok _ _ _ Gri), (bind_Ok _ _ _ Grp).
    assert (Hfirst : exists rl2 start_loc' end_loc',
      (if (ri =? 0) && (rp >? 0) then Ok (rl1, Some (1 + k)%nat, end_loc)
       else if (ri >? 0) && (rp =? 0) then Ok (rl1, start_loc, Some (1 + k - 1)%nat)
       else if truthy start_loc
               && (Z.of_nat (1 + k) - Z.of_nat (loc_index start_loc) =? 10)
            then relevance_list ← set rl1 (1 + k) 1; Ok (relevance_list, None, end_loc)
            else Ok (rl1, start_loc, end_loc))
      = Ok (rl2, start_loc', end_loc') /\
      promoted rl rl2 /\
      (forall s, start_loc' = Some s -> (s < length rl)%nat) /\
      (forall e, end_loc' = Some e -> (e + 1 < length rl)%nat)).
    { destruct ((ri =? 0) && (rp >? 0)).
      - eexists _, _, _. split; [reflexivity |]. split; [exact Hp |].
        split; [intros ? [= <-]; lia | exact Hend].
      - destruct ((ri >? 0) && (rp =? 0)).
        + eexists _, _, _. split; [reflexivity |]. split; [exact Hp |].
          split; [exact Hstart | intros ? [= <-]; lia].
        + destruct (truthy start_loc && _).
          * rewrite (set_Ok rl1 (1 + k) 1) by lia. cbn [mbind result_bind].
            eexists _, _, _. split; [reflexivity |].
            split; [apply promoted_insert, Hp |].
            split; [intros ? ?; discriminate | exact Hend].
          * eexists _, _, _. split; [reflexivity |]. split; [exact Hp |].
            split; assumption. }
    destruct Hfirst as (rl2 & start_loc' & end_loc' & Hbranch & Hp2 & Hstart' & Hend').
    rewrite (bind_Ok _ _ _ Hbranch).
    destruct (truthy start_loc' && truthy end_loc') eqn:Htruthy.
    + apply andb_prop in Htruthy as [Hs He].
      apply truthy_Some in Hs as (s & -> & _).
      apply truthy_Some in He as (e & -> & _).
      cbn [loc_index default from_option id]. cbv zeta.
      destruct (Z.of_nat e - Z.of_nat s <? 2).
      * destruct (promote_range rl2 s e) as (rl3 & Hloop & Hp3 & _).
        { destruct Hp2 as [-> _]. specialize (Hend' e eq_refl). lia. }
        rewrite Hloop. cbn [mbind result_bind].
        eexists. split; [reflexivity |]. cbn [fst snd].
        split; [apply (promoted_trans rl rl2 rl3); assumption |].
        split; intros ? ?; discriminate.
      * cbn [mbind result_bind]. eexists. split; [reflexivity |]. cbn [fst snd].
        split; [exact Hp2 |]. split; intros ? ?; discriminate.
    + eexists. split; [reflexivity |]. cbn [fst snd].
      split; [exact Hp2 |]. split; assumption.
  - cbn [fst snd] in Hp. rewrite (bind_Ok _ _ _ Hrun). cbn [mbind result_bind].
    exists rl'. split; [reflexivity | exact Hp].
Qed.

(** X4. [check_subsequence_length] returns for every list, whatever its
    tags: all its reads and writes are in bounds. The result has the length
    of the input and every tag is either unchanged or overwritten by 1; no
    tag is ever demoted to 0. *)
Theorem check_subsequence_length_only_promotes (rl : list Z) :
  exists rl',
    check_subsequence_length rl = Ok rl' /\
    length rl' = length rl /\
    (forall j x, rl !! j = Some x -> rl' !! j = Some x \/ rl' !! j = Some 1) /\
    (forall j, rl' !! j = Some 0 -> rl !! j = Some 0).
Proof.
  destruct (check_subsequence_length_promotes rl) as (rl' & Hrun & Hlen & Hp).
  exists rl'. split; [exact Hrun |]. split; [exact Hlen |]. split; [exact Hp |].
  intros j Hj.
  destruct (lookup_lt_is_Some_2 rl j) as [x Hx].
  { rewrite <- Hlen. apply lookup_lt_Some in Hj. exact Hj. }
  destruct (Hp j x Hx) as [E | E]; rewrite E in Hj; [congruence | discriminate].
Qed.

(** X5. [check_subsequence_values] returns whenever the relevance list is
    no longer than the list of line counts. The result has the length of
    the input and every tag is either unchanged or overwritten by 1; no tag
    is ever demoted to 0. *)
Theorem check_subsequence_values_only_promotes (rl lines : list Z) :
  (length rl <= length lines)%nat ->
  exists rl',
    check_subsequence_values rl lines = Ok rl' /\
    length rl' = length rl /\
    (forall j x, rl !! j = Some x -> rl' !! j = Some x \/ rl' !! j = Some 1) /\
    (forall j, rl' !! j = Some 0 -> rl !! j = Some 0).
Proof.
  intros Hlines.
  destruct (check_subsequence_values_promotes rl lines Hlines) as (rl' & Hrun & Hlen & Hp).
  exists rl'. split; [exact Hrun |]. split; [exact Hlen |]. split; [exact Hp |].
  intros j Hj.
  destruct (lookup_lt_is_Some_2 rl j) as [x Hx].
  { rewrite <- Hlen. apply lookup_lt_Some in Hj. exact Hj. }
  destruct (Hp j x Hx) as [E | E]; rewrite E in Hj; [congruence | discriminate].
Qed.

Lemma check_subsequence_values_only_promotes_witness :
  (length [1; 0; 0; 0; 0; 1] <= length [5; 6; 3; 8; 9; 10])%nat /\
  exists rl',
    check_subsequence_values [1; 0; 0; 0; 0; 1] [5; 6; 3; 8; 9; 10] = Ok rl' /\
    length rl' = 6%nat.
Proof.
  split; [cbn; lia |].
  destruct (check_subsequence_values_only_promotes [1; 0; 0; 0; 0; 1] [5; 6; 3; 8; 9; 10])
    as (rl' & Hrun & Hlen & _); [cbn; lia |].
  exists rl'. split; [exact Hrun | exact Hlen].
Defined.

(** ** Totality of the coding trail *)

Lemma get_day_of_week_Ok (t : Z) :
  exists (day : string) (c : ascii),
    get_day_of_week t = Ok day /\ day = String " " (String c " ").
Proof.
  unfold get_day_of_week.
  assert (H : 0 <= weekday t < 7) by (unfold weekday; apply Z.mod_pos_bound; lia).
  destruct (Z.to_nat (weekday t)) as [|[|[|[|[|[|[|n]]]]]]] eqn:E;
    try (eexists _, _; split; reflexivity).
  lia.
Qed.

Lemma get_signed_previous {A : Type} (l : list A) (i : nat) :
  (i < length l)%nat -> exists x, get_signed l (Z.of_nat i - 1) = Ok x.
Proof.
  intros Hi. unfold get_signed.
  destruct (Z.ltb_spec (Z.of_nat i - 1) 0) as [Hneg | Hpos].
  - destruct (Z.leb_spec (- (Z.of_nat i - 1)) (Z.of_nat (length l))) as [_ | Hgt]; [| lia].
    destruct (get_lt l (Z.to_nat (Z.of_nat (length l) + (Z.of_nat i - 1))))
      as (x & _ & Gx); [lia |].
    exists x. exact Gx.
  - destruct (get_lt l (Z.to_nat (Z.of_nat i - 1))) as (x & _ & Gx); [lia |].
    exists x. exact Gx.
Qed.

Lemma last_char_append (a : string) (c : ascii) (b : string) :
  last_char (a +:+ String c b) = last_char (String c b).
Proof.
  induction a as [|x a IH]; [reflexivity |].
  change (String x a +:+ String c b) with (String x (a +:+ String c b)).
  destruct (a +:+ String c b) eqn:E.
  - destruct a; discriminate.
  - rewrite <- IH. reflexivity.
Qed.

Lemma last_char_nonempty (c : ascii) (b : string) :
  exists x, last_char (String c b) = Some x.
Proof.
  revert c. induction b as [|y b IH]; intros c.
  - exists c. reflexivity.
  - destruct (IH y) as [x Hx]. exists x. rewrite <- Hx. reflexivity.
Qed.

Lemma last_char_after_day (md : string) (c : ascii) (rest : string) :
  exists x, last_char ((md +:+ String " " (String c " ")) +:+ rest) = Some x.
Proof.
  destruct rest as [|y rest].
  - rewrite append_empty_r, last_char_append. apply last_char_nonempty.
  - rewrite last_char_append. apply last_char_nonempty.
Qed.

Lemma assign_coding_trail_returns (first : Submission) (rest : list Submission) :
  exists (day tail : string),
    get_day_of_week first.(sub_time) = Ok day /\
    assign_coding_trail (first :: rest)
    = Ok (strftime_md first.(sub_time) +:+ day +:+ tail).
Proof.
  destruct (get_day_of_week_Ok (sub_time first)) as (day0 & c0 & Hday0 & Eday0).
  set (runs := first :: rest).
  set (header := strftime_md (sub_time first) +:+ day0).
  assert (Hgoal : exists tail, assign_coding_trail runs = Ok (header +:+ tail)).
  { unfold assign_coding_trail. cbv zeta.
    change (get (map sub_time runs) 0) with (Ok (sub_time first) : result Z).
    cbn [mbind result_bind].
    match goal with
    | |- context [for_each ?xs ?body ?init] =>
        destruct (for_each_invariant
                    (fun (k : nat) (st : string * Z) =>
                       (1 <= k)%nat -> exists tail, st.1 = header +:+ tail)
                    xs body init)
          as ([trail wm] & Hrun & Hinv)
    end.
    - intros H. lia.
    - intros k i [trail wm] Hi Hinv. cbn [fst] in Hinv.
      apply range_lookup_inv in Hi as [-> Hk].
      assert (Hlen : (0 + k < length runs)%nat) by lia.
      destruct (get_lt (map sub_time runs) (0 + k)) as (di & Hdi & Gdi);
        [rewrite length_map; lia |].
      destruct (get_day_of_week_Ok di) as (day & c & Hday & Eday).
      rewrite (bind_Ok _ _ _ Gdi), (bind_Ok _ _ _ Hday).
      destruct (get_signed_previous (map sub_time runs) (0 + k)) as (dp & Gdp);
        [rewrite length_map; lia |].
      destruct (get_day_of_week_Ok dp) as (pday & pc & Hpday & _).
      destruct (get_lt (map type runs) (0 + k)) as (ti & _ & Gti);
        [rewrite length_map; lia |].
      destruct (get_signed_previous (map type runs) (0 + k)) as (tp & Gtp);
        [rewrite length_map; lia |].
      destruct (get_lt (map (fun run => if type run =? 0 then -1 else score run) runs)
                  (0 + k)) as (si & _ & Gsi); [rewrite length_map; lia |].
      (* the trail after the date and day markers *)
      assert (Hmark : exists trail' wm',
        (if (0 + k =? 0)%nat then Ok (strftime_md di +:+ day, wm)
         else
           dp ← get_signed (map sub_time runs) (Z.of_nat (0 + k) - 1);
           prev_day ← get_day_of_week dp;
           if negb (String.eqb prev_day day) then
             let '(coding_trail, week_marker) :=
               if day_number di - day_number wm >=? 7
               then (trail +:+ " " +:+ strftime_md di, di)
               else (trail, wm) in
             Ok (coding_trail +:+ day, week_marker)
           else Ok (trail, wm))
        = Ok (trail', wm') /\ exists tail, trail' = header +:+ tail).
      { destruct k as [|k].
        - cbn [Nat.add Nat.eqb]. eexists _, _. split; [reflexivity |].
          exists "". rewrite append_empty_r. unfold header.
          cbn in Hdi. injection Hdi as <-.
          rewrite Hday0 in Hday. injection Hday as <-. reflexivity.
        - destruct (Hinv ltac:(lia)) as [tail ->].
          change (0 + Datatypes.S k =? 0)%nat with false. cbv iota.
          rewrite (bind_Ok _ _ _ Gdp), (bind_Ok _ _ _ Hpday).
          destruct (negb (String.eqb pday day)).
          + destruct (day_number di - day_number wm >=? 7);
              eexists _, _; (split; [reflexivity |]);
              eexists; rewrite !append_assoc; reflexivity.
          + eexists _, _. split; [reflexivity |]. exists tail. reflexivity. }
      destruct Hmark as (trail' & wm' & Hmark & tail' & ->).
      rewrite (bind_Ok _ _ _ Hmark), (bind_Ok _ _ _ Gti).
      destruct (ti =? 0).
      + eexists. split; [reflexivity |]. intros _. cbn [fst].
        eexists. rewrite append_assoc. reflexivity.
      + rewrite (bind_Ok _ _ _ Gtp), (bind_Ok _ _ _ Gsi).
        destruct (last_char_after_day (strftime_md (sub_time first)) c0 tail')
          as [x Hx].
        assert (Hx' : last_char (header +:+ tail') = Some x)
          by (unfold header; rewrite Eday0; exact Hx).
        rewrite Hx'. cbn [from_option mbind result_bind].
        destruct ((tp =? 0) || (0 + k =? 0)%nat); cbn [mbind result_bind].
        * eexists. split; [reflexivity |]. intros _. cbn [fst].
          eexists. rewrite append_assoc. reflexivity.
        * destruct (Ascii.eqb x " "); eexists; (split; [reflexivity |]);
            intros _; cbn [fst]; eexists; rewrite !append_assoc; reflexivity.
    - rewrite (bind_Ok _ _ _ Hrun). cbn [mbind result_bind].
      cbn [fst] in Hinv. rewrite range_length in Hinv.
      destruct Hinv as [tail ->]; [unfold runs; cbn; lia |].
      exists tail. reflexivity. }
  destruct Hgoal as [tail Htail].
  exists day0, tail. split; [exact Hday0 |].
  rewrite Htail. unfold header. rewrite append_assoc. reflexivity.
Qed.

(** X6. For every non-empty run sequence [assign_coding_trail] returns a
    trail: every list read, the lookup of the day letter and the look-behind
    at the last character succeed. The trail begins with the MM/DD date of
    the first run followed by its day letter. *)
Theorem assign_coding_trail_total (first : Submission) (rest : list Submission) :
  exists (day tail : string),
    get_day_of_week first.(sub_time) = Ok day /\
    assign_coding_trail (first :: rest)
    = Ok (strftime_md first.(sub_time) +:+ day +:+ tail).
Proof. apply assign_coding_trail_returns. Qed.

(** ** Blank-line stripping as a round trip *)

Lemma no_linebreak_append (a b : string) :
  no_linebreak (a +:+ b) = no_linebreak a && no_linebreak b.
Proof.
  induction a as [|x a IH]; simpl; [reflexivity |].
  rewrite IH. apply andb_assoc.
Qed.

(** Without [keepends] no line of [splitlines] contains a line break. *)
Lemma splitlines_from_no_linebreak (n : nat) :
  forall s cur, (String.length s <= n)%nat -> no_linebreak cur = true ->
                Forall (fun l => no_linebreak l = true) (splitlines_from false cur s).
Proof.
  induction n as [|n IH]; intros s cur Hlen Hcur.
  - destruct s; [| cbn in Hlen; lia]. cbn.
    destruct (is_empty cur); repeat constructor. exact Hcur.
  - destruct s as [|c rest].
    + cbn. destruct (is_empty cur); repeat constructor. exact Hcur.
    + cbn [splitlines_from]. cbn in Hlen.
      destruct (is_linebreak c) eqn:Hc.
      * destruct rest as [|c' rest'].
        -- rewrite append_empty_r. repeat constructor. exact Hcur.
        -- destruct (Ascii.eqb c CR && Ascii.eqb c' LF); rewrite append_empty_r;
             (constructor; [exact Hcur |]); apply IH; try reflexivity;
             cbn in Hlen |- *; lia.
      * apply IH; [lia |].
        rewrite no_linebreak_append, Hcur. cbn. rewrite Hc. reflexivity.
Qed.

Lemma splitlines_no_linebreak (s : string) :
  Forall (fun l => no_linebreak l = true) (splitlines false s).
Proof. apply (splitlines_from_no_linebreak (String.length s)); [lia | reflexivity]. Qed.

(** A text without line breaks is read into the current line. *)
Lemma splitlines_from_line (keepends : bool) (l : string) :
  forall cur rest, no_linebreak l = true ->
    splitlines_from keepends cur (l +:+ rest)
    = splitlines_from keepends (cur +:+ l) rest.
Proof.
  induction l as [|c l IH]; intros cur rest Hl.
  - rewrite append_empty_r. reflexivity.
  - cbn in Hl. apply andb_prop in Hl as [Hc Hl].
    apply negb_true_iff in Hc.
    change (String c l +:+ rest) with (String c (l +:+ rest)).
    cbn [splitlines_from]. rewrite Hc, (IH _ _ Hl), append_assoc. reflexivity.
Qed.

Lemma join_nonempty (sep p : string) (ps : list string) :
  is_empty p = false -> is_empty (join sep (p :: ps)) = false.
Proof. destruct p; [discriminate |]. intros _. destruct ps; reflexivity. Qed.

(** Splitting the join of non-empty lines without line breaks gives the
    lines back. *)
Lemma splitlines_join (lines : list string) :
  Forall (fun l => no_linebreak l = true) lines ->
  Forall (fun l => is_empty l = false) lines ->
  splitlines false (join linesep lines) = lines.
Proof.
  induction lines as [|p ps IH]; intros Hnb Hne; [reflexivity |].
  apply Forall_cons in Hnb as [Hp Hnb]. apply Forall_cons in Hne as [Hp' Hne].
  unfold splitlines in *. destruct ps as [|q ps].
  - cbn [join]. rewrite <- (append_empty_r p) at 1.
    rewrite (splitlines_from_line false p "" "" Hp). cbn. rewrite Hp'. reflexivity.
  - change (join linesep (p :: q :: ps)) with (p +:+ linesep +:+ join linesep (q :: ps)).
    rewrite (splitlines_from_line false p "" _ Hp).
    pose proof (join_nonempty linesep q ps) as Hj.
    apply Forall_cons in Hne as [Hq Hne']. specialize (Hj Hq).
    destruct (join linesep (q :: ps)) as [|c' r'] eqn:E; [discriminate |].
    change ("" +:+ p) with p. unfold linesep.
    change (String LF "" +:+ String c' r') with (String LF (String c' r')).
    cbn [splitlines_from].
    change (is_linebreak LF) with true. change (Ascii.eqb LF CR) with false.
    cbv iota. cbn [andb]. rewrite append_empty_r. f_equal.
    apply IH; [exact Hnb | constructor; assumption].
Qed.

Lemma nonblank_lines_kept (code : string) :
  Forall (fun l => no_linebreak l = true) (nonblank_lines code) /\
  Forall (fun l => is_empty l = false) (nonblank_lines code) /\
  Forall (fun l => all_space l = false) (nonblank_lines code).
Proof.
  unfold nonblank_lines. pose proof (splitlines_no_linebreak code) as H.
  induction (splitlines false code) as [|l ls IH]; [repeat constructor |].
  apply Forall_cons in H as [Hl H]. destruct (IH H) as (H1 & H2 & H3).
  cbn [List.filter]. rewrite is_empty_strip.
  destruct (all_space l) eqn:E; cbn [negb]; [repeat split; assumption |].
  repeat split; constructor; try assumption.
  destruct l; [discriminate | reflexivity].
Qed.

Lemma filter_kept (lines : list string) :
  Forall (fun l => all_space l = false) lines ->
  List.filter (fun s => negb (is_empty (strip s))) lines = lines.
Proof.
  induction 1 as [|l ls Hl _ IH]; [reflexivity |].
  cbn [List.filter]. rewrite is_empty_strip, Hl. cbn [negb]. rewrite IH. reflexivity.
Qed.

(** X7. Stripping blank lines is a round trip: the stripped code splits
    into exactly the non-blank lines of the text, so the line count that the
    engine takes from the stripped code is the number of non-blank lines of
    the submission, no kept line is blank, and stripping twice is the same
    as stripping once. *)
Theorem nonblank_code_round_trip (code : string) :
  splitlines false (nonblank_code code) = nonblank_lines code /\
  count_lines (nonblank_code code) = Z.of_nat (length (nonblank_lines code)) /\
  Forall (fun l => all_space l = false) (nonblank_lines code) /\
  nonblank_code (nonblank_code code) = nonblank_code code.
Proof.
  destruct (nonblank_lines_kept code) as (Hnb & Hne & Hsp).
  assert (E : splitlines false (nonblank_code code) = nonblank_lines code)
    by (apply splitlines_join; assumption).
  split; [exact E |]. split; [unfold count_lines; rewrite E; reflexivity |].
  split; [exact Hsp |].
  unfold nonblank_code at 1. rewrite E, (filter_kept _ Hsp). reflexivity.
Qed.

(** ** Timestamps of the activity log *)

Lemma split_from_field (field : string) :
  forall cur rest, no_whitespace field = true ->
    split_from cur (field +:+ rest) = split_from (cur +:+ field) rest.
Proof.
  induction field as [|c field IH]; intros cur rest H.
  - rewrite append_empty_r. reflexivity.
  - cbn in H. apply andb_prop in H as [Hc H]. apply negb_true_iff in Hc.
    change (String c field +:+ rest) with (String c (field +:+ rest)).
    cbn [split_from]. rewrite Hc, (IH _ _ H), append_assoc. reflexivity.
Qed.

Lemma split_one_field (field : string) :
  no_whitespace field = true -> (length (split field) <= 1)%nat.
Proof.
  intros H. unfold split. rewrite <- (append_empty_r field).
  rewrite (split_from_field field "" "" H). cbn.
  destruct (is_empty _); cbn; lia.
Qed.

Lemma split_two_fields (a b : string) :
  no_whitespace a = true -> is_empty a = false ->
  no_whitespace b = true -> is_empty b = false ->
  split (a +:+ " " +:+ b) = [a; b].
Proof.
  intros Ha Ha' Hb Hb'. unfold split.
  rewrite (split_from_field a "" _ Ha). change ("" +:+ a) with a.
  change (" " +:+ b) with (String " " b). cbn [split_from].
  change (is_space " ") with true. cbv iota. rewrite Ha'. f_equal.
  rewrite <- (append_empty_r b). rewrite (split_from_field b "" "" Hb).
  cbn. rewrite append_empty_r, Hb'. reflexivity.
Qed.

Lemma slice_to_drop_last (body : string) (c : ascii) :
  slice_to (body +:+ String c "") (-1) = body.
Proof.
  unfold slice_to. cbn [Z.ltb Z.compare]. rewrite length_append. cbn [String.length].
  replace (Z.to_nat (Z.max (Z.of_nat (String.length body + 1) + -1) 0))
    with (String.length body) by lia.
  apply substring_prefix.
Qed.

Lemma find_nonneg_or_absent (s : string) (c : ascii) : find s c = -1 \/ 0 <= find s c.
Proof.
  induction s as [|x s IH]; [left; reflexivity |].
  cbn [find]. destruct (Ascii.eqb x c); [right; lia |].
  destruct (Z.ltb_spec (find s c) 0); [left; reflexivity | right; lia].
Qed.

Lemma find_after_prefix (a b : string) (c : ascii) :
  find a c = -1 -> find (a +:+ String c b) c = Z.of_nat (String.length a).
Proof.
  induction a as [|x a IH]; intros H.
  - cbn. rewrite Ascii.eqb_refl. reflexivity.
  - change (String x a +:+ String c b) with (String x (a +:+ String c b)).
    cbn [find String.length] in *.
    destruct (Ascii.eqb x c); [discriminate |].
    destruct (Z.ltb_spec (find a c) 0) as [Hneg | Hpos]; [| lia].
    destruct (find_nonneg_or_absent a c) as [E | E]; [| lia].
    rewrite (IH E).
    destruct (Z.ltb_spec (Z.of_nat (String.length a)) 0); lia.
Qed.

Lemma slice_to_prefix (a b : string) :
  slice_to (a +:+ b) (Z.of_nat (String.length a)) = a.
Proof.
  unfold slice_to.
  destruct (Z.ltb_spec (Z.of_nat (String.length a)) 0); [lia |].
  rewrite Nat2Z.id. apply substring_prefix.
Qed.

Section TimestampProperties.

Variable strptime : string -> string -> option Z.

(** X8. A timestamp without a second whitespace-separated field makes
    [get_valid_datetime] fail with [IndexError] at [t_split[1]], before any
    format is tried: a date-only timestamp never reaches the date-only
    format. *)
Theorem get_valid_datetime_needs_two_fields (timestamp : string) :
  (length (split timestamp) <= 1)%nat ->
  get_valid_datetime strptime timestamp = RaiseIndexError.
Proof.
  intros H. unfold get_valid_datetime. cbv zeta.
  rewrite (get_Raise (split timestamp) 1 H). reflexivity.
Qed.

(** X9. When the time field contains no "-", [find] returns -1, which is
    truthy, and the slice [0:-1] drops the last character of the field:
    the timestamp is parsed without the last character of its time. *)
Theorem get_valid_datetime_drops_last_character (date time : string) (c : ascii) :
  no_whitespace date = true -> is_empty date = false ->
  no_whitespace (time +:+ String c "") = true ->
  find (time +:+ String c "") "-" = -1 ->
  get_valid_datetime strptime (date +:+ " " +:+ time +:+ String c "")
  = parse_formats strptime (date +:+ " " +:+ time).
Proof.
  intros Hd Hd' Ht Hfind. unfold get_valid_datetime. cbv zeta.
  rewrite (split_two_fields date (time +:+ String c "") Hd Hd' Ht)
    by (destruct time; reflexivity).
  cbn [get lookup list_lookup mbind result_bind].
  rewrite Hfind. cbn [Z.eqb negb].
  rewrite slice_to_drop_last. reflexivity.
Qed.

(** X10. When the time field carries a suffix that starts with "-" after
    a non-empty part without "-", such as a time-zone offset, the field is
    cut before the "-" and the timestamp is parsed without the suffix. *)
Theorem get_valid_datetime_cuts_offset (date time offset : string) :
  no_whitespace date = true -> is_empty date = false ->
  no_whitespace (time +:+ String "-" offset) = true ->
  is_empty time = false -> find time "-" = -1 ->
  get_valid_datetime strptime (date +:+ " " +:+ time +:+ String "-" offset)
  = parse_formats strptime (date +:+ " " +:+ time).
Proof.
  intros Hd Hd' Ht Ht' Hfind. unfold get_valid_datetime. cbv zeta.
  rewrite (split_two_fields date (time +:+ String "-" offset) Hd Hd' Ht)
    by (destruct time; reflexivity).
  cbn [get lookup list_lookup mbind result_bind].
  rewrite (find_after_prefix time offset "-" Hfind).
  destruct (Z.eqb_spec (Z.of_nat (String.length time)) 0) as [E | _].
  - destruct time; [discriminate | cbn in E; lia].
  - cbn [negb]. rewrite slice_to_prefix. reflexivity.
Qed.

End TimestampProperties.

Lemma get_valid_datetime_needs_two_fields_witness :
  (length (split "2017-04-05") <= 1)%nat /\
  get_valid_datetime (fun _ _ => Some 0) "2017-04-05" = RaiseIndexError.
Proof.
  split; [vm_compute; lia |].
  apply get_valid_datetime_needs_two_fields. vm_compute. lia.
Defined.

Lemma get_valid_datetime_drops_last_character_witness :
  no_whitespace "2017-04-05" = true /\ is_empty "2017-04-05" = false /\
  no_whitespace "17:01:12" = true /\ find "17:01:12" "-" = -1 /\
  get_valid_datetime (fun _ _ => None) "2017-04-05 17:01:12"
  = parse_formats (fun _ _ => None) "2017-04-05 17:01:1".
Proof.
  repeat (split; [reflexivity |]).
  apply (get_valid_datetime_drops_last_character (fun _ _ => None)
           "2017-04-05" "17:01:1" "2"); reflexivity.
Defined.

Lemma get_valid_datetime_cuts_offset_witness :
  no_whitespace "2017-04-05" = true /\ is_empty "2017-04-05" = false /\
  no_whitespace "17:01:12-07:00" = true /\
  is_empty "17:01:12" = false /\ find "17:01:12" "-" = -1 /\
  get_valid_datetime (fun _ _ => None) "2017-04-05 17:01:12-07:00"
  = parse_formats (fun _ _ => None) "2017-04-05 17:01:12".
Proof.
  repeat (split; [reflexivity |]).
  apply (get_valid_datetime_cuts_offset (fun _ _ => None)
           "2017-04-05" "17:01:12" "07:00"); reflexivity.
Defined.

(** ** When the LOC trail is rendered *)

Lemma for_each_partial {X S : Type} (P : nat -> S -> Prop)
    (xs : list X) (body : X -> S -> result S) (s0 s' : S) :
  P O s0 ->
  (forall k x s s1, xs !! k = Some x -> P k s -> body x s = Ok s1 ->
                    P (Datatypes.S k) s1) ->
  for_each xs body s0 = Ok s' -> P (length xs) s'.
Proof.
  revert P s0. induction xs as [|x xs IH]; intros P s0 H0 Hstep Hrun.
  - cbn in Hrun. injection Hrun as <-. exact H0.
  - cbn [for_each] in Hrun. destruct (body x s0) as [s1 | e] eqn:Hb; [| discriminate].
    cbn [mbind result_bind] in Hrun.
    apply (IH (fun k => P (Datatypes.S k)) s1).
    + apply (Hstep O x s0 s1 eq_refl H0 Hb).
    + intros k y s s2 Hk Hs Hy. apply (Hstep (Datatypes.S k) y s s2 Hk Hs Hy).
    + exact Hrun.
Qed.

Lemma range_snoc (a b : nat) : (a <= b)%nat -> range a (Datatypes.S b) = range a b ++ [b].
Proof.
  intros H. unfold range.
  replace (Datatypes.S b - a)%nat with (Datatypes.S (b - a)) by lia.
  rewrite seq_S. f_equal. f_equal. lia.
Qed.

Lemma str_nonempty (n : Z) : is_empty (str n) = false.
Proof. unfold str. destruct (Z.to_int n) as [[] | d]; reflexivity. Qed.

Lemma is_empty_append (a b : string) :
  is_empty (a +:+ b) = is_empty a && is_empty b.
Proof. destruct a; reflexivity. Qed.

Lemma last_char_Some (s : string) :
  is_empty s = false -> exists c, last_char s = Some c.
Proof. destruct s; [discriminate |]. intros _. apply last_char_nonempty. Qed.

Lemma flagged_runs_all (codes : list string) (prev : string) :
  codes <> [] ->
  Forall (fun c => is_empty c = false) (removelast codes) ->
  flagged_runs prev codes
  = ((if is_empty prev then 0 else 1) + (length codes - 1))%nat.
Proof.
  revert prev. induction codes as [|c rest IH]; intros prev Hne H; [congruence |].
  destruct rest as [|d rest].
  - cbn. lia.
  - change (removelast (c :: d :: rest)) with (c :: removelast (d :: rest)) in H.
    apply Forall_cons in H as [Hc H].
    change (flagged_runs prev (c :: d :: rest))
      with ((if is_empty prev then 0 else 1) + flagged_runs c (d :: rest))%nat.
    rewrite (IH c) by (discriminate || exact H). rewrite Hc. cbn [length]. lia.
Qed.

Lemma flagged_runs_le (codes : list string) (prev : string) :
  (flagged_runs prev codes <= length codes)%nat.
Proof.
  revert prev. induction codes as [|c rest IH]; intros prev; cbn; [lia |].
  specialize (IH c). destruct (is_empty prev); lia.
Qed.

Lemma flagged_runs_gap (rest : list string) (c : string) :
  Exists (fun c => is_empty c = true) (removelast (c :: rest)) ->
  (flagged_runs c rest + 1 <= length rest)%nat.
Proof.
  revert c. induction rest as [|d rest IH]; intros c H.
  - cbn in H. inversion H.
  - change (removelast (c :: d :: rest)) with (c :: removelast (d :: rest)) in H.
    cbn [flagged_runs length]. apply Exists_cons in H as [Hc | H].
    + rewrite Hc. pose proof (flagged_runs_le rest d). lia.
    + specialize (IH d H). destruct (is_empty c); lia.
Qed.

Lemma flagged_runs_short (codes : list string) :
  Exists (fun c => is_empty c = true) (removelast codes) ->
  (flagged_runs "" codes + 2 <= length codes)%nat.
Proof.
  destruct codes as [|c rest]; intros H; [inversion H |].
  apply flagged_runs_gap in H. cbn [flagged_runs is_empty length]. lia.
Qed.

(** The seeding loop, when it returns, has added one tag per index. *)
Lemma seeding_loop_length (lines drastic_change rl : list Z) :
  for_each (range 1 (length lines - 1))
    (fun i relevance_list =>
       li ← get lines i;
       lp ← get lines (i - 1);
       if li - lp >? 20 then
         relevance_list ← set_last relevance_list 1;
         Ok (relevance_list ++ [2])
       else
         notable ←
           (if Z.abs (li - lp) >? 10 then Ok true
            else d ← get drastic_change i; Ok (d =? 1));
         if notable : bool then
           relevance_list ← set_last relevance_list 1;
           Ok (relevance_list ++ [1])
         else Ok (relevance_list ++ [0]))
    [1]
  = Ok rl ->
  length rl = Datatypes.S (length lines - 1 - 1).
Proof.
  intros Hrun.
  rewrite <- (range_length 1 (length lines - 1)).
  revert Hrun.
  apply (for_each_partial (fun k (rl : list Z) => length rl = Datatypes.S k)).
  - reflexivity.
  - intros k i rl0 rl1 _ Hlen Hbody.
    assert (Hset : forall t : Z, (rl2 ← set_last rl0 1; Ok (rl2 ++ [t])) = Ok rl1 ->
                                 length rl1 = Datatypes.S (Datatypes.S k)).
    { intros t. unfold set_last. destruct rl0 as [|x rl0]; [discriminate |].
      cbn [mbind result_bind]. intros [= <-].
      rewrite length_app, length_insert. cbn [length] in *. lia. }
    destruct (get lines i) as [li |]; [| discriminate].
    destruct (get lines (i - 1)) as [lp |]; [| discriminate].
    cbn [mbind result_bind] in Hbody.
    destruct (li - lp >? 20); [apply (Hset 2 Hbody) |].
    destruct (Z.abs (li - lp) >? 10); cbn [mbind result_bind] in Hbody.
    + apply (Hset 1 Hbody).
    + destruct (get drastic_change i) as [d |]; [| discriminate].
      cbn [mbind result_bind] in Hbody. destruct (d =? 1).
      * apply (Hset 1 Hbody).
      * injection Hbody as <-. rewrite length_app. cbn. lia.
Qed.

(** Whenever the classification of at least two line counts returns, it
    has one tag per line count and its last tag is 1. *)
Lemma classify_last_tag (lines drastic_change rl : list Z) :
  (2 <= length lines)%nat ->
  classify lines drastic_change = Ok rl ->
  length rl = length lines /\ rl !! (length lines - 1)%nat = Some 1.
Proof.
  intros Hn. unfold classify.
  match goal with
  | |- context [for_each ?xs ?body ?init] =>
      destruct (for_each xs body init) as [rl1 | e] eqn:Hseed; [| discriminate]
  end.
  apply seeding_loop_length in Hseed.
  cbn [mbind result_bind]. cbv zeta.
  assert (HlenA : length (rl1 ++ [1]) = length lines)
    by (rewrite length_app; cbn; lia).
  assert (HlastA : (rl1 ++ [1]) !! (length lines - 1)%nat = Some 1)
    by (apply list_lookup_middle; lia).
  destruct (check_subsequence_values_promotes (rl1 ++ [1]) lines) as (rlB & HB & HpB);
    [lia |].
  rewrite HB. cbn [mbind result_bind].
  destruct (check_subsequence_length_promotes rlB) as (rlC & HC & HpC).
  rewrite HC. intros [= <-].
  assert (Hp : promoted (rl1 ++ [1]) rlC) by (apply (promoted_trans _ rlB); assumption).
  split; [destruct Hp as [-> _]; exact HlenA | apply (promoted_one _ _ _ Hp HlastA)].
Qed.

Section LocTrail.

Variable compare : list string -> list string -> list string.

(** The first loop of [assign_loc_trail] adds a flag for every run whose
    predecessor has a non-empty stripped code. *)
Lemma loc_trail_loop_flags (runs : list Submission) :
  forall (lines drastic_change : list Z) (prev_code : string),
    (is_empty prev_code = false -> all_space prev_code = false) ->
    exists drastic_change' prev_code',
      for_each runs
        (fun run '(lines, drastic_change, prev_code) =>
           let code := nonblank_code run.(code) in
           let lines := lines ++ [count_lines code] in
           drastic_change ←
             (if negb (is_empty prev_code) then
                diff ← get_diff compare prev_code code;
                if Qgtb diff (7 # 10) then Ok (drastic_change ++ [1])
                else Ok (drastic_change ++ [0])
              else Ok drastic_change);
           Ok (lines, drastic_change, code))
        (lines, drastic_change, prev_code)
      = Ok (lines ++ nonblank_line_counts runs, drastic_change', prev_code') /\
      length drastic_change'
      = (length drastic_change + flagged_runs prev_code (stripped_codes runs))%nat.
Proof.
  induction runs as [|run runs IH]; intros lines drastic_change prev_code Hcode.
  - exists drastic_change, prev_code. cbn. rewrite app_nil_r. split; [reflexivity | lia].
  - cbn [for_each stripped_codes map flagged_runs]. cbv zeta.
    fold (stripped_codes runs).
    destruct (is_empty prev_code) eqn:E; cbn [negb].
    + cbn [mbind result_bind].
      destruct (IH (lines ++ [count_lines (nonblank_code (code run))])
                  drastic_change (nonblank_code (code run)))
        as (d' & c' & Hrun & Hlen); [apply nonblank_code_all_space |].
      exists d', c'. split; [| rewrite Hlen; lia].
      etransitivity; [exact Hrun |].
      cbn [nonblank_line_counts map]. rewrite <- app_assoc. reflexivity.
    + destruct (get_diff_Ok compare prev_code (nonblank_code (code run)) (Hcode eq_refl))
        as [r Hr].
      rewrite Hr. cbn [mbind result_bind].
      destruct (IH (lines ++ [count_lines (nonblank_code (code run))])
                  (if Qgtb r (7 # 10) then drastic_change ++ [1]
                   else drastic_change ++ [0])
                  (nonblank_code (code run)))
        as (d' & c' & Hrun & Hlen); [apply nonblank_code_all_space |].
      exists d', c'. split.
      * destruct (Qgtb r (7 # 10));
          (etransitivity; [exact Hrun |]);
          cbn [nonblank_line_counts map]; rewrite <- app_assoc; reflexivity.
      * rewrite Hlen. destruct (Qgtb r (7 # 10)); rewrite length_app; cbn; lia.
Qed.

Lemma assign_loc_trail_renders (runs : list Submission) :
  runs <> [] ->
  Forall (fun c => is_empty c = false) (removelast (stripped_codes runs)) ->
  exists trail, assign_loc_trail compare runs = Ok trail.
Proof.
  intros Hne Hcodes. unfold assign_loc_trail.
  destruct (loc_trail_loop_flags runs [] [0] "") as (d' & c' & Hrun & Hlen);
    [discriminate |].
  rewrite (bind_Ok _ _ _ Hrun). cbn [app mbind result_bind].
  assert (Hn : length (nonblank_line_counts runs) = length runs)
    by apply length_map.
  assert (Hn' : (1 <= length runs)%nat) by (destruct runs; [congruence | cbn; lia]).
  rewrite flagged_runs_all in Hlen;
    [| destruct runs; [congruence | discriminate] | exact Hcodes].
  unfold stripped_codes in Hlen. rewrite length_map in Hlen. cbn in Hlen.
  destruct (classify_properties (nonblank_line_counts runs) d')
    as (rl & Hrl & Hlenrl & _); [lia |].
  rewrite Hrl. cbn [mbind result_bind].
  destruct (get_lt (nonblank_line_counts runs) 0) as (l0 & _ & G0); [lia |].
  rewrite G0. cbn [mbind result_bind].
  match goal with
  | |- context [for_each ?xs ?body ?init] =>
      destruct (for_each_invariant (fun (_ : nat) (t : string) => is_empty t = false)
                  xs body init) as (trail & Htrail & _)
  end.
  - apply str_nonempty.
  - intros k i trail Hi Htrail.
    apply range_lookup_inv in Hi as [-> Hk].
    destruct (get_lt rl (1 + k)) as (r & _ & Gr); [lia |].
    destruct (get_lt d' (1 + k)) as (d & _ & Gd); [lia |].
    destruct (get_lt (nonblank_line_counts runs) (1 + k)) as (li & _ & Gl); [lia |].
    destruct (last_char_Some trail Htrail) as [c Hc].
    rewrite Gr. cbn [mbind result_bind].
    destruct (r =? 0).
    + eexists. split; [reflexivity |]. rewrite is_empty_append, Htrail. reflexivity.
    + rewrite Hc. cbn [from_option mbind result_bind]. cbv zeta.
      rewrite Gd. cbn [mbind result_bind]. rewrite Gl. cbn [mbind result_bind].
      destruct (negb (Ascii.eqb c ".")), (d =? 1), (r =? 1);
        eexists; (split; [reflexivity |]);
        rewrite ?is_empty_append, Htrail; reflexivity.
  - exists trail. exact Htrail.
Qed.

Lemma assign_loc_trail_fails (runs : list Submission) :
  Exists (fun c => is_empty c = true) (removelast (stripped_codes runs)) ->
  exists e, assign_loc_trail compare runs = Raise e.
Proof.
  intros Hcodes. unfold assign_loc_trail.
  destruct (loc_trail_loop_flags runs [] [0] "") as (d' & c' & Hrun & Hlen);
    [discriminate |].
  rewrite (bind_Ok _ _ _ Hrun). cbn [app mbind result_bind].
  assert (Hn : length (nonblank_line_counts runs) = length runs)
    by apply length_map.
  assert (Hshort : (2 <= length runs /\ length d' <= length runs - 1)%nat).
  { apply flagged_runs_short in Hcodes.
    unfold stripped_codes in Hcodes at 2. rewrite length_map in Hcodes.
    cbn [length] in Hlen. lia. }
  destruct Hshort as [Hn2 Hd'].
  destruct (classify (nonblank_line_counts runs) d') as [rl | e] eqn:Hrl;
    [| exists e; reflexivity].
  cbn [mbind result_bind].
  destruct (classify_last_tag (nonblank_line_counts runs) d' rl) as [Hlenrl Hlast];
    [lia | exact Hrl |].
  rewrite Hn in *.
  destruct (get_lt (nonblank_line_counts runs) 0) as (l0 & _ & G0); [lia |].
  rewrite G0. cbn [mbind result_bind].
  assert (Hrange : range 1 (length runs)
                   = range 1 (length runs - 1) ++ [(length runs - 1)%nat]).
  { rewrite <- range_snoc by lia. f_equal. lia. }
  rewrite Hrange, for_each_app.
  match goal with
  | |- context [for_each ?xs ?body ?init ≫= _] =>
      destruct (for_each xs body init) as [trail | e]; [| exists e; reflexivity]
  end.
  cbn [mbind result_bind for_each].
  rewrite (get_Ok rl _ 1 Hlast). cbn [mbind result_bind Z.eqb].
  destruct (last_char trail); cbn [from_option mbind result_bind];
    [| exists IndexError; reflexivity].
  cbv zeta. rewrite (get_Raise d' (length runs - 1) Hd').
  exists IndexError. reflexivity.
Qed.

(** X11. [assign_loc_trail] returns a trail exactly when the run sequence
    is not empty and every run but the last has a stripped code that is not
    empty; in every other case it raises [IndexError]: on the empty sequence
    at [lines[0]], and otherwise because the flag list is shorter than the
    list of line counts. *)
Theorem assign_loc_trail_returns_iff (runs : list Submission) :
  ((exists trail, assign_loc_trail compare runs = Ok trail) <->
   runs <> [] /\
   Forall (fun c => is_empty c = false) (removelast (stripped_codes runs))) /\
  ((forall trail, assign_loc_trail compare runs <> Ok trail) ->
   assign_loc_trail compare runs = Raise IndexError).
Proof.
  split.
  - split.
    + intros [trail Htrail]. split.
      * intros ->. discriminate.
      * apply List.Forall_forall. intros c Hin.
        destruct (is_empty c) eqn:Hc; [| reflexivity].
        assert (Hex : Exists (fun c => is_empty c = true)
                        (removelast (stripped_codes runs))).
        { apply List.Exists_exists. exists c. split; assumption. }
        destruct (assign_loc_trail_fails runs Hex) as [e He]. congruence.
    + intros [Hne Hcodes]. apply assign_loc_trail_renders; assumption.
  - intros Hfail. pose proof (assign_loc_trail_no_zero_division compare runs) as Hz.
    unfold no_zero_division in Hz.
    destruct (assign_loc_trail compare runs) as [trail | [|]] eqn:E.
    + destruct (Hfail trail). reflexivity.
    + reflexivity.
    + congruence.
Qed.

End LocTrail.

(** ** The results of one (student, lab) pair *)

Lemma get_signed_no_zero_division {A : Type} (l : list A) (i : Z) :
  no_zero_division (get_signed l i).
Proof.
  unfold get_signed. destruct (i <? 0); [destruct (- i <=? _) |];
    try apply no_zero_division_get. discriminate.
Qed.

Lemma assign_coding_trail_no_zero_division (runs : list Submission) :
  no_zero_division (assign_coding_trail runs).
Proof.
  unfold assign_coding_trail, get_day_of_week.
  repeat first
    [ apply get_signed_no_zero_division
    | progress no_zero_division ].
Qed.

(** X12. The results of one (student, lab) pair are produced exactly when
    [assign_loc_trail] is: when the run sequence is not empty and every run
    but the last has a stripped code that is not empty. In every other case
    the computation of the pair, and with it [run], stops with [IndexError];
    it never stops with a division by zero. *)
Theorem run_one_returns_iff {float : Type} (ops : FloatOps float)
    (compare : list string -> list string -> list string)
    (runs : list Submission) :
  ((exists r, run_one compare runs = Ok r) <->
   runs <> [] /\
   Forall (fun c => is_empty c = false) (removelast (stripped_codes runs))) /\
  ((forall r, run_one compare runs <> Ok r) ->
   run_one compare runs = Raise IndexError).
Proof.
  assert (Herr : forall e, run_one compare runs = Raise e -> e = IndexError).
  { unfold run_one. cbv zeta.
    rewrite assign_inc_dev_score_trail_spec. cbn [mbind result_bind].
    destruct (assign_loc_trail compare runs) as [lt | e'] eqn:Hlt.
    - cbn [mbind result_bind].
      destruct (assign_time_trail_returns runs) as [tt ->]. cbn [mbind result_bind].
      destruct (assign_coding_trail runs) as [ct | e'] eqn:Hct.
      + cbn [mbind result_bind]. rewrite assign_drastic_change_trail_spec.
        intros e He. discriminate.
      + cbn [mbind result_bind]. intros e [= <-].
        pose proof (assign_coding_trail_no_zero_division runs) as Hz.
        rewrite Hct in Hz. destruct e'; [reflexivity | destruct Hz; reflexivity].
    - cbn [mbind result_bind]. intros e [= <-].
      pose proof (assign_loc_trail_no_zero_division compare runs) as Hz.
      rewrite Hlt in Hz. destruct e'; [reflexivity | destruct Hz; reflexivity]. }
  split.
  - split.
    + intros [r Hr]. unfold run_one in Hr. cbv zeta in Hr.
      rewrite assign_inc_dev_score_trail_spec in Hr. cbn [mbind result_bind] in Hr.
      destruct (assign_loc_trail compare runs) as [lt | e'] eqn:Hlt; [| discriminate].
      split.
      * intros ->. discriminate.
      * apply List.Forall_forall. intros c Hin.
        destruct (is_empty c) eqn:Hc; [| reflexivity].
        assert (Hex : Exists (fun c => is_empty c = true)
                        (removelast (stripped_codes runs))).
        { apply List.Exists_exists. exists c. split; assumption. }
        destruct (assign_loc_trail_fails compare runs Hex) as [e He]. congruence.
    + intros [Hne Hcodes].
      destruct (assign_loc_trail_renders compare runs Hne Hcodes) as [lt Hlt].
      destruct (assign_time_trail_returns runs) as [tt Htt].
      destruct runs as [|first rest]; [congruence |].
      destruct (assign_coding_trail_returns first rest) as (day & tail & _ & Hct).
      unfold run_one. cbv zeta.
      rewrite assign_inc_dev_score_trail_spec, Hlt, Htt, Hct,
        assign_drastic_change_trail_spec.
      cbn [mbind result_bind]. eexists. reflexivity.
  - intros Hfail.
    destruct (run_one compare runs) as [r | e] eqn:E.
    + destruct (Hfail r). reflexivity.
    + rewrite (Herr e eq_refl). reflexivity.
Qed.

(** ** The violation tag *)

Lemma seeded_notable (lines dc rl : list Z) (k : nat) (lp li t : Z) :
  lines !! k = Some lp -> lines !! (Datatypes.S k) = Some li ->
  (t = 2 /\ li - lp > 20 \/ t = 1) ->
  seeded lines dc k rl ->
  seeded lines dc (Datatypes.S k) (<[pred (length rl):=1]> rl ++ [t]).
Proof.
  intros Hp Hi Ht (Hlen & HA & HB).
  rewrite Hlen. cbn [pred].
  split; [rewrite length_app, length_insert; cbn; lia |]. split.
  - intros j Hj.
    destruct (decide (j = Datatypes.S k)) as [-> | Hne1].
    + rewrite list_lookup_middle in Hj by (rewrite length_insert; lia).
      destruct Ht as [[-> Hbig] | ->]; [| discriminate].
      split; [lia |]. exists lp, li.
      replace (Datatypes.S k - 1)%nat with k by lia.
      split; [exact Hp |]. split; [exact Hi |]. split; [exact Hbig |].
      intros c Hc. lia.
    + destruct (decide (j = k)) as [-> | Hne2].
      * rewrite lookup_app_l in Hj by (rewrite length_insert; lia).
        rewrite list_lookup_insert_eq in Hj by lia. discriminate.
      * assert (Hjk : (j < k)%nat).
        { apply lookup_lt_Some in Hj. rewrite length_app, length_insert in Hj.
          cbn in Hj. lia. }
        rewrite lookup_app_l in Hj by (rewrite length_insert; lia).
        rewrite list_lookup_insert_ne in Hj by lia.
        destruct (HA j Hj) as (Hr & a & b & Ha & Hb & Hbig & Hnext).
        split; [lia |]. exists a, b. repeat split; try assumption.
        all: apply (Hnext c); [lia | assumption].
  - intros j b c Hj Hb Hc Hn.
    rewrite lookup_app_l by (rewrite length_insert; lia).
    destruct (decide (j = k)) as [-> | Hne].
    + apply list_lookup_insert_eq. lia.
    + rewrite list_lookup_insert_ne by lia. apply (HB j b c); [lia | assumption ..].
Qed.

Lemma seeded_omitted (lines dc rl : list Z) (k : nat) (lp li d : Z) :
  lines !! k = Some lp -> lines !! (Datatypes.S k) = Some li ->
  Z.abs (li - lp) <= 10 -> dc !! (Datatypes.S k) = Some d -> d <> 1 ->
  seeded lines dc k rl ->
  seeded lines dc (Datatypes.S k) (rl ++ [0]).
Proof.
  intros Hp Hi Hsmall Hd Hd1 (Hlen & HA & HB).
  split; [rewrite length_app; cbn; lia |]. split.
  - intros j Hj.
    destruct (decide (j = Datatypes.S k)) as [-> | Hne1].
    + rewrite list_lookup_middle in Hj by lia. discriminate.
    + assert (Hjk : (j <= k)%nat).
      { apply lookup_lt_Some in Hj. rewrite length_app in Hj. cbn in Hj. lia. }
      rewrite lookup_app_l in Hj by lia.
      destruct (HA j Hj) as (Hr & a & b & Ha & Hb & Hbig & Hnext).
      split; [lia |]. exists a, b. split; [exact Ha |]. split; [exact Hb |].
      split; [exact Hbig |]. intros c Hjk' Hc.
      destruct (decide (j = k)) as [-> | Hne2].
      * replace (k + 1)%nat with (Datatypes.S k) in * by lia.
        assert (c = li) by congruence. assert (b = lp) by congruence. subst c b.
        split; [exact Hsmall |]. rewrite Hd. congruence.
      * apply (Hnext c); [lia | exact Hc].
  - intros j b c Hj Hb Hc Hn.
    rewrite lookup_app_l by lia.
    destruct (decide (j = k)) as [-> | Hne].
    + exfalso. replace (k + 1)%nat with (Datatypes.S k) in * by lia.
      assert (c = li) by congruence. assert (b = lp) by congruence. subst c b.
      destruct Hn as [Hn | Hn]; [lia | congruence].
    + apply (HB j b c); [lia | assumption ..].
Qed.

Lemma seeding_loop_tags (lines drastic_change rl : list Z) :
  for_each (range 1 (length lines - 1))
    (fun i relevance_list =>
       li ← get lines i;
       lp ← get lines (i - 1);
       if li - lp >? 20 then
         relevance_list ← set_last relevance_list 1;
         Ok (relevance_list ++ [2])
       else
         notable ←
           (if Z.abs (li - lp) >? 10 then Ok true
            else d ← get drastic_change i; Ok (d =? 1));
         if notable : bool then
           relevance_list ← set_last relevance_list 1;
           Ok (relevance_list ++ [1])
         else Ok (relevance_list ++ [0]))
    [1]
  = Ok rl ->
  seeded lines drastic_change (length lines - 1 - 1) rl.
Proof.
  intros Hrun.
  rewrite <- (range_length 1 (length lines - 1)).
  revert Hrun.
  apply (for_each_partial (seeded lines drastic_change)).
  - split; [reflexivity |]. split.
    + intros [|j] Hj; discriminate.
    + intros j b c Hj. lia.
  - intros k i rl0 rl1 Hi Hinv Hbody.
    apply range_lookup_inv in Hi as [-> Hk].
    replace (1 + k)%nat with (Datatypes.S k) in Hbody by lia.
    replace (Datatypes.S k - 1)%nat with k in Hbody by lia.
    unfold get in Hbody.
    destruct (lines !! Datatypes.S k) as [li |] eqn:Gi; [| discriminate].
    destruct (lines !! k) as [lp |] eqn:Gp; [| discriminate].
    cbn [mbind result_bind] in Hbody.
    assert (Hne : rl0 <> []) by (destruct Hinv as [Hlen _]; destruct rl0; [discriminate | congruence]).
    rewrite (set_last_Ok rl0 1 Hne) in Hbody. cbn [mbind result_bind] in Hbody.
    destruct (li - lp >? 20) eqn:Hbig.
    + injection Hbody as <-.
      apply (seeded_notable lines drastic_change rl0 k lp li 2 Gp Gi); [| exact Hinv].
      left. split; [reflexivity | lia].
    + destruct (Z.abs (li - lp) >? 10) eqn:Habs; cbn [mbind result_bind] in Hbody.
      * injection Hbody as <-.
        apply (seeded_notable lines drastic_change rl0 k lp li 1 Gp Gi); [| exact Hinv].
        right. reflexivity.
      * destruct (drastic_change !! Datatypes.S k) as [d |] eqn:Gd; [| discriminate].
        cbn [mbind result_bind] in Hbody. destruct (d =? 1) eqn:Hd.
        -- injection Hbody as <-.
           apply (seeded_notable lines drastic_change rl0 k lp li 1 Gp Gi); [| exact Hinv].
           right. reflexivity.
        -- injection Hbody as <-.
           apply (seeded_omitted lines drastic_change rl0 k lp li d Gp Gi);
             [lia | exact Gd | lia | exact Hinv].
Qed.

(** X13. The violation tag 2 (rendered with a star) survives the
    classification only on an interior run that added more than 20 lines and
    whose successor is the last run or a run that is not notable. A run
    followed by a notable interior run (a change of more than 10 lines, or a
    drastic-change flag) is always tagged 1, even if it added more than 20
    lines itself: its violation tag is overwritten by
    [relevance_list[-1] = 1]. *)
Theorem violation_tag_needs_quiet_successor (lines drastic_change rl : list Z) (i : nat) :
  classify lines drastic_change = Ok rl ->
  (rl !! i = Some 2 ->
   (1 <= i)%nat /\ (i + 1 < length lines)%nat /\
   exists a b,
     lines !! (i - 1)%nat = Some a /\ lines !! i = Some b /\ b - a > 20 /\
     forall c, (i + 2 < length lines)%nat -> lines !! (i + 1)%nat = Some c ->
               Z.abs (c - b) <= 10 /\ drastic_change !! (i + 1)%nat <> Some 1) /\
  (forall b c, (i + 2 < length lines)%nat ->
     lines !! i = Some b -> lines !! (i + 1)%nat = Some c ->
     Z.abs (c - b) > 10 \/ drastic_change !! (i + 1)%nat = Some 1 ->
     rl !! i = Some 1).
Proof.
  intros Hrun.
  destruct (Nat.lt_ge_cases (length lines) 2) as [Hshort | Hn].
  - assert (Hrl : rl = [1; 1]).
    { destruct lines as [|x [|y lines]]; [| | cbn in Hshort; lia];
        cbn in Hrun; congruence. }
    subst rl. split.
    + intros Hi. destruct i as [|[|i]]; discriminate.
    + intros b c Hi. lia.
  - unfold classify in Hrun.
    match type of Hrun with
    | context [for_each ?xs ?body ?init] =>
        destruct (for_each xs body init) as [rl1 | e] eqn:Hseed; [| discriminate]
    end.
    apply seeding_loop_tags in Hseed. destruct Hseed as (Hlen1 & HA & HB).
    cbn [mbind result_bind] in Hrun. cbv zeta in Hrun.
    destruct (check_subsequence_values_promotes (rl1 ++ [1]) lines) as (rlB & HvB & HpB);
      [rewrite length_app; cbn; lia |].
    rewrite HvB in Hrun. cbn [mbind result_bind] in Hrun.
    destruct (check_subsequence_length_promotes rlB) as (rlC & HvC & HpC).
    rewrite HvC in Hrun. injection Hrun as <-.
    assert (Hp : promoted (rl1 ++ [1]) rlC) by (apply (promoted_trans _ rlB); assumption).
    split.
    + intros Hi.
      assert (Hbefore : (rl1 ++ [1]) !! i = Some 2).
      { destruct Hp as [HlenC Hp].
        destruct (lookup_lt_is_Some_2 (rl1 ++ [1]) i) as [x Hx].
        { rewrite <- HlenC. apply lookup_lt_Some in Hi. exact Hi. }
        destruct (Hp i x Hx) as [E | E]; congruence. }
      assert (Hi1 : rl1 !! i = Some 2).
      { destruct (decide (i < length rl1)%nat) as [Hlt | Hge].
        - rewrite lookup_app_l in Hbefore by exact Hlt. exact Hbefore.
        - rewrite lookup_app_r in Hbefore by lia.
          destruct (i - length rl1)%nat as [|m]; discriminate. }
      destruct (HA i Hi1) as (Hr & a & b & Ha & Hb & Hbig & Hnext).
      split; [lia |]. split; [lia |]. exists a, b.
      split; [exact Ha |]. split; [exact Hb |]. split; [exact Hbig |].
      intros c Hc. apply Hnext. lia.
    + intros b c Hi Hb Hc Hnot.
      apply (promoted_one (rl1 ++ [1])); [exact Hp |].
      rewrite lookup_app_l by lia. apply (HB i b c); [lia | assumption ..].
Qed.

Lemma violation_tag_needs_quiet_successor_witness :
  classify [0; 30; 60; 60] [0; 0; 0; 0] = Ok [1; 1; 2; 1] /\
  [1; 1; 2; 1] !! 1%nat = Some 1.
Proof.
  split; [reflexivity |].
  apply (proj2 (violation_tag_needs_quiet_successor
                  [0; 30; 60; 60] [0; 0; 0; 0] [1; 1; 2; 1] 1 eq_refl) 30 60);
    [cbn; lia | reflexivity | reflexivity | left; lia].
Defined.

(** ** The report of [run] *)

Lemma take_map_to_list_step {V} (m : gmap string V) (n : nat) (k : string) (v : V) :
  map_to_list m !! n = Some (k, v) ->
  (list_to_map (take (Datatypes.S n) (map_to_list m)) : gmap string V)
  = <[k := v]> (list_to_map (take n (map_to_list m))) /\
  (list_to_map (take n (map_to_list m)) : gmap string V) !! k = None /\
  m !! k = Some v.
Proof.
  intros Hn.
  assert (Hnd : NoDup (map_to_list m).*1) by apply NoDup_fst_map_to_list.
  rewrite (take_S_r _ _ _ Hn).
  assert (Hk : k ∉ (take n (map_to_list m)).*1).
  { rewrite <- (take_drop n (map_to_list m)) in Hnd.
    rewrite fmap_app in Hnd. apply NoDup_app in Hnd as (_ & Hdis & _).
    intros Hin. apply (Hdis k Hin).
    apply list_elem_of_fmap. exists (k, v). split; [reflexivity |].
    apply list_elem_of_lookup. exists O. rewrite lookup_drop.
    rewrite Nat.add_0_r. exact Hn. }
  split; [apply list_to_map_snoc, Hk |]. split.
  - apply not_elem_of_list_to_map_1, Hk.
  - apply elem_of_map_to_list. apply list_elem_of_lookup. exists n. exact Hn.
Qed.

Lemma take_map_to_list_all {V} (m : gmap string V) :
  (list_to_map (take (length (map_to_list m)) (map_to_list m)) : gmap string V) = m.
Proof. rewrite firstn_all. apply list_to_map_to_list. Qed.

Section RunProperties.

Context {float : Type} {ops : FloatOps float}.

Variable compare : list string -> list string -> list string.

Lemma run_one_no_zero_division (runs : list Submission) :
  no_zero_division (run_one compare runs).
Proof.
  unfold run_one. cbv zeta.
  rewrite assign_inc_dev_score_trail_spec. cbn [mbind result_bind].
  apply no_zero_division_bind; [apply assign_loc_trail_no_zero_division |]. intros lt.
  destruct (assign_time_trail_returns runs) as [tt ->]. cbn [mbind result_bind].
  apply no_zero_division_bind; [apply assign_coding_trail_no_zero_division |]. intros ct.
  rewrite assign_drastic_change_trail_spec. apply no_zero_division_Ok.
Qed.

Lemma run_labs (user_id : string) (labs : gmap string (list Submission))
    (incdev_data : gmap string (gmap string incdev_record)) :
  incdev_data !! user_id = None ->
  let loop :=
    for_each (map_to_list labs)
      (fun '(lab_id, runs) incdev_data =>
         r ← run_one compare runs;
         Ok (<[user_id := <[lab_id := r]> (default ∅ (incdev_data !! user_id))]>
               incdev_data))
      (<[user_id := ∅]> incdev_data) in
  (forall out, loop = Ok out ->
     exists recs, out = <[user_id := recs]> incdev_data /\
       map_Forall2 (M := gmap string) (fun _ runs r => run_one compare runs = Ok r) labs recs) /\
  ((forall lab_id runs, labs !! lab_id = Some runs ->
      exists r, run_one compare runs = Ok r) ->
   exists out, loop = Ok out).
Proof.
  intros Hfresh loop.
  set (P := fun (k : nat) (s : gmap string (gmap string incdev_record)) =>
              exists recs, s = <[user_id := recs]> incdev_data /\
                map_Forall2 (M := gmap string) (fun _ runs r => run_one compare runs = Ok r)
                  (list_to_map (take k (map_to_list labs)) : gmap string (list Submission))
                  recs).
  assert (H0 : P O (<[user_id := ∅]> incdev_data)).
  { exists ∅. split; [reflexivity |]. cbn. apply map_Forall2_empty. }
  assert (Hstep : forall k lab_id runs s r,
            map_to_list labs !! k = Some (lab_id, runs) -> P k s ->
            run_one compare runs = Ok r ->
            P (Datatypes.S k)
              (<[user_id := <[lab_id := r]> (default ∅ (s !! user_id))]> s)).
  { unfold P. intros k lab_id runs s r Hk (recs & -> & Hrel) Hr.
    destruct (take_map_to_list_step labs k lab_id runs Hk) as (-> & _ & _).
    rewrite lookup_insert_eq. cbn [default from_option]. rewrite insert_insert_eq.
    exists (<[lab_id := r]> recs). split; [reflexivity |].
    apply map_Forall2_insert_2; assumption. }
  split.
  - intros out Hrun.
    rewrite <- (take_map_to_list_all labs).
    revert Hrun. apply (for_each_partial P); [exact H0 |].
    intros k [lab_id runs] s s1 Hk HP Hbody.
    destruct (run_one compare runs) as [r | e] eqn:Hr; [| discriminate].
    cbn [mbind result_bind] in Hbody. injection Hbody as <-.
    apply (Hstep k lab_id runs s r Hk HP Hr).
  - intros Hall.
    destruct (for_each_invariant P (map_to_list labs)
                (fun '(lab_id, runs) incdev_data =>
                   r ← run_one compare runs;
                   Ok (<[user_id := <[lab_id := r]> (default ∅ (incdev_data !! user_id))]>
                         incdev_data))
                (<[user_id := ∅]> incdev_data)) as (out & Hrun & _).
    + exact H0.
    + intros k [lab_id runs] s Hk HP.
      destruct (take_map_to_list_step labs k lab_id runs Hk) as (_ & _ & Hin).
      destruct (Hall lab_id runs Hin) as [r Hr].
      rewrite Hr. cbn [mbind result_bind]. eexists. split; [reflexivity |].
      apply (Hstep k lab_id runs s r Hk HP Hr).
    + exists out. exact Hrun.
Qed.

(** X14. [run] is all or nothing. It returns exactly when the computation
    of every (student, lab) pair of the data returns, and the report then
    has an entry for exactly the pairs of the data, holding the record
    computed from the runs of the pair. When any pair fails, [run] returns
    no report at all and stops with [IndexError]. *)
Theorem run_reports_every_pair (data : gmap string (gmap string (list Submission))) :
  (forall out, run compare data = Ok out -> reported compare data out) /\
  ((exists out, run compare data = Ok out) <->
   (forall user_id labs lab_id runs,
      data !! user_id = Some labs -> labs !! lab_id = Some runs ->
      exists r, run_one compare runs = Ok r)) /\
  ((forall out, run compare data <> Ok out) ->
   run compare data = Raise IndexError).
Proof.
  set (P := fun (k : nat) (s : gmap string (gmap string incdev_record)) =>
              reported compare (list_to_map (take k (map_to_list data))) s).
  assert (H0 : P O ∅) by apply map_Forall2_empty.
  assert (Hfresh : forall k user_id labs s,
            map_to_list data !! k = Some (user_id, labs) -> P k s ->
            s !! user_id = None).
  { unfold P. intros k user_id labs s Hk HP.
    destruct (take_map_to_list_step data k user_id labs Hk) as (_ & Hnone & _).
    specialize (HP user_id). rewrite Hnone in HP. inversion HP. reflexivity. }
  assert (Hstep : forall k user_id labs s recs,
            map_to_list data !! k = Some (user_id, labs) -> P k s ->
            map_Forall2 (M := gmap string) (fun _ runs r => run_one compare runs = Ok r) labs recs ->
            P (Datatypes.S k) (<[user_id := recs]> s)).
  { unfold P. intros k user_id labs s recs Hk HP Hrel.
    destruct (take_map_to_list_step data k user_id labs Hk) as (-> & _ & _).
    apply map_Forall2_insert_2; assumption. }
  assert (Hpartial : forall out, run compare data = Ok out -> reported compare data out).
  { intros out Hrun. rewrite <- (take_map_to_list_all data) at 1.
    revert Hrun. unfold run. apply (for_each_partial P); [exact H0 |].
    intros k [user_id labs] s s1 Hk HP Hbody.
    pose proof (Hfresh k user_id labs s Hk HP) as Hnone.
    cbv zeta in Hbody. rewrite Hnone in Hbody.
    destruct (run_labs user_id labs s Hnone) as [Hout _].
    destruct (Hout s1 Hbody) as (recs & -> & Hrel).
    apply (Hstep k user_id labs s recs Hk HP Hrel). }
  split; [exact Hpartial |]. split.
  - split.
    + intros [out Hrun] user_id labs lab_id runs Hu Hl.
      pose proof (Hpartial out Hrun user_id) as Hrel. rewrite Hu in Hrel.
      inversion Hrel as [labs' recs Hrecs |]; subst.
      specialize (Hrecs lab_id). rewrite Hl in Hrecs.
      inversion Hrecs as [runs' r Hr |]; subst. exists r. exact Hr.
    + intros Hall. unfold run.
      match goal with
      | |- context [for_each _ ?body _] =>
          destruct (for_each_invariant P (map_to_list data) body ∅) as (out & Hrun & _)
      end.
      * exact H0.
      * intros k [user_id labs] s Hk HP.
        pose proof (Hfresh k user_id labs s Hk HP) as Hnone.
        cbv zeta. rewrite Hnone.
        destruct (take_map_to_list_step data k user_id labs Hk) as (_ & _ & Hin).
        destruct (run_labs user_id labs s Hnone) as [Hout Htotal].
        destruct Htotal as [s1 Hs1].
        { intros lab_id runs Hl. apply (Hall user_id labs lab_id runs Hin Hl). }
        exists s1. split; [exact Hs1 |].
        destruct (Hout s1 Hs1) as (recs & -> & Hrel).
        apply (Hstep k user_id labs s recs Hk HP Hrel).
      * exists out. exact Hrun.
  - intros Hfail.
    assert (Hz : no_zero_division (run compare data)).
    { unfold run. apply no_zero_division_for_each. intros [user_id labs] s.
      cbv zeta. apply no_zero_division_for_each. intros [lab_id runs] s'.
      apply no_zero_division_bind; [apply run_one_no_zero_division |].
      intros r. apply no_zero_division_Ok. }
    destruct (run compare data) as [out | e] eqn:E.
    + destruct (Hfail out). reflexivity.
    + destruct e; [reflexivity |]. exfalso. apply Hz. reflexivity.
Qed.

End RunProperties.
